(** * ci-autoscaling: the scale-up and scale-down functions

    A shallow embedding of [src/autoscaling/scale-up-function/func.py] and
    [src/autoscaling/scale-down-function/func.py].

    Both handlers are sequential Python programs that talk to the OCI SDK.
    They are embedded in a small state-and-exception monad over an
    arbitrary world [W]: every SDK call is answered by the world, which may
    return a value or raise, and is recorded in a log of events.

    Modelling conventions
    - Python exceptions: only the two classes the source distinguishes,
      [oci.exceptions.ServiceError] (with its HTTP status) and every other
      [Exception]; [str(e)] is the text carried by the value.  Exceptions
      that are not an [Exception] ([KeyboardInterrupt], [SystemExit]) are
      outside the model.
    - [datetime] values are integers counting microseconds on the UTC time
      line; [timedelta.total_seconds()] compared with an [int] number of
      seconds is the exact comparison of microseconds (float rounding of
      [total_seconds] is not modelled; it matters only for elapsed times
      above 2^34 seconds).  [float(n)] and [int(n * 0.75)] are the exact
      number and quotient (the floats agree with them below 2^53).
    - the objects of the SDK's model classes are records.  The class
      [BasicImagePullSecret] is the one the source constructs with keyword
      arguments ([username], [password]) that an SDK class may not declare,
      which is a [TypeError] at construction: its constructor is answered by
      the platform, [int(...)] likewise.
    - logging has no effect on the results and is left out;
      [time.sleep], [time.time], [datetime.now] and [datetime.utcnow] are
      answered by the world and do not raise.
    - [while elapsed < max_wait] loops take a fuel argument; running out of
      fuel is the separate outcome [OutOfFuel], shown unreachable below. *)

From Stdlib Require Import ZArith List String Ascii Lia Bool DecimalString.
From Stdlib Require Import Permutation Sorted.
Import ListNotations.
Open Scope string_scope.
Open Scope Z_scope.

(** ** Python values and exceptions *)

Inductive exn : Type :=
| ServiceError (status : Z) (text : string)   (* oci.exceptions.ServiceError *)
| Exception (text : string).                  (* any other Exception *)

(** [str(e)] *)
Definition str (e : exn) : string :=
  match e with
  | ServiceError _ t => t
  | Exception t => t
  end.

(** The values stored in the result dictionaries. *)
Inductive value : Type :=
| VStr (s : string)
| VInt (n : Z).

(** A result dictionary, keys in insertion order. *)
Definition dict := list (string * value).

Fixpoint dict_get (k : string) (d : dict) : option value :=
  match d with
  | [] => None
  | (k', v) :: d' => if String.eqb k k' then Some v else dict_get k d'
  end.

(** [f"{n}"] for an [int]. *)
Definition str_of_int (n : Z) : string := NilZero.string_of_int (Z.to_int n).

(** Truthiness of an optional string: [None] and [""] are falsy. *)
Definition truthy (o : option string) : bool :=
  match o with
  | Some s => negb (String.eqb s "")
  | None => false
  end.

(** [a or b] where [a] is an optional string and [b] a string. *)
Definition or_else (a : option string) (b : string) : string :=
  match a with
  | Some s => if String.eqb s "" then b else s
  | None => b
  end.

(** [os.environ] *)
Definition environ := string -> option string.

(** [os.environ.get(k, d)] *)
Definition environ_get (env : environ) (k d : string) : string :=
  match env k with
  | Some v => v
  | None => d
  end.

(** ** The OCI data the functions read *)

Record container_vnic := { vnic_id : option string }.

Record instance := {
  id : string;
  display_name : string;
  lifecycle_state : string;
  time_created : Z;
  vnics : list container_vnic
}.

Record vnic := { private_ip : option string }.

Record work_request_resource := {
  entity_type : string;
  identifier : string
}.

Record image_pull_secret := {
  secret_type : string;
  registry_endpoint : string;
  username : string;
  password : string
}.

Record create_container_instance_details := {
  cd_compartment_id : option string;
  cd_availability_domain : option string;
  cd_shape : string;
  cd_memory_in_gbs : Z;
  cd_ocpus : Z;
  cd_display_name : string;
  cd_image_pull_secrets : option (list image_pull_secret);
  cd_subnet_id : option string;
  cd_is_public_ip_assigned : bool;
  cd_vnic_display_name : string;
  cd_hostname_label : string;
  cd_container_display_name : string;
  cd_image_url : string;
  cd_environment_variables : list (string * string)
}.

Record health_checker_details := {
  hc_protocol : string;
  hc_port : Z;
  hc_url_path : string;
  hc_interval_in_millis : Z;
  hc_timeout_in_millis : Z;
  hc_retries : Z;
  hc_return_code : Z
}.

Record create_backend_set_details := {
  bs_name : string;
  bs_policy : string;
  bs_health_checker : health_checker_details
}.

Record create_backend_details := {
  be_ip_address : string;
  be_port : Z;
  be_weight : Z;
  be_backup : bool;
  be_drain : bool;
  be_offline : bool
}.

(** ** The SDK calls, indexed by the type of their answer *)

Module oci.

Inductive call : Type -> Type :=
| get_resource_principals_signer : call unit
| list_container_instances
    (compartment_id lifecycle_state display_name : option string)
  : call (list instance)
| get_container_instance (instance_ocid : string) : call instance
| create_container_instance (details : create_container_instance_details)
  : call (option string)                     (* the opc-work-request-id header *)
| get_work_request (work_request_id : string)
  : call (list work_request_resource)
| delete_container_instance (instance_ocid : string) : call unit
| get_vnic (vnic_ocid : string) : call vnic
| get_load_balancer (load_balancer_id : option string)
  : call (list string)                       (* the names of lb.backend_sets *)
| create_backend_set (details : create_backend_set_details)
    (load_balancer_id : option string) : call unit
| create_backend (details : create_backend_details)
    (load_balancer_id : option string) (backend_set_name : string) : call unit
| delete_backend (load_balancer_id : option string)
    (backend_set_name backend_name : string) : call unit.

(** The calls that change the fleet or the load balancer. *)
Definition mutating {A} (c : call A) : bool :=
  match c with
  | create_container_instance _ => true
  | delete_container_instance _ => true
  | create_backend_set _ _ => true
  | create_backend _ _ _ => true
  | delete_backend _ _ _ => true
  | _ => false
  end.

End oci.

Inductive event : Type :=
| Called {A : Type} (c : oci.call A)
| Slept (seconds : Z).

Definition is_mutation (ev : event) : bool :=
  match ev with
  | Called c => oci.mutating c
  | Slept _ => false
  end.

(** ** The world the functions run in *)

Class Platform (W : Type) := {
  (** answer of the SDK to a call: a value or a raised exception *)
  provider : forall A : Type, oci.call A -> W -> (exn + A) * W;
  (** [time.sleep(n)] *)
  sleeping : Z -> W -> W;
  (** [int(time.time())] *)
  time_time : W -> Z;
  (** [datetime.now(timezone.utc)], in microseconds *)
  datetime_now : W -> Z;
  (** [datetime.utcnow().isoformat()] *)
  utcnow_isoformat : W -> string;
  (** Python's [int(s)] on a string *)
  int : string -> exn + Z;
  (** [oci.container_instances.models.BasicImagePullSecret(secret_type=...,
      registry_endpoint=..., username=..., password=...)]: the object, or
      the exception of a class that rejects these keyword arguments *)
  BasicImagePullSecret : string -> string -> string -> string -> exn + image_pull_secret
}.

(** ** The monad *)

Inductive outcome (R : Type) : Type :=
| Returned (r : R)
| Raised (e : exn)
| OutOfFuel.
Arguments Returned {R} r.
Arguments Raised {R} e.
Arguments OutOfFuel {R}.

Definition state (W : Type) : Type := W * list event.

Definition M (W R : Type) : Type := state W -> outcome R * state W.

Section Monad.
Context {W : Type} `{Platform W}.
Local Abbreviation M := (M W).

Definition ret {R} (r : R) : M R := fun s => (Returned r, s).

Definition raise {R} (e : exn) : M R := fun s => (Raised e, s).

Definition out_of_fuel {R} : M R := fun s => (OutOfFuel, s).

Definition bind {A B} (m : M A) (k : A -> M B) : M B :=
  fun s =>
    match m s with
    | (Returned a, s') => k a s'
    | (Raised e, s') => (Raised e, s')
    | (OutOfFuel, s') => (OutOfFuel, s')
    end.

(** [try: body except Exception as e: handler(e)] *)
Definition try_except {R} (body : M R) (handler : exn -> M R) : M R :=
  fun s =>
    match body s with
    | (Raised e, s') => handler e s'
    | r => r
    end.

(** An SDK call: logged, then answered by the world. *)
Definition call {A} (c : oci.call A) : M A :=
  fun '(w, log) =>
    match provider A c w with
    | (inr a, w') => (Returned a, (w', log ++ [Called c])%list)
    | (inl e, w') => (Raised e, (w', log ++ [Called c])%list)
    end.

Definition sleep (n : Z) : M unit :=
  fun '(w, log) => (Returned tt, (sleeping n w, log ++ [Slept n])%list).

Definition observe {R} (f : W -> R) : M R :=
  fun '(w, log) => (Returned (f w), (w, log)).

Definition of_sum {R} (r : exn + R) : M R :=
  match r with
  | inr v => ret v
  | inl e => raise e
  end.

End Monad.

Declare Scope monad_scope.
Delimit Scope monad_scope with monad.
Notation "x <- c1 ;; c2" := (bind c1 (fun x => c2))
  (at level 61, c1 at next level, right associativity) : monad_scope.
Notation "c1 ;; c2" := (bind c1 (fun _ => c2))
  (at level 61, right associativity) : monad_scope.
Open Scope monad_scope.

Section Loops.
Context {W : Type} `{Platform W}.
Local Abbreviation M := (M W).

(** The polling loops of the source all have the shape
<<
    elapsed = 0
    while elapsed < max_wait:
        <body, which may return>
        time.sleep(interval)
        elapsed += interval
    <after>
>>
    [body] answers [Some v] when it returns [v] from the function and [None]
    when it falls through to the sleep. *)
Fixpoint while_elapsed {R} (fuel : nat) (elapsed max_wait interval : Z)
    (body : M (option R)) (after : M R) : M R :=
  if elapsed <? max_wait then
    match fuel with
    | O => out_of_fuel
    | S fuel' =>
        r <- body ;;
        match r with
        | Some v => ret v
        | None =>
            sleep interval ;;
            while_elapsed fuel' (elapsed + interval) max_wait interval body after
        end
    end
  else after.

(** Enough fuel for a loop that starts at [elapsed = 0] with a positive
    interval. *)
Definition fuel_for (max_wait : Z) : nat := Z.to_nat max_wait.

End Loops.

(** [s.startswith(prefix)] *)
Definition startswith (s prefix : string) : bool := String.prefix prefix s.

(** [len(l)] *)
Definition len {A} (l : list A) : Z := Z.of_nat (List.length l).

(** [max(l, key=key)] on a non-empty list [x :: l]: the first element whose
    key is the greatest. *)
Fixpoint max_by {A} (key : A -> Z) (best : A) (l : list A) : A :=
  match l with
  | [] => best
  | x :: l' => if key best <? key x then max_by key x l' else max_by key best l'
  end.

(** [sorted(l, key=key)]: Python's sort is stable, so the result is the
    one of a stable insertion sort. *)
Fixpoint insert_by {A} (key : A -> Z) (x : A) (l : list A) : list A :=
  match l with
  | [] => [x]
  | y :: l' => if key y <? key x then y :: insert_by key x l' else x :: y :: l'
  end.

Fixpoint sorted {A} (key : A -> Z) (l : list A) : list A :=
  match l with
  | [] => []
  | x :: l' => insert_by key x (sorted key l')
  end.

(** * scale-up-function/func.py *)

Module ScaleUp.

Record config := {
  compartment_id : option string;
  subnet_id : option string;
  availability_domain : option string;
  image_uri : string;
  container_name : string;
  display_name_prefix : string;
  memory_gb : Z;
  ocpus : Z;
  lb_ocid : option string;
  backend_set_name : string;
  app_port : Z;
  health_check_path : string;
  max_instances : Z;
  min_instances : Z;
  cooldown_seconds : Z;
  ocir_username : option string;
  ocir_auth_token : option string;
  ocir_registry : string
}.

Section Code.
Context {W : Type} `{Platform W}.
Local Abbreviation M := (M W).

(** [get_config]: the [int(...)] conversions are evaluated in the order of
    the dictionary display; the first one that fails raises. *)
Definition get_config (env : environ) : M config :=
  let image :=
    or_else (env "CONTAINER_IMAGE_URI")
      (environ_get env "IMAGE_URI" "docker.io/dralquinta/ci-autoscaling:latest") in
  memory <- of_sum (int (environ_get env "MEMORY_GB" "8")) ;;
  cpus <- of_sum (int (environ_get env "OCPUS" "1")) ;;
  port <- of_sum (int (environ_get env "APP_PORT" "8080")) ;;
  maxi <- of_sum (int (environ_get env "MAX_INSTANCES" "5")) ;;
  mini <- of_sum (int (environ_get env "MIN_INSTANCES" "1")) ;;
  cooldown <- of_sum (int (environ_get env "COOLDOWN_SECONDS" "120")) ;;
  ret {| compartment_id := env "COMPARTMENT_OCID";
         subnet_id := env "SUBNET_OCID";
         availability_domain := env "AD_NAME";
         image_uri := image;
         container_name := environ_get env "CONTAINER_NAME" "autoscaling-demo";
         display_name_prefix :=
           environ_get env "DISPLAY_NAME_PREFIX" "autoscaling-demo-instance";
         memory_gb := memory;
         ocpus := cpus;
         lb_ocid := env "LB_OCID";
         backend_set_name :=
           environ_get env "BACKEND_SET_NAME" "autoscaling-demo-backend-set";
         app_port := port;
         health_check_path := environ_get env "HEALTH_CHECK_PATH" "/actuator/health";
         max_instances := maxi;
         min_instances := mini;
         cooldown_seconds := cooldown;
         ocir_username := env "OCIR_USERNAME";
         ocir_auth_token := env "OCIR_AUTH_TOKEN";
         ocir_registry := environ_get env "OCIR_REGISTRY" "sa-santiago-1.ocir.io" |}.

(** The list comprehension shared by the three inventory readers. *)
Definition matching_instances (config : config) (items : list instance)
  : list instance :=
  filter (fun inst => startswith (display_name inst) (display_name_prefix config))
         items.

Definition count_active_instances (config : config) : M Z :=
  try_except
    (items <- call (oci.list_container_instances
                      (compartment_id config) (Some "ACTIVE") None) ;;
     ret (len (matching_instances config items)))
    (fun _ => ret 0).

Definition count_creating_instances (config : config) : M Z :=
  try_except
    (items <- call (oci.list_container_instances
                      (compartment_id config) (Some "CREATING") None) ;;
     ret (len (matching_instances config items)))
    (fun _ => ret 0).

(** [check_cooldown]: [True] when scaling is allowed. *)
Definition check_cooldown (config : config) : M bool :=
  try_except
    (items <- call (oci.list_container_instances (compartment_id config) None None) ;;
     match matching_instances config items with
     | [] => ret true
     | first :: rest =>
         let most_recent := max_by time_created first rest in
         now <- observe datetime_now ;;
         let time_since_creation := now - time_created most_recent in
         if time_since_creation <? cooldown_seconds config * 1000000
         then ret false
         else ret true
     end)
    (fun _ => ret true).

(** [for resource in work_request.resources: if ... == "containerInstance":
    return resource.identifier] *)
Fixpoint first_container_instance (resources : list work_request_resource)
  : option string :=
  match resources with
  | [] => None
  | resource :: rest =>
      if String.eqb (entity_type resource) "containerInstance"
      then Some (identifier resource)
      else first_container_instance rest
  end.

(** Lines 253-264 of [create_container_instance]: the image pull secrets,
    [None] unless both OCIR credentials are set and not empty; the
    construction of the secret may raise. *)
Definition image_pull_secrets (config : config)
  : exn + option (list image_pull_secret) :=
  match ocir_username config, ocir_auth_token config with
  | Some user, Some token =>
      if truthy (Some user) && truthy (Some token)
      then match BasicImagePullSecret "BASIC" (ocir_registry config) user token with
           | inr secret => inr (Some [secret])
           | inl e => inl e
           end
      else inr None
  | _, _ => inr None
  end.

(** Lines 267-295 of [create_container_instance]: the request. *)
Definition create_details (config : config) (timestamp : Z) (display_name : string)
    (image_pull_secrets : option (list image_pull_secret))
  : create_container_instance_details :=
  {| cd_compartment_id := compartment_id config;
     cd_availability_domain := availability_domain config;
     cd_shape := "CI.Standard.E4.Flex";
     cd_memory_in_gbs := memory_gb config;
     cd_ocpus := ocpus config;
     cd_display_name := display_name;
     cd_image_pull_secrets := image_pull_secrets;
     cd_subnet_id := subnet_id config;
     cd_is_public_ip_assigned := true;
     cd_vnic_display_name := display_name ++ "-vnic";
     cd_hostname_label := "ci-" ++ str_of_int timestamp;
     cd_container_display_name := container_name config;
     cd_image_url := image_uri config;
     cd_environment_variables :=
       [ ("JAVA_OPTS",
          "-Xmx" ++ str_of_int (Z.quot (memory_gb config * 3) 4) ++ "g -Xms"
                 ++ str_of_int (Z.quot (memory_gb config) 4) ++ "g");
         ("SPRING_PROFILES_ACTIVE", "production") ] |}.

Definition create_container_instance (config : config) : M string :=
  timestamp <- observe time_time ;;
  let display_name := display_name_prefix config ++ "-" ++ str_of_int timestamp in
  image_pull_secrets <- of_sum (image_pull_secrets config) ;;
  let create_details := create_details config timestamp display_name image_pull_secrets in
  work_request_id <- call (oci.create_container_instance create_details) ;;
  let fallback : M string :=
    sleep 15 ;;
    items <- call (oci.list_container_instances
                     (compartment_id config) None (Some display_name)) ;;
    match items with
    | first :: _ => ret (id first)
    | [] => raise (Exception "Failed to retrieve container instance OCID")
    end in
  match work_request_id with
  | Some wr =>
      if truthy work_request_id then
        sleep 10 ;;
        resources <- call (oci.get_work_request wr) ;;
        match first_container_instance resources with
        | Some ocid => ret ocid
        | None => fallback
        end
      else fallback
  | None => fallback
  end.

Definition wait_for_instance_state (instance_ocid target_state : string)
    (max_wait : Z) : M bool :=
  while_elapsed (fuel_for max_wait) 0 max_wait 5
    (try_except
       (inst <- call (oci.get_container_instance instance_ocid) ;;
        if String.eqb (lifecycle_state inst) target_state
        then ret (Some true)
        else ret None)
       (fun _ => ret None))
    (raise (Exception ("Timeout waiting for instance to reach "
                         ++ target_state ++ " state"))).

Definition get_instance_private_ip (instance_ocid : string) : M string :=
  while_elapsed (fuel_for 120) 0 120 5
    (try_except
       (inst <- call (oci.get_container_instance instance_ocid) ;;
        match vnics inst with
        | first :: _ =>
            match vnic_id first with
            | Some v =>
                if truthy (vnic_id first) then
                  vn <- call (oci.get_vnic v) ;;
                  match private_ip vn with
                  | Some ip => if truthy (private_ip vn) then ret (Some ip) else ret None
                  | None => ret None
                  end
                else ret None
            | None => ret None
            end
        | [] => ret None
        end)
       (fun _ => ret None))
    (raise (Exception "Failed to retrieve private IP address")).

Definition ensure_backend_set_exists (config : config) : M unit :=
  try_except
    (backend_sets <- call (oci.get_load_balancer (lb_ocid config)) ;;
     if existsb (String.eqb (backend_set_name config)) backend_sets then ret tt
     else
       let backend_set_details :=
         {| bs_name := backend_set_name config;
            bs_policy := "ROUND_ROBIN";
            bs_health_checker :=
              {| hc_protocol := "HTTP";
                 hc_port := app_port config;
                 hc_url_path := health_check_path config;
                 hc_interval_in_millis := 10000;
                 hc_timeout_in_millis := 3000;
                 hc_retries := 3;
                 hc_return_code := 200 |} |} in
       call (oci.create_backend_set backend_set_details (lb_ocid config)) ;;
       sleep 30)
    (fun e => raise e).

Definition add_backend_to_lb (config : config) (private_ip : string) : M unit :=
  let backend_details :=
    {| be_ip_address := private_ip;
       be_port := app_port config;
       be_weight := 1;
       be_backup := false;
       be_drain := false;
       be_offline := false |} in
  call (oci.create_backend backend_details (lb_ocid config) (backend_set_name config)) ;;
  sleep 20.

(** [config['compartment_id'][:20]] inside the log line: subscripting
    [None] raises [TypeError]. *)
Definition compartment_slice (config : config) : M unit :=
  match compartment_id config with
  | Some _ => ret tt
  | None => raise (Exception "'NoneType' object is not subscriptable")
  end.

(** The body of the [try] block of [handler] (lines 34-123).  The alarm
    event is parsed inside its own [try/except] and only logged, so [data]
    does not influence the run. *)
Definition handler_body (env : environ) (data : option string) : M dict :=
  config <- get_config env ;;
  compartment_slice config ;;
  call oci.get_resource_principals_signer ;;
  current_count <- count_active_instances config ;;
  creating_count <- count_creating_instances config ;;
  let total_count := current_count + creating_count in
  if total_count >=? max_instances config then
    ret [ ("status", VStr "skipped");
          ("message", VStr ("Already at maximum instances ("
                              ++ str_of_int (max_instances config) ++ ")"));
          ("active_count", VInt current_count);
          ("creating_count", VInt creating_count);
          ("total_count", VInt total_count) ]
  else if creating_count >? 0 then
    ret [ ("status", VStr "skipped");
          ("message", VStr ("Scale-up already in progress ("
                              ++ str_of_int creating_count
                              ++ " instances being created)"));
          ("active_count", VInt current_count);
          ("creating_count", VInt creating_count) ]
  else
    allowed <- check_cooldown config ;;
    if negb allowed then
      ret [ ("status", VStr "skipped");
            ("message",
             VStr "Cooldown period active (2 minutes since last scale operation)");
            ("current_count", VInt current_count) ]
    else
      instance_ocid <- create_container_instance config ;;
      wait_for_instance_state instance_ocid "ACTIVE" 300 ;;
      private_ip <- get_instance_private_ip instance_ocid ;;
      ensure_backend_set_exists config ;;
      add_backend_to_lb config private_ip ;;
      timestamp <- observe utcnow_isoformat ;;
      ret [ ("status", VStr "success");
            ("message", VStr "Container instance scaled up successfully");
            ("instance_ocid", VStr instance_ocid);
            ("private_ip", VStr private_ip);
            ("total_instances", VInt (current_count + 1));
            ("timestamp", VStr timestamp) ].

(** The dictionary built by the [except Exception as e] clause. *)
Definition error_result (e : exn) : M dict :=
  timestamp <- observe utcnow_isoformat ;;
  ret [ ("status", VStr "error");
        ("message", VStr (str e));
        ("timestamp", VStr timestamp) ].

(** [handler(ctx, data)] *)
Definition handler (env : environ) (data : option string) : M dict :=
  try_except (handler_body env data) error_result.

End Code.
End ScaleUp.

(** * scale-down-function/func.py *)

Module ScaleDown.

Record config := {
  compartment_id : option string;
  subnet_id : option string;
  display_name_prefix : string;
  lb_ocid : option string;
  backend_set_name : string;
  app_port : Z;
  max_instances : Z;
  min_instances : Z
}.

Section Code.
Context {W : Type} `{Platform W}.
Local Abbreviation M := (M W).

Definition get_config (env : environ) : M config :=
  port <- of_sum (int (environ_get env "APP_PORT" "8080")) ;;
  maxi <- of_sum (int (environ_get env "MAX_INSTANCES" "5")) ;;
  mini <- of_sum (int (environ_get env "MIN_INSTANCES" "1")) ;;
  ret {| compartment_id := env "COMPARTMENT_OCID";
         subnet_id := env "SUBNET_OCID";
         display_name_prefix :=
           environ_get env "DISPLAY_NAME_PREFIX" "autoscaling-demo-instance";
         lb_ocid := env "LB_OCID";
         backend_set_name :=
           environ_get env "BACKEND_SET_NAME" "autoscaling-demo-backend-set";
         app_port := port;
         max_instances := maxi;
         min_instances := mini |}.

Definition list_active_instances (config : config) : M (list instance) :=
  try_except
    (items <- call (oci.list_container_instances
                      (compartment_id config) (Some "ACTIVE") None) ;;
     ret (filter (fun inst =>
                    startswith (display_name inst) (display_name_prefix config))
                 items))
    (fun _ => ret []).

(** Oldest first: [sorted(instances, key=lambda x: x.time_created)[0]]. *)
Definition select_instance_for_removal (instances : list instance) : M instance :=
  match instances with
  | [] => raise (Exception "No instances available for removal")
  | _ :: _ =>
      match sorted time_created instances with
      | first :: _ => ret first
      | [] => raise (Exception "list index out of range")
      end
  end.

Definition get_instance_private_ip (instance_ocid : string) : M string :=
  found <-
    try_except
      (inst <- call (oci.get_container_instance instance_ocid) ;;
       match vnics inst with
       | first :: _ =>
           match vnic_id first with
           | Some v =>
               if truthy (vnic_id first) then
                 vn <- call (oci.get_vnic v) ;;
                 match private_ip vn with
                 | Some ip => if truthy (private_ip vn) then ret (Some ip) else ret None
                 | None => ret None
                 end
               else ret None
           | None => ret None
           end
       | [] => ret None
       end)
      (fun _ => ret None) ;;
  match found with
  | Some ip => ret ip
  | None => raise (Exception "Failed to retrieve private IP address")
  end.

Definition remove_backend_from_lb (config : config) (private_ip : string) : M unit :=
  let backend_name := private_ip ++ ":" ++ str_of_int (app_port config) in
  try_except
    (call (oci.delete_backend (lb_ocid config) (backend_set_name config) backend_name) ;;
     sleep 20)
    (fun e =>
       match e with
       | ServiceError status _ => if status =? 404 then ret tt else raise e
       | Exception _ => raise e
       end).

Definition delete_container_instance (instance_ocid : string) : M unit :=
  try_except
    (call (oci.delete_container_instance instance_ocid) ;;
     sleep 10 ;;
     while_elapsed (fuel_for 120) 0 120 10
       (try_except
          (inst <- call (oci.get_container_instance instance_ocid) ;;
           if String.eqb (lifecycle_state inst) "DELETED"
           then ret (Some tt)
           else ret None)
          (fun e =>
             match e with
             | ServiceError status _ => if status =? 404 then ret (Some tt) else ret None
             | Exception _ => raise e
             end))
       (ret tt))
    (fun e =>
       match e with
       | ServiceError status _ => if status =? 404 then ret tt else raise e
       | Exception _ => raise e
       end).

(** [config['compartment_id'][:20]] inside the log line. *)
Definition compartment_slice (config : config) : M unit :=
  match compartment_id config with
  | Some _ => ret tt
  | None => raise (Exception "'NoneType' object is not subscriptable")
  end.

(** The body of the [try] block of [handler] (lines 34-100), with the
    victim selection it calls as a parameter [select]; the source calls
    [select_instance_for_removal] there.  The alarm event is parsed inside
    its own [try/except] and only logged, so [data] does not influence the
    run. *)
Definition handler_body_with (select : list instance -> M instance)
    (env : environ) (data : option string) : M dict :=
  config <- get_config env ;;
  compartment_slice config ;;
  call oci.get_resource_principals_signer ;;
  instances <- list_active_instances config ;;
  if len instances <=? min_instances config then
    ret [ ("status", VStr "skipped");
          ("message", VStr ("Already at minimum instances ("
                              ++ str_of_int (min_instances config) ++ ")"));
          ("current_count", VInt (len instances)) ]
  else
    instance_to_remove <- select instances ;;
    private_ip <-
      try_except
        (private_ip <- get_instance_private_ip (id instance_to_remove) ;;
         remove_backend_from_lb config private_ip ;;
         ret private_ip)
        (fun _ => ret "unknown") ;;
    delete_container_instance (id instance_to_remove) ;;
    timestamp <- observe utcnow_isoformat ;;
    ret [ ("status", VStr "success");
          ("message", VStr "Container instance scaled down successfully");
          ("instance_ocid", VStr (id instance_to_remove));
          ("instance_name", VStr (display_name instance_to_remove));
          ("private_ip", VStr private_ip);
          ("total_instances", VInt (len instances - 1));
          ("timestamp", VStr timestamp) ].

(** The dictionary built by the [except Exception as e] clause. *)
Definition error_result (e : exn) : M dict :=
  timestamp <- observe utcnow_isoformat ;;
  ret [ ("status", VStr "error");
        ("message", VStr (str e));
        ("timestamp", VStr timestamp) ].

Definition handler_with (select : list instance -> M instance)
    (env : environ) (data : option string) : M dict :=
  try_except (handler_body_with select env data) error_result.

Definition handler_body : environ -> option string -> M dict :=
  handler_body_with select_instance_for_removal.

(** [handler(ctx, data)] *)
Definition handler : environ -> option string -> M dict :=
  handler_with select_instance_for_removal.

End Code.
End ScaleDown.

(** * Vocabulary of the specification *)

(** No call that changes the fleet or the load balancer was made. *)
Definition no_mutation (log : list event) : Prop :=
  Forall (fun ev => is_mutation ev = false) log.

(** The result's message contains [word]. *)
Definition message_mentions (word : string) (d : dict) : Prop :=
  exists m before after,
    dict_get "message" d = Some (VStr m) /\ m = before ++ word ++ after.

(** The statuses a result may carry. *)
Definition structured (d : dict) : Prop :=
  dict_get "status" d = Some (VStr "success") \/
  dict_get "status" d = Some (VStr "skipped") \/
  dict_get "status" d = Some (VStr "error").

(** The greatest creation timestamp of a non-empty list of instances. *)
Definition latest_creation (first : instance) (rest : list instance) : Z :=
  fold_left Z.max (map time_created rest) (time_created first).

(** [v] is the first listed of the instances of [l] created earliest. *)
Definition first_earliest (v : instance) (l : list instance) : Prop :=
  exists before after,
    l = (before ++ v :: after)%list /\
    (forall x, In x before -> time_created v < time_created x) /\
    (forall x, In x after -> time_created v <= time_created x).

(** [v] has the least pair (creation timestamp, identifier) of [l], the
    identifiers compared as strings. *)
Definition least_by_time_then_id (v : instance) (l : list instance) : Prop :=
  In v l /\
  forall x, In x l ->
    time_created v < time_created x \/
    (time_created v = time_created x /\ String.leb (id v) (id x) = true).

Definition is_delete_backend (ev : event) : bool :=
  match ev with
  | Called (oci.delete_backend _ _ _) => true
  | _ => false
  end.

Definition read_only (ev : event) : Prop := is_mutation ev = false.

Definition is_create (ev : event) : Prop :=
  exists details, ev = Called (oci.create_container_instance details).

(** The log of [n] polls that settle nothing: the call [c], then
    [time.sleep(interval)], [n] times. *)
Fixpoint polls {A} (c : oci.call A) (interval : Z) (n : nat) : list event :=
  match n with
  | O => []
  | S n' => Called c :: Slept interval :: polls c interval n'
  end.

(** The number of turns of [while elapsed < max_wait] when [elapsed] starts
    at 0 and grows by [interval]. *)
Definition iterations (max_wait interval : Z) : Z :=
  Z.max 0 ((max_wait + interval - 1) / interval).

Section Vocabulary.
Context {W : Type} `{Platform W}.

(** The first thing a computation adds to the log satisfies [Q]. *)
Definition begins_with {R} (Q : event -> Prop) (m : M W R) : Prop :=
  forall s, exists ev l, Q ev /\ snd (snd (m s)) = (snd s ++ ev :: l)%list.

(** Everything a computation adds to the log satisfies [P]. *)
Definition emits {R} (P : event -> Prop) (m : M W R) : Prop :=
  forall s, exists l, snd (snd (m s)) = (snd s ++ l)%list /\ Forall P l.

(** The computation never runs out of fuel. *)
Definition terminates {R} (m : M W R) : Prop :=
  forall s, fst (m s) <> OutOfFuel.

(** Every value the computation returns satisfies [Q]. *)
Definition returns {R} (Q : R -> Prop) (m : M W R) : Prop :=
  forall s r s', m s = (Returned r, s') -> Q r.

(** Lines 45-52 of both handlers: configuration, the log line that slices
    the compartment id, and the signer. *)
Definition scale_up_startup (env : environ) : M W ScaleUp.config :=
  config <- ScaleUp.get_config env ;;
  ScaleUp.compartment_slice config ;;
  call oci.get_resource_principals_signer ;;
  ret config.

Definition scale_down_startup (env : environ) : M W ScaleDown.config :=
  config <- ScaleDown.get_config env ;;
  ScaleDown.compartment_slice config ;;
  call oci.get_resource_principals_signer ;;
  ret config.

(** The world after an event, and after the events of a log: only the SDK
    calls and [time.sleep] change the world, and both are logged. *)
Definition effect (ev : event) (w : W) : W :=
  match ev with
  | Called c => snd (provider _ c w)
  | Slept n => sleeping n w
  end.

Definition replay (log : list event) (w : W) : W :=
  fold_left (fun w' ev => effect ev w') log w.

(** The answer of the provider to the call [c] made once a run that started
    in the world [w] has logged the events [before]. *)
Definition answer_after (w : W) (before : list event) {A} (c : oci.call A)
  : exn + A :=
  fst (provider A c (replay before w)).

(** A run that started in the world [w] and logged [log] made the call [c]
    and was answered [r]. *)
Definition answered (w : W) (log : list event) {A} (c : oci.call A) (r : exn + A)
  : Prop :=
  exists before after,
    log = (before ++ Called c :: after)%list /\ answer_after w before c = r.

(** The OCIR credentials of the configuration: not both set, which asks for
    no pull secret; or both set and not empty, with the object or the
    exception the SDK answers to the construction of the secret. *)
Definition no_pull_secret (cfg : ScaleUp.config) : Prop :=
  truthy (ScaleUp.ocir_username cfg) && truthy (ScaleUp.ocir_auth_token cfg) = false.

Definition pull_secret_answer (cfg : ScaleUp.config) (r : exn + image_pull_secret)
  : Prop :=
  exists user token,
    ScaleUp.ocir_username cfg = Some user /\ user <> "" /\
    ScaleUp.ocir_auth_token cfg = Some token /\ token <> "" /\
    BasicImagePullSecret "BASIC" (ScaleUp.ocir_registry cfg) user token = r.

(** The pull secrets a creation request carries: none when none is asked
    for, the one the SDK built otherwise. *)
Definition pull_secrets_sent (cfg : ScaleUp.config)
    (secrets : option (list image_pull_secret)) : Prop :=
  (no_pull_secret cfg /\ secrets = None) \/
  (exists secret, pull_secret_answer cfg (inr secret) /\ secrets = Some [secret]).

(** The scale-up handler, past its checks in the state [s], goes on to the
    creation of an instance: its next call is the creation request, unless
    the SDK refuses the pull secret, which ends the invocation there with an
    error result; either way the result is not skipped. *)
Definition proceeds_to_create (env : environ) (data : option string) (w : W)
    (cfg : ScaleUp.config) (s : state W) : Prop :=
  let run := ScaleUp.handler env data (w, []) in
  (no_pull_secret cfg \/ (exists secret, pull_secret_answer cfg (inr secret)) ->
   exists ev rest,
     is_create ev /\ snd (snd run) = (snd s ++ ev :: rest)%list) /\
  (forall e,
      pull_secret_answer cfg (inl e) ->
      run = (Returned [ ("status", VStr "error");
                        ("message", VStr (str e));
                        ("timestamp", VStr (utcnow_isoformat (fst s))) ], s)) /\
  (exists d,
      fst run = Returned d /\
      (dict_get "status" d = Some (VStr "success") \/
       dict_get "status" d = Some (VStr "error"))).

End Vocabulary.

(** * A small simulated cloud, to run the functions on concrete inputs *)

Module Sim.

Record world := {
  fleet : list instance;
  clock : Z;                                        (* microseconds *)
  fault : forall A : Type, oci.call A -> option exn (* calls that raise *)
}.

Definition selected (filter_value : option string) (actual : string) : bool :=
  match filter_value with
  | Some v => String.eqb v actual
  | None => true
  end.

Definition answer {A} (c : oci.call A) (w : world) : (exn + A) * world :=
  match c in oci.call T return (exn + T) * world with
  | oci.get_resource_principals_signer => (inr tt, w)
  | oci.list_container_instances _ st name =>
      (inr (filter (fun i => selected st (lifecycle_state i)
                             && selected name (display_name i)) (fleet w)), w)
  | oci.get_container_instance ocid =>
      match find (fun i => String.eqb (id i) ocid) (fleet w) with
      | Some i => (inr i, w)
      | None => (inl (ServiceError 404 "NotAuthorizedOrNotFound"), w)
      end
  | oci.create_container_instance d =>
      (inr None,
       {| fleet := (fleet w ++
                    [ {| id := "ocid1." ++ cd_display_name d;
                         display_name := cd_display_name d;
                         lifecycle_state := "ACTIVE";
                         time_created := clock w;
                         vnics := [ {| vnic_id := Some "ocid1.vnic" |} ] |} ])%list;
          clock := clock w;
          fault := fault w |})
  | oci.get_work_request _ => (inr [], w)
  | oci.delete_container_instance ocid =>
      if existsb (fun i => String.eqb (id i) ocid) (fleet w)
      then (inr tt,
            {| fleet := filter (fun i => negb (String.eqb (id i) ocid)) (fleet w);
               clock := clock w;
               fault := fault w |})
      else (inl (ServiceError 404 "NotAuthorizedOrNotFound"), w)
  | oci.get_vnic _ => (inr {| private_ip := Some "10.0.0.7" |}, w)
  | oci.get_load_balancer _ => (inr ["autoscaling-demo-backend-set"], w)
  | oci.create_backend_set _ _ => (inr tt, w)
  | oci.create_backend _ _ _ => (inr tt, w)
  | oci.delete_backend _ _ _ => (inr tt, w)
  end.

Definition digit (c : ascii) : option Z :=
  let n := Z.of_N (N_of_ascii c) - 48 in
  if (0 <=? n) && (n <=? 9) then Some n else None.

Fixpoint digits (acc : Z) (s : string) : option Z :=
  match s with
  | EmptyString => Some acc
  | String c s' =>
      match digit c with
      | Some d => digits (10 * acc + d) s'
      | None => None
      end
  end.

(** [int(s)] on plain decimal literals. *)
Definition parse_int (s : string) : exn + Z :=
  let invalid := inl (Exception ("invalid literal for int() with base 10: '"
                                   ++ s ++ "'")) in
  match s with
  | EmptyString => invalid
  | String "-" s' =>
      match s', digits 0 s' with
      | String _ _, Some n => inr (- n)
      | _, _ => invalid
      end
  | String _ _ =>
      match digits 0 s with
      | Some n => inr n
      | None => invalid
      end
  end.

(** The [TypeError] of a model class given keyword arguments it does not
    declare. *)
Definition unrecognized_keyword_arguments : exn :=
  Exception "Unrecognized keyword arguments: username, password".

#[global] Instance platform : Platform world := {
  provider A c w :=
    match fault w A c with
    | Some e => (inl e, w)
    | None => answer c w
    end;
  sleeping n w :=
    {| fleet := fleet w; clock := clock w + n * 1000000; fault := fault w |};
  time_time w := clock w / 1000000;
  datetime_now w := clock w;
  utcnow_isoformat w := "1970-01-01T00:00:00+" ++ str_of_int (clock w / 1000000);
  int := parse_int;
  BasicImagePullSecret _ _ _ _ := inl unrecognized_keyword_arguments
}.

Definition no_fault : forall A : Type, oci.call A -> option exn :=
  fun _ _ => None.

(** Every listing of instances raises. *)
Definition listing_fault : forall A : Type, oci.call A -> option exn :=
  fun _ c =>
    match c with
    | oci.list_container_instances _ _ _ => Some (ServiceError 500 "InternalError")
    | _ => None
    end.

(** Reading an instance raises, and so does deleting one. *)
Definition get_and_delete_fault : forall A : Type, oci.call A -> option exn :=
  fun _ c =>
    match c with
    | oci.get_container_instance _ => Some (ServiceError 503 "ServiceUnavailable")
    | oci.delete_container_instance _ => Some (ServiceError 500 "InternalError")
    | _ => None
    end.

(** Reading an instance raises; everything else works. *)
Definition get_fault : forall A : Type, oci.call A -> option exn :=
  fun _ c =>
    match c with
    | oci.get_container_instance _ => Some (ServiceError 503 "ServiceUnavailable")
    | _ => None
    end.

(** The backend and the instance are already gone. *)
Definition not_found_fault : forall A : Type, oci.call A -> option exn :=
  fun _ c =>
    match c with
    | oci.delete_backend _ _ _ => Some (ServiceError 404 "NotFound")
    | oci.delete_container_instance _ => Some (ServiceError 404 "NotFound")
    | _ => None
    end.

(** Deleting a backend or an instance is refused. *)
Definition conflict_fault : forall A : Type, oci.call A -> option exn :=
  fun _ c =>
    match c with
    | oci.delete_backend _ _ _ => Some (ServiceError 409 "Conflict")
    | oci.delete_container_instance _ => Some (ServiceError 409 "Conflict")
    | _ => None
    end.

Definition member (name state : string) (created : Z) : instance :=
  {| id := "ocid1." ++ name;
     display_name := "autoscaling-demo-instance-" ++ name;
     lifecycle_state := state;
     time_created := created;
     vnics := [ {| vnic_id := Some "ocid1.vnic" |} ] |}.

(** Only the compartment is set: max 5, min 1, cooldown 120 s. *)
Definition env : environ :=
  fun k => if String.eqb k "COMPARTMENT_OCID" then Some "ocid1.compartment" else None.

(** The same with the credentials of a private registry. *)
Definition env_with_credentials : environ :=
  fun k =>
    if String.eqb k "COMPARTMENT_OCID" then Some "ocid1.compartment"
    else if String.eqb k "OCIR_USERNAME" then Some "tenancy/user"
    else if String.eqb k "OCIR_AUTH_TOKEN" then Some "token"
    else None.

Definition at_time (seconds : Z) (members : list instance)
    (faults : forall A : Type, oci.call A -> option exn) : world :=
  {| fleet := members; clock := seconds * 1000000; fault := faults |}.

Definition five_active : list instance :=
  [ member "a" "ACTIVE" 1000000; member "b" "ACTIVE" 2000000;
    member "c" "ACTIVE" 3000000; member "d" "ACTIVE" 4000000;
    member "e" "ACTIVE" 5000000 ].

Definition one_active : list instance := [ member "a" "ACTIVE" 1000000 ].

Definition two_active : list instance :=
  [ member "b" "ACTIVE" 7000000; member "a" "ACTIVE" 7000000 ].

(** A fleet member created at second 1 and, created at second 100, an
    instance of the same compartment that does not carry the prefix. *)
Definition with_stranger : list instance :=
  [ member "a" "ACTIVE" 1000000;
    {| id := "ocid1.batch";
       display_name := "nightly-batch";
       lifecycle_state := "ACTIVE";
       time_created := 100000000;
       vnics := [] |} ].

Definition one_creating : list instance :=
  [ member "a" "ACTIVE" 1000000; member "b" "CREATING" 2000000 ].

End Sim.

(** * A cloud whose instances never leave the CREATING state *)

Module Stuck.

Definition answer {A} (c : oci.call A) : exn + A :=
  match c in oci.call T return exn + T with
  | oci.get_container_instance ocid =>
      inr {| id := ocid;
             display_name := "autoscaling-demo-instance-stuck";
             lifecycle_state := "CREATING";
             time_created := 0;
             vnics := [] |}
  | _ => inl (ServiceError 500 "InternalError")
  end.

Definition platform : Platform unit := {|
  provider A c w := (answer c, w);
  sleeping _ w := w;
  time_time _ := 0;
  datetime_now _ := 0;
  utcnow_isoformat _ := "1970-01-01T00:00:00";
  int := Sim.parse_int;
  BasicImagePullSecret _ _ _ _ := inl Sim.unrecognized_keyword_arguments
|}.

End Stuck.


(** * A cloud that accepts deletions but never completes them *)

Module Lingering.

Definition answer {A} (c : oci.call A) : exn + A :=
  match c in oci.call T return exn + T with
  | oci.get_container_instance ocid =>
      inr {| id := ocid;
             display_name := "autoscaling-demo-instance-lingering";
             lifecycle_state := "DELETING";
             time_created := 0;
             vnics := [] |}
  | oci.delete_container_instance _ => inr tt
  | _ => inl (ServiceError 500 "InternalError")
  end.

Definition platform : Platform unit := {|
  provider A c w := (answer c, w);
  sleeping _ w := w;
  time_time _ := 0;
  datetime_now _ := 0;
  utcnow_isoformat _ := "1970-01-01T00:00:00";
  int := Sim.parse_int;
  BasicImagePullSecret _ _ _ _ := inl Sim.unrecognized_keyword_arguments
|}.

End Lingering.


(** * A cloud that answers from a script *)

Module Scripted.

Record script := {
  created : option string;                 (* answer to a creation request *)
  resources : list work_request_resource;  (* answer to get_work_request *)
  listed : list instance;                  (* answer to every listing *)
  backend_sets : list string               (* answer to get_load_balancer *)
}.

Definition answer (sc : script) {A} (c : oci.call A) : exn + A :=
  match c in oci.call T return exn + T with
  | oci.get_resource_principals_signer => inr tt
  | oci.list_container_instances _ _ _ => inr (listed sc)
  | oci.create_container_instance _ => inr (created sc)
  | oci.get_work_request _ => inr (resources sc)
  | oci.get_load_balancer _ => inr (backend_sets sc)
  | oci.create_backend_set _ _ => inr tt
  | oci.create_backend _ _ _ => inr tt
  | _ => inl (ServiceError 500 "InternalError")
  end.

Definition platform (sc : script) : Platform unit := {|
  provider A c w := (answer sc c, w);
  sleeping _ w := w;
  time_time _ := 0;
  datetime_now _ := 0;
  utcnow_isoformat _ := "1970-01-01T00:00:00";
  int := Sim.parse_int;
  BasicImagePullSecret _ _ _ _ := inl Sim.unrecognized_keyword_arguments
|}.

End Scripted.


(** * Vocabulary of the further properties *)

(** Costs of one event: the seconds slept, one per SDK call, one per
    creation request, one per deletion request, one per backend removal. *)
Definition seconds_slept (ev : event) : Z :=
  match ev with
  | Slept n => n
  | Called _ => 0
  end.

Definition one_per_call (ev : event) : Z :=
  match ev with
  | Called _ => 1
  | Slept _ => 0
  end.

Definition one_per_creation (ev : event) : Z :=
  match ev with
  | Called (oci.create_container_instance _) => 1
  | _ => 0
  end.

Definition one_per_deletion (ev : event) : Z :=
  match ev with
  | Called (oci.delete_container_instance _) => 1
  | _ => 0
  end.

Definition one_per_backend_removal (ev : event) : Z :=
  match ev with
  | Called (oci.delete_backend _ _ _) => 1
  | _ => 0
  end.

(** The cost of a log. *)
Definition total (cost : event -> Z) (log : list event) : Z :=
  fold_right (fun ev acc => cost ev + acc) 0 log.

(** Calls that remove something, calls that create something. *)
Definition is_removal (ev : event) : bool :=
  match ev with
  | Called (oci.delete_container_instance _) => true
  | Called (oci.delete_backend _ _ _) => true
  | _ => false
  end.

Definition is_creation (ev : event) : bool :=
  match ev with
  | Called (oci.create_container_instance _) => true
  | Called (oci.create_backend_set _ _) => true
  | Called (oci.create_backend _ _ _) => true
  | _ => false
  end.

Definition is_load_balancer_call (ev : event) : bool :=
  match ev with
  | Called (oci.get_load_balancer _) => true
  | Called (oci.create_backend_set _ _) => true
  | Called (oci.create_backend _ _ _) => true
  | Called (oci.delete_backend _ _ _) => true
  | _ => false
  end.

(** The instance an event asks the provider to delete, if any. *)
Definition deleted_instance (ev : event) : option string :=
  match ev with
  | Called (oci.delete_container_instance ocid) => Some ocid
  | _ => None
  end.

(** The address and port an event registers in the load balancer, if any. *)
Definition registered_backend (ev : event) : option (string * Z) :=
  match ev with
  | Called (oci.create_backend details _ _) =>
      Some (be_ip_address details, be_port details)
  | _ => None
  end.

Section MoreVocabulary.
Context {W : Type} `{Platform W}.

(** What a computation adds to the log costs at most [budget]. *)
Definition spends {R} (cost : event -> Z) (budget : Z) (m : M W R) : Prop :=
  forall s, exists l, snd (snd (m s)) = (snd s ++ l)%list /\ total cost l <= budget.

(** The world of a run is the world its log leads to. *)
Definition tracks {R} (m : M W R) : Prop :=
  forall w0 s,
    fst s = replay (snd s) w0 ->
    fst (snd (m s)) = replay (snd (snd (m s))) w0.

(** Every exception the computation raises satisfies [Q]. *)
Definition raises {R} (Q : exn -> Prop) (m : M W R) : Prop :=
  forall s e s', m s = (Raised e, s') -> Q e.

(** What a computation adds to the log is a run of events satisfying [P1]
    followed by a run of events satisfying [P2]. *)
Definition phased {R} (P1 P2 : event -> Prop) (m : M W R) : Prop :=
  forall s, exists l1 l2,
    snd (snd (m s)) = (snd s ++ l1 ++ l2)%list /\ Forall P1 l1 /\ Forall P2 l2.

(** The computation adds nothing to the log and leaves the world as it is. *)
Definition silent {R} (m : M W R) : Prop :=
  forall s, snd (m s) = s.

End MoreVocabulary.


(** * Reasoning about runs *)

Section Reasoning.
Context {W : Type} `{Platform W}.
Local Abbreviation M := (M W).

Lemma turns_step max_wait elapsed interval :
  0 < interval -> elapsed < max_wait ->
  Z.max 0 ((max_wait - elapsed + interval - 1) / interval)
  = 1 + Z.max 0 ((max_wait - (elapsed + interval) + interval - 1) / interval).
Proof.
  intros Hi He.
  replace (max_wait - elapsed + interval - 1)
    with (max_wait - (elapsed + interval) + interval - 1 + 1 * interval) by lia.
  rewrite Z.div_add by lia.
  assert (0 <= (max_wait - (elapsed + interval) + interval - 1) / interval)
    by (apply Z.div_pos; lia).
  lia.
Qed.

Lemma bind_returned {A B} (m : M A) (k : A -> M B) s a s' :
  m s = (Returned a, s') -> bind m k s = k a s'.
Proof. intros E. unfold bind. now rewrite E. Qed.

Lemma bind_raised {A B} (m : M A) (k : A -> M B) s e s' :
  m s = (Raised e, s') -> bind m k s = (Raised e, s').
Proof. intros E. unfold bind. now rewrite E. Qed.

Lemma try_returned {R} (body : M R) handler s r s' :
  body s = (Returned r, s') -> try_except body handler s = (Returned r, s').
Proof. intros E. unfold try_except. now rewrite E. Qed.

Lemma try_raised {R} (body : M R) handler s e s' :
  body s = (Raised e, s') -> try_except body handler s = handler e s'.
Proof. intros E. unfold try_except. now rewrite E. Qed.

Lemma call_returned {A} (c : oci.call A) w log a w' :
  provider A c w = (inr a, w') ->
  call c (w, log) = (Returned a, (w', log ++ [Called c])%list).
Proof. intros E. unfold call. now rewrite E. Qed.

Lemma call_raised {A} (c : oci.call A) w log e w' :
  provider A c w = (inl e, w') ->
  call c (w, log) = (Raised e, (w', log ++ [Called c])%list).
Proof. intros E. unfold call. now rewrite E. Qed.

(** ** What a computation adds to the log *)

Lemma emits_ret {R} P (r : R) : emits P (ret r : M R).
Proof. intros s. exists []. simpl. now rewrite app_nil_r. Qed.

Lemma emits_raise {R} P e : emits P (raise e : M R).
Proof. intros s. exists []. simpl. now rewrite app_nil_r. Qed.

Lemma emits_out_of_fuel {R} P : emits P (out_of_fuel : M R).
Proof. intros s. exists []. simpl. now rewrite app_nil_r. Qed.

Lemma emits_of_sum {R} P (r : exn + R) : emits P (of_sum r : M R).
Proof. destruct r; [apply emits_raise | apply emits_ret]. Qed.

Lemma emits_observe {R} P (f : W -> R) : emits P (observe f).
Proof. intros [w log]. exists []. simpl. now rewrite app_nil_r. Qed.

Lemma emits_call {A} (P : event -> Prop) (c : oci.call A) :
  P (Called c) -> emits P (call c).
Proof.
  intros Pc [w log]. exists [Called c]. unfold call.
  destruct (provider A c w) as [[e | a] w']; simpl; auto.
Qed.

Lemma emits_sleep (P : event -> Prop) n : P (Slept n) -> emits P (sleep n).
Proof. intros Pn [w log]. exists [Slept n]. simpl. auto. Qed.

Lemma emits_bind {A B} P (m : M A) (k : A -> M B) :
  emits P m -> (forall a, emits P (k a)) -> emits P (bind m k).
Proof.
  intros Hm Hk s. unfold bind.
  destruct (Hm s) as (l1 & E1 & F1).
  destruct (m s) as [[a | e | ] s1]; simpl in E1.
  - destruct (Hk a s1) as (l2 & E2 & F2).
    exists (l1 ++ l2)%list. rewrite E2, E1, app_assoc.
    split; [reflexivity | now apply Forall_app].
  - exists l1. simpl. auto.
  - exists l1. simpl. auto.
Qed.

Lemma emits_try {R} P (body : M R) handler :
  emits P body -> (forall e, emits P (handler e)) -> emits P (try_except body handler).
Proof.
  intros Hm Hk s. unfold try_except.
  destruct (Hm s) as (l1 & E1 & F1).
  destruct (body s) as [[a | e | ] s1]; simpl in E1.
  - exists l1. simpl. auto.
  - destruct (Hk e s1) as (l2 & E2 & F2).
    exists (l1 ++ l2)%list. rewrite E2, E1, app_assoc.
    split; [reflexivity | now apply Forall_app].
  - exists l1. simpl. auto.
Qed.

Lemma emits_while {R} (P : event -> Prop) fuel elapsed max_wait interval
    (body : M (option R)) after :
  P (Slept interval) -> emits P body -> emits P after ->
  emits P (while_elapsed fuel elapsed max_wait interval body after).
Proof.
  intros Ps Hb Ha. revert elapsed.
  induction fuel as [| fuel IH]; intros elapsed; simpl;
    destruct (elapsed <? max_wait); auto using emits_out_of_fuel.
  apply emits_bind; [assumption |].
  intros [v |]; [apply emits_ret |].
  apply emits_bind; [now apply emits_sleep | intros _; apply IH].
Qed.

Lemma begins_call {A R} (Q : event -> Prop) (c : oci.call A) (k : A -> M R) :
  Q (Called c) -> (forall a, emits (fun _ => True) (k a)) ->
  begins_with Q (bind (call c) k).
Proof.
  intros Qc Hk [w log]. exists (Called c). unfold bind, call.
  destruct (provider A c w) as [[e | a] w'].
  - exists []. auto.
  - destruct (Hk a (w', (log ++ [Called c])%list)) as (l & E & _).
    exists l. split; [assumption |].
    rewrite E. simpl. now rewrite <- app_assoc.
Qed.

Lemma begins_observe {A R} (Q : event -> Prop) (f : W -> A) (k : A -> M R) :
  (forall a, begins_with Q (k a)) -> begins_with Q (bind (observe f) k).
Proof. intros Hk [w log]. apply Hk. Qed.

Lemma begins_ret {A R} (Q : event -> Prop) (a : A) (k : A -> M R) :
  begins_with Q (k a) -> begins_with Q (bind (ret a) k).
Proof. intros Hk s. exact (Hk s). Qed.

Lemma begins_bind {A R} (Q : event -> Prop) (m : M A) (k : A -> M R) :
  begins_with Q m -> (forall a, emits (fun _ => True) (k a)) ->
  begins_with Q (bind m k).
Proof.
  intros Hm Hk s. destruct (Hm s) as (ev & l & Qev & E). exists ev.
  unfold bind. destruct (m s) as [[a | e | ] s1]; simpl in E.
  - destruct (Hk a s1) as (l2 & E2 & _). exists (l ++ l2)%list.
    split; [assumption |].
    rewrite E2, E. now rewrite <- app_assoc.
  - now exists l.
  - now exists l.
Qed.

Lemma begins_try {R} (Q : event -> Prop) (body : M R) handler :
  begins_with Q body -> (forall e, emits (fun _ => True) (handler e)) ->
  begins_with Q (try_except body handler).
Proof.
  intros Hm Hk s. destruct (Hm s) as (ev & l & Qev & E). exists ev.
  unfold try_except. destruct (body s) as [[a | e | ] s1]; simpl in E.
  - now exists l.
  - destruct (Hk e s1) as (l2 & E2 & _). exists (l ++ l2)%list.
    split; [assumption |].
    rewrite E2, E. now rewrite <- app_assoc.
  - now exists l.
Qed.

(** ** Fuel *)

Lemma terminates_ret {R} (r : R) : terminates (ret r : M R).
Proof. intros s. discriminate. Qed.

Lemma terminates_raise {R} e : terminates (raise e : M R).
Proof. intros s. discriminate. Qed.

Lemma terminates_of_sum {R} (r : exn + R) : terminates (of_sum r : M R).
Proof. destruct r; intros s; discriminate. Qed.

Lemma terminates_observe {R} (f : W -> R) : terminates (observe f).
Proof. intros [w log]. discriminate. Qed.

Lemma terminates_call {A} (c : oci.call A) : terminates (call c).
Proof.
  intros [w log]. unfold call.
  destruct (provider A c w) as [[e | a] w']; discriminate.
Qed.

Lemma terminates_sleep n : terminates (sleep n).
Proof. intros [w log]. discriminate. Qed.

Lemma terminates_bind {A B} (m : M A) (k : A -> M B) :
  terminates m -> (forall a, terminates (k a)) -> terminates (bind m k).
Proof.
  intros Hm Hk s. unfold bind. specialize (Hm s).
  destruct (m s) as [[a | e | ] s1]; simpl in *;
    [apply Hk | discriminate | contradiction].
Qed.

Lemma terminates_try {R} (body : M R) handler :
  terminates body -> (forall e, terminates (handler e)) ->
  terminates (try_except body handler).
Proof.
  intros Hm Hk s. unfold try_except. specialize (Hm s).
  destruct (body s) as [[a | e | ] s1]; simpl in *;
    [discriminate | apply Hk | contradiction].
Qed.

Lemma terminates_while {R} fuel elapsed max_wait interval
    (body : M (option R)) after :
  0 < interval -> (Z.to_nat (max_wait - elapsed) <= fuel)%nat ->
  terminates body -> terminates after ->
  terminates (while_elapsed fuel elapsed max_wait interval body after).
Proof.
  intros Hi Hf Hb Ha. revert elapsed Hf.
  induction fuel as [| fuel IH]; intros elapsed Hf; simpl;
    destruct (Z.ltb_spec elapsed max_wait); auto; try lia.
  apply terminates_bind; [assumption |].
  intros [v |]; [apply terminates_ret |].
  apply terminates_bind; [apply terminates_sleep | intros _; apply IH; lia].
Qed.

(** ** Returned values *)

Lemma returns_ret {R} (Q : R -> Prop) r : Q r -> returns Q (ret r : M R).
Proof. intros Qr s r' s' E. inversion E. now subst. Qed.

Lemma returns_raise {R} (Q : R -> Prop) e : returns Q (raise e : M R).
Proof. intros s r' s' E. discriminate. Qed.

Lemma returns_bind {A B} (Q : B -> Prop) (m : M A) (k : A -> M B) :
  (forall a, returns Q (k a)) -> returns Q (bind m k).
Proof.
  intros Hk s r s' E. unfold bind in E.
  destruct (m s) as [[a | e | ] s1]; try discriminate.
  exact (Hk a s1 r s' E).
Qed.

Lemma returns_try {R} (Q : R -> Prop) (body : M R) handler :
  returns Q body -> (forall e, returns Q (handler e)) ->
  returns Q (try_except body handler).
Proof.
  intros Hb Hh s r s' E. unfold try_except in E.
  destruct (body s) as [[a | e | ] s1] eqn:Eb; try discriminate.
  - inversion E; subst. exact (Hb s r s' Eb).
  - exact (Hh e s1 r s' E).
Qed.

Lemma returns_while {R} (Q : R -> Prop) fuel elapsed max_wait interval
    (body : M (option R)) after :
  returns (fun o => forall v, o = Some v -> Q v) body -> returns Q after ->
  returns Q (while_elapsed fuel elapsed max_wait interval body after).
Proof.
  intros Hb Ha. revert elapsed.
  induction fuel as [| fuel IH]; intros elapsed; simpl;
    destruct (elapsed <? max_wait); auto; try (intros s r s' E; discriminate).
  intros s r s' E. unfold bind at 1 in E.
  destruct (body s) as [[[v |] | e | ] s1] eqn:Eb; try discriminate.
  - inversion E; subst. exact (Hb s (Some r) s' Eb r eq_refl).
  - revert E. apply returns_bind. intros _. apply IH.
Qed.

(** A computation that does not run out of fuel, under a handler that
    always returns, always returns. *)
Lemma try_total {R} (body : M R) handler :
  terminates body ->
  (forall e s, exists r s', handler e s = (Returned r, s')) ->
  forall s, exists r s', try_except body handler s = (Returned r, s').
Proof.
  intros Hb Hh s. unfold try_except. specialize (Hb s).
  destruct (body s) as [[a | e | ] s1]; simpl in *.
  - now exists a, s1.
  - apply Hh.
  - contradiction.
Qed.

(** ** Replaying a log *)

Lemma replay_app (l1 l2 : list event) (w : W) :
  replay (l1 ++ l2) w = replay l2 (replay l1 w).
Proof. unfold replay. apply fold_left_app. Qed.

Lemma answer_after_app (w : W) (l1 l2 : list event) {A} (c : oci.call A) :
  answer_after w (l1 ++ l2) c = answer_after (replay l1 w) l2 c.
Proof. unfold answer_after. now rewrite replay_app. Qed.

Lemma answer_after_nil (w : W) {A} (c : oci.call A) :
  answer_after w [] c = fst (provider A c w).
Proof. reflexivity. Qed.

Lemma call_run {A} (c : oci.call A) (w : W) log :
  call c (w, log)
  = (match fst (provider A c w) with
     | inr a => Returned a
     | inl e => Raised e
     end,
     (replay [Called c] w, (log ++ [Called c])%list)).
Proof.
  unfold call, replay. simpl.
  now destruct (provider A c w) as [[e | a] w'].
Qed.

(** The least poll that settles something, if any. *)
Lemma first_settled (P Q : nat -> Prop) (n : nat) :
  (forall j, (j < n)%nat -> P j \/ Q j) ->
  (forall j, (j < n)%nat -> P j) \/
  exists k, (k < n)%nat /\ (forall j, (j < k)%nat -> P j) /\ Q k.
Proof.
  induction n as [| n IH]; intros Hpq.
  - left. intros j Hj. inversion Hj.
  - destruct IH as [Hall | (k & Hk & Hbefore & Qk)].
    + intros j Hj. apply Hpq. lia.
    + destruct (Hpq n (Nat.lt_succ_diag_r n)) as [Pn | Qn].
      * left. intros j Hj. destruct (Nat.eq_dec j n) as [-> | Hne]; [exact Pn |].
        apply Hall. lia.
      * right. exists n. auto.
    + right. exists k. split; [lia | auto].
Qed.

(** ** The polling loops, poll by poll *)

Lemma iterations_fuel max_wait interval :
  0 < interval ->
  (Z.to_nat (iterations max_wait interval) <= fuel_for max_wait)%nat.
Proof.
  intros Hi. unfold iterations, fuel_for.
  destruct (Z.le_gt_cases max_wait 0) as [Hle | Hgt].
  - assert ((max_wait + interval - 1) / interval <= 0).
    { apply Z.lt_succ_r. apply Z.div_lt_upper_bound; lia. }
    lia.
  - assert ((max_wait + interval - 1) / interval <= max_wait).
    { apply Z.lt_succ_r. apply Z.div_lt_upper_bound; nia. }
    lia.
Qed.

Lemma iterations_cover max_wait interval :
  0 < interval -> max_wait <= iterations max_wait interval * interval.
Proof.
  intros Hi. unfold iterations.
  pose proof (Z.div_mod (max_wait + interval - 1) interval ltac:(lia)).
  pose proof (Z.mod_pos_bound (max_wait + interval - 1) interval Hi).
  nia.
Qed.

Lemma iterations_within max_wait interval k :
  0 < interval -> 0 <= k < iterations max_wait interval -> k * interval < max_wait.
Proof.
  intros Hi Hk. unfold iterations in Hk.
  pose proof (Z.div_mod (max_wait + interval - 1) interval ltac:(lia)).
  pose proof (Z.mod_pos_bound (max_wait + interval - 1) interval Hi).
  nia.
Qed.

Lemma while_done {R} fuel elapsed max_wait interval (body : M (option R)) after :
  max_wait <= elapsed ->
  while_elapsed fuel elapsed max_wait interval body after = after.
Proof.
  intros He. destruct fuel; simpl; destruct (Z.ltb_spec elapsed max_wait); auto; lia.
Qed.

(** A loop whose first [k] polls settle nothing is, after them, the loop
    with [k] turns less. *)
Lemma while_skip {A R} (c : oci.call A) (pending : exn + A -> Prop)
    max_wait interval (body : M (option R)) after :
  0 < interval ->
  (forall w log,
      pending (fst (provider A c w)) ->
      body (w, log) = (Returned None, (replay [Called c] w, (log ++ [Called c])%list))) ->
  forall k fuel elapsed w log,
    (k <= Z.to_nat (iterations (max_wait - elapsed) interval))%nat ->
    (Z.to_nat (iterations (max_wait - elapsed) interval) <= fuel)%nat ->
    (forall j, (j < k)%nat -> pending (answer_after w (polls c interval j) c)) ->
    while_elapsed fuel elapsed max_wait interval body after (w, log)
    = while_elapsed (fuel - k) (elapsed + Z.of_nat k * interval) max_wait interval
        body after
        (replay (polls c interval k) w, (log ++ polls c interval k)%list).
Proof.
  intros Hi Hbody. induction k as [| k IH]; intros fuel elapsed w log Hk Hfuel Hpending.
  - simpl. now rewrite Nat.sub_0_r, Z.add_0_r, app_nil_r.
  - assert (He : elapsed < max_wait).
    { destruct (Z.lt_ge_cases elapsed max_wait) as [Hlt | Hge]; [exact Hlt |].
      exfalso. unfold iterations in Hk.
      assert ((max_wait - elapsed + interval - 1) / interval <= 0).
      { apply Z.lt_succ_r. apply Z.div_lt_upper_bound; lia. }
      lia. }
    pose proof (turns_step max_wait elapsed interval Hi He) as Hturn.
    fold (iterations (max_wait - elapsed) interval) in Hturn.
    fold (iterations (max_wait - (elapsed + interval)) interval) in Hturn.
    assert (0 <= iterations (max_wait - (elapsed + interval)) interval)
      by (unfold iterations; lia).
    destruct fuel as [| fuel]; [lia |].
    simpl while_elapsed at 1. destruct (Z.ltb_spec elapsed max_wait); [| lia].
    unfold bind at 1. rewrite Hbody by exact (Hpending O (Nat.lt_0_succ k)).
    unfold bind at 1, sleep.
    rewrite (IH fuel (elapsed + interval)); try lia.
    + simpl polls. simpl Nat.sub.
      replace (elapsed + interval + Z.of_nat k * interval)
        with (elapsed + Z.of_nat (S k) * interval) by lia.
      rewrite <- !app_assoc. reflexivity.
    + intros j Hj. exact (Hpending (S j) ltac:(lia)).
Qed.

(** No poll settles anything: the loop ends in [after]. *)
Lemma while_times_out {A R} (c : oci.call A) (pending : exn + A -> Prop)
    max_wait interval (body : M (option R)) after w log :
  0 < interval ->
  (forall w log,
      pending (fst (provider A c w)) ->
      body (w, log) = (Returned None, (replay [Called c] w, (log ++ [Called c])%list))) ->
  let n := Z.to_nat (iterations max_wait interval) in
  (forall j, (j < n)%nat -> pending (answer_after w (polls c interval j) c)) ->
  while_elapsed (fuel_for max_wait) 0 max_wait interval body after (w, log)
  = after (replay (polls c interval n) w, (log ++ polls c interval n)%list).
Proof.
  intros Hi Hbody n Hpending.
  rewrite (while_skip c pending max_wait interval body after Hi Hbody n);
    rewrite ?Z.sub_0_r; fold n; auto.
  - rewrite while_done; [reflexivity |].
    pose proof (iterations_cover max_wait interval Hi).
    assert (0 <= iterations max_wait interval) by (unfold iterations; lia).
    unfold n. lia.
  - now apply iterations_fuel.
Qed.

(** The first [k] polls settle nothing and there is time for one more: the
    loop goes on with the poll number [k]. *)
Lemma while_reaches {A R} (c : oci.call A) (pending : exn + A -> Prop)
    max_wait interval (body : M (option R)) after w log k :
  0 < interval ->
  (forall w log,
      pending (fst (provider A c w)) ->
      body (w, log) = (Returned None, (replay [Called c] w, (log ++ [Called c])%list))) ->
  (k < Z.to_nat (iterations max_wait interval))%nat ->
  (forall j, (j < k)%nat -> pending (answer_after w (polls c interval j) c)) ->
  exists fuel,
    while_elapsed (fuel_for max_wait) 0 max_wait interval body after (w, log)
    = (r <- body ;;
       match r with
       | Some v => ret v
       | None =>
           sleep interval ;;
           while_elapsed fuel (Z.of_nat (S k) * interval) max_wait interval body after
       end)
        (replay (polls c interval k) w, (log ++ polls c interval k)%list).
Proof.
  intros Hi Hbody Hk Hpending.
  pose proof (iterations_fuel max_wait interval Hi) as Hfuel.
  rewrite (while_skip c pending max_wait interval body after Hi Hbody k);
    rewrite ?Z.sub_0_r; auto; try lia.
  destruct (fuel_for max_wait - k)%nat as [| fuel] eqn:F; [lia |].
  exists fuel. simpl while_elapsed at 1.
  assert (Z.of_nat k * interval < max_wait).
  { apply iterations_within; [exact Hi |]. lia. }
  change (0 + Z.of_nat k * interval) with (Z.of_nat k * interval).
  destruct (Z.ltb_spec (Z.of_nat k * interval) max_wait); [| lia].
  replace (Z.of_nat k * interval + interval) with (Z.of_nat (S k) * interval) by lia.
  reflexivity.
Qed.


End Reasoning.

Ltac emits_step :=
  lazymatch goal with
  | |- emits _ (bind _ _) => apply emits_bind; [ | intro ]
  | |- emits _ (try_except _ _) => apply emits_try; [ | intro ]
  | |- emits _ (ret _) => apply emits_ret
  | |- emits _ (raise _) => apply emits_raise
  | |- emits _ (of_sum _) => apply emits_of_sum
  | |- emits _ (observe _) => apply emits_observe
  | |- emits _ (call _) => apply emits_call
  | |- emits _ (sleep _) => apply emits_sleep
  | |- emits _ (while_elapsed _ _ _ _ _ _) => apply emits_while
  | |- emits _ (match ?x with _ => _ end) => destruct x
  | |- emits _ _ => progress cbv zeta
  end.

Ltac terminates_step :=
  lazymatch goal with
  | |- terminates (bind _ _) => apply terminates_bind; [ | intro ]
  | |- terminates (try_except _ _) => apply terminates_try; [ | intro ]
  | |- terminates (ret _) => apply terminates_ret
  | |- terminates (raise _) => apply terminates_raise
  | |- terminates (of_sum _) => apply terminates_of_sum
  | |- terminates (observe _) => apply terminates_observe
  | |- terminates (call _) => apply terminates_call
  | |- terminates (sleep _) => apply terminates_sleep
  | |- terminates (while_elapsed _ _ _ _ _ _) =>
      apply terminates_while; [ lia | unfold fuel_for; lia | | ]
  | |- terminates (match ?x with _ => _ end) => destruct x
  | |- terminates _ => progress cbv zeta
  end.

Ltac returns_step :=
  lazymatch goal with
  | |- returns _ (bind _ _) => apply returns_bind; intro
  | |- returns _ (try_except _ _) => apply returns_try; [ | intro ]
  | |- returns _ (raise _) => apply returns_raise
  | |- returns _ (ret _) => apply returns_ret
  | |- returns _ (match ?x with _ => _ end) => destruct x
  | |- returns _ _ => progress cbv zeta
  end.

(** * Facts about the functions *)

Section Facts.
Context {W : Type} `{Platform W}.
Local Abbreviation M := (M W).

Lemma emits_run {R} P (m : M R) s r s' :
  emits P m -> m s = (r, s') ->
  exists l, snd s' = (snd s ++ l)%list /\ Forall P l.
Proof. intros Hm E. specialize (Hm s). now rewrite E in Hm. Qed.

Lemma emits_keeps {R} P (m : M R) s r s' :
  emits P m -> m s = (r, s') -> Forall P (snd s) -> Forall P (snd s').
Proof.
  intros Hm E F. destruct (emits_run P m s r s' Hm E) as (l & -> & Fl).
  now apply Forall_app.
Qed.

Lemma len_nonneg {A} (l : list A) : 0 <= len l.
Proof. unfold len. lia. Qed.

(** ** Scale-up *)

Lemma up_get_config_emits P env : emits P (ScaleUp.get_config env).
Proof. unfold ScaleUp.get_config. repeat emits_step. Qed.

Lemma up_get_config_terminates env : terminates (ScaleUp.get_config env).
Proof. unfold ScaleUp.get_config. repeat terminates_step. Qed.

Lemma up_startup_emits env : emits read_only (scale_up_startup env).
Proof.
  unfold scale_up_startup, ScaleUp.compartment_slice.
  repeat (emits_step || apply up_get_config_emits || reflexivity).
Qed.

Lemma up_startup_inv env s cfg s1 :
  scale_up_startup env s = (Returned cfg, s1) ->
  exists s0 s0',
    ScaleUp.get_config env s = (Returned cfg, s0) /\
    ScaleUp.compartment_slice cfg s0 = (Returned tt, s0') /\
    call oci.get_resource_principals_signer s0' = (Returned tt, s1).
Proof.
  unfold scale_up_startup, bind at 1. intros E.
  destruct (ScaleUp.get_config env s) as [[c | e | ] s0]; try discriminate.
  unfold bind at 1 in E.
  destruct (ScaleUp.compartment_slice c s0) as [[[] | e | ] s0'] eqn:E1;
    try discriminate.
  unfold bind at 1 in E.
  destruct (call oci.get_resource_principals_signer s0') as [[[] | e | ] s1'] eqn:E2;
    try discriminate.
  unfold ret in E. inversion E; subst. now exists s0, s0'.
Qed.

Lemma count_active_emits cfg : emits read_only (ScaleUp.count_active_instances cfg).
Proof. unfold ScaleUp.count_active_instances. repeat (emits_step || reflexivity). Qed.

Lemma count_creating_emits cfg :
  emits read_only (ScaleUp.count_creating_instances cfg).
Proof. unfold ScaleUp.count_creating_instances. repeat (emits_step || reflexivity). Qed.

Lemma check_cooldown_emits cfg : emits read_only (ScaleUp.check_cooldown cfg).
Proof. unfold ScaleUp.check_cooldown. repeat (emits_step || reflexivity). Qed.

Lemma count_active_nonneg cfg :
  returns (fun n => 0 <= n) (ScaleUp.count_active_instances cfg).
Proof.
  unfold ScaleUp.count_active_instances.
  repeat (returns_step || apply len_nonneg || lia).
Qed.

Lemma count_creating_nonneg cfg :
  returns (fun n => 0 <= n) (ScaleUp.count_creating_instances cfg).
Proof.
  unfold ScaleUp.count_creating_instances.
  repeat (returns_step || apply len_nonneg || lia).
Qed.

Lemma count_active_terminates cfg :
  terminates (ScaleUp.count_active_instances cfg).
Proof. unfold ScaleUp.count_active_instances. repeat terminates_step. Qed.

Lemma count_creating_terminates cfg :
  terminates (ScaleUp.count_creating_instances cfg).
Proof. unfold ScaleUp.count_creating_instances. repeat terminates_step. Qed.

Lemma check_cooldown_terminates cfg : terminates (ScaleUp.check_cooldown cfg).
Proof. unfold ScaleUp.check_cooldown. repeat terminates_step. Qed.

Lemma count_active_total cfg s :
  exists n s', ScaleUp.count_active_instances cfg s = (Returned n, s').
Proof.
  apply try_total; [repeat terminates_step | intros e s0; now exists 0, s0].
Qed.

Lemma count_creating_total cfg s :
  exists n s', ScaleUp.count_creating_instances cfg s = (Returned n, s').
Proof.
  apply try_total; [repeat terminates_step | intros e s0; now exists 0, s0].
Qed.

Lemma check_cooldown_total cfg s :
  exists b s', ScaleUp.check_cooldown cfg s = (Returned b, s').
Proof.
  apply try_total; [repeat terminates_step | intros e s0; now exists true, s0].
Qed.

Lemma create_container_instance_terminates cfg :
  terminates (ScaleUp.create_container_instance cfg).
Proof. unfold ScaleUp.create_container_instance. repeat terminates_step. Qed.

Lemma wait_for_instance_state_terminates ocid target max_wait :
  terminates (ScaleUp.wait_for_instance_state ocid target max_wait).
Proof. unfold ScaleUp.wait_for_instance_state. repeat terminates_step. Qed.

Lemma up_get_instance_private_ip_terminates ocid :
  terminates (ScaleUp.get_instance_private_ip ocid).
Proof. unfold ScaleUp.get_instance_private_ip. repeat terminates_step. Qed.

Lemma ensure_backend_set_exists_terminates cfg :
  terminates (ScaleUp.ensure_backend_set_exists cfg).
Proof. unfold ScaleUp.ensure_backend_set_exists. repeat terminates_step. Qed.

Lemma add_backend_to_lb_terminates cfg ip :
  terminates (ScaleUp.add_backend_to_lb cfg ip).
Proof. unfold ScaleUp.add_backend_to_lb. repeat terminates_step. Qed.

Lemma up_handler_body_terminates env data :
  terminates (ScaleUp.handler_body env data).
Proof.
  unfold ScaleUp.handler_body, ScaleUp.compartment_slice.
  repeat (terminates_step
          || apply up_get_config_terminates
          || apply count_active_terminates
          || apply count_creating_terminates
          || apply check_cooldown_terminates
          || apply create_container_instance_terminates
          || apply wait_for_instance_state_terminates
          || apply up_get_instance_private_ip_terminates
          || apply ensure_backend_set_exists_terminates
          || apply add_backend_to_lb_terminates).
Qed.

(** ** Scale-down *)

Lemma down_get_config_emits P env : emits P (ScaleDown.get_config env).
Proof. unfold ScaleDown.get_config. repeat emits_step. Qed.

Lemma down_get_config_terminates env : terminates (ScaleDown.get_config env).
Proof. unfold ScaleDown.get_config. repeat terminates_step. Qed.

Lemma down_startup_emits env : emits read_only (scale_down_startup env).
Proof.
  unfold scale_down_startup, ScaleDown.compartment_slice.
  repeat (emits_step || apply down_get_config_emits || reflexivity).
Qed.

Lemma down_startup_inv env s cfg s1 :
  scale_down_startup env s = (Returned cfg, s1) ->
  exists s0 s0',
    ScaleDown.get_config env s = (Returned cfg, s0) /\
    ScaleDown.compartment_slice cfg s0 = (Returned tt, s0') /\
    call oci.get_resource_principals_signer s0' = (Returned tt, s1).
Proof.
  unfold scale_down_startup, bind at 1. intros E.
  destruct (ScaleDown.get_config env s) as [[c | e | ] s0]; try discriminate.
  unfold bind at 1 in E.
  destruct (ScaleDown.compartment_slice c s0) as [[[] | e | ] s0'] eqn:E1;
    try discriminate.
  unfold bind at 1 in E.
  destruct (call oci.get_resource_principals_signer s0') as [[[] | e | ] s1'] eqn:E2;
    try discriminate.
  unfold ret in E. inversion E; subst. now exists s0, s0'.
Qed.

Lemma list_active_emits cfg : emits read_only (ScaleDown.list_active_instances cfg).
Proof. unfold ScaleDown.list_active_instances. repeat (emits_step || reflexivity). Qed.

Lemma list_active_terminates cfg :
  terminates (ScaleDown.list_active_instances cfg).
Proof. unfold ScaleDown.list_active_instances. repeat terminates_step. Qed.

Lemma list_active_total cfg s :
  exists l s', ScaleDown.list_active_instances cfg s = (Returned l, s').
Proof.
  apply try_total; [repeat terminates_step | intros e s0; now exists [], s0].
Qed.

Lemma select_terminates l :
  terminates (ScaleDown.select_instance_for_removal l : M instance).
Proof. unfold ScaleDown.select_instance_for_removal. repeat terminates_step. Qed.

Lemma down_get_instance_private_ip_terminates ocid :
  terminates (ScaleDown.get_instance_private_ip ocid).
Proof. unfold ScaleDown.get_instance_private_ip. repeat terminates_step. Qed.

Lemma remove_backend_terminates cfg ip :
  terminates (ScaleDown.remove_backend_from_lb cfg ip).
Proof. unfold ScaleDown.remove_backend_from_lb. repeat terminates_step. Qed.

Lemma delete_container_instance_terminates ocid :
  terminates (ScaleDown.delete_container_instance ocid).
Proof. unfold ScaleDown.delete_container_instance. repeat terminates_step. Qed.

Lemma down_handler_body_terminates select env data :
  (forall l, terminates (select l)) ->
  terminates (ScaleDown.handler_body_with select env data).
Proof.
  intros Hsel.
  unfold ScaleDown.handler_body_with, ScaleDown.compartment_slice.
  repeat (terminates_step
          || apply down_get_config_terminates
          || apply list_active_terminates
          || apply Hsel
          || apply down_get_instance_private_ip_terminates
          || apply remove_backend_terminates
          || apply delete_container_instance_terminates).
Qed.

(** ** What the provisioning steps add to the log *)

Lemma image_pull_secrets_none cfg :
  no_pull_secret cfg -> ScaleUp.image_pull_secrets cfg = inr None.
Proof.
  unfold no_pull_secret, ScaleUp.image_pull_secrets. intros E.
  destruct (ScaleUp.ocir_username cfg) as [user |];
    destruct (ScaleUp.ocir_auth_token cfg) as [token |]; try reflexivity.
  now rewrite E.
Qed.

Lemma image_pull_secrets_answer cfg r :
  pull_secret_answer cfg r ->
  ScaleUp.image_pull_secrets cfg
  = match r with
    | inr secret => inr (Some [secret])
    | inl e => inl e
    end.
Proof.
  intros (user & token & Eu & Hu & Et & Ht & E). unfold ScaleUp.image_pull_secrets.
  rewrite Eu, Et, E. simpl.
  destruct (String.eqb_spec user ""); [contradiction |].
  destruct (String.eqb_spec token ""); [contradiction |].
  reflexivity.
Qed.

Lemma image_pull_secrets_cases cfg :
  no_pull_secret cfg \/ exists r, pull_secret_answer cfg r.
Proof.
  unfold no_pull_secret, pull_secret_answer.
  destruct (ScaleUp.ocir_username cfg) as [user |]; [| now left].
  destruct (ScaleUp.ocir_auth_token cfg) as [token |];
    [| left; simpl; apply andb_false_r].
  simpl. destruct (String.eqb_spec user ""); [now left |].
  destruct (String.eqb_spec token ""); [now left |].
  right. eexists. exists user, token. repeat split; auto.
Qed.

Lemma pull_secrets_sent_built cfg secrets :
  pull_secrets_sent cfg secrets -> ScaleUp.image_pull_secrets cfg = inr secrets.
Proof.
  intros [[Hnone ->] | (secret & Hanswer & ->)].
  - now apply image_pull_secrets_none.
  - exact (image_pull_secrets_answer cfg _ Hanswer).
Qed.

Lemma create_container_instance_refused cfg e s :
  ScaleUp.image_pull_secrets cfg = inl e ->
  ScaleUp.create_container_instance cfg s = (Raised e, s).
Proof.
  intros E. destruct s as [w log]. unfold ScaleUp.create_container_instance.
  unfold bind at 1, observe. cbv zeta. now rewrite E.
Qed.

Lemma create_container_instance_begins cfg secrets :
  ScaleUp.image_pull_secrets cfg = inr secrets ->
  begins_with is_create (ScaleUp.create_container_instance cfg).
Proof.
  intros E. unfold ScaleUp.create_container_instance.
  apply begins_observe. intros timestamp. cbv zeta. rewrite E.
  unfold of_sum. apply begins_ret.
  apply begins_call; [eexists; reflexivity |].
  intros wr. repeat (emits_step || exact I).
Qed.

Lemma wait_for_instance_state_emits ocid target max_wait :
  emits (fun _ => True) (ScaleUp.wait_for_instance_state ocid target max_wait).
Proof. unfold ScaleUp.wait_for_instance_state. repeat (emits_step || exact I). Qed.

Lemma up_get_instance_private_ip_emits ocid :
  emits (fun _ => True) (ScaleUp.get_instance_private_ip ocid).
Proof. unfold ScaleUp.get_instance_private_ip. repeat (emits_step || exact I). Qed.

Lemma ensure_backend_set_exists_emits cfg :
  emits (fun _ => True) (ScaleUp.ensure_backend_set_exists cfg).
Proof. unfold ScaleUp.ensure_backend_set_exists. repeat (emits_step || exact I). Qed.

Lemma add_backend_to_lb_emits cfg ip :
  emits (fun _ => True) (ScaleUp.add_backend_to_lb cfg ip).
Proof. unfold ScaleUp.add_backend_to_lb. repeat (emits_step || exact I). Qed.

Lemma up_error_result_emits e : emits (fun _ => True) (ScaleUp.error_result e).
Proof. unfold ScaleUp.error_result. repeat (emits_step || exact I). Qed.

(** ** The greatest creation timestamp *)

Lemma max_by_fold (rest : list instance) (best : instance) :
  time_created (max_by time_created best rest)
  = fold_left Z.max (map time_created rest) (time_created best).
Proof.
  revert best. induction rest as [| x rest IH]; intros best; simpl; [reflexivity |].
  destruct (Z.ltb_spec (time_created best) (time_created x)); rewrite IH; f_equal; lia.
Qed.

Lemma max_by_in {A} (key : A -> Z) (rest : list A) (best : A) :
  In (max_by key best rest) (best :: rest).
Proof.
  revert best. induction rest as [| x rest IH]; intros best; simpl; [auto |].
  destruct (key best <? key x).
  - destruct (IH x) as [E | I]; auto.
  - destruct (IH best) as [E | I]; auto.
Qed.

Lemma max_by_ge_best {A} (key : A -> Z) (rest : list A) (best : A) :
  key best <= key (max_by key best rest).
Proof.
  revert best. induction rest as [| y rest IH]; intros best; simpl; [lia |].
  destruct (Z.ltb_spec (key best) (key y)).
  - specialize (IH y). lia.
  - apply IH.
Qed.

Lemma max_by_greatest {A} (key : A -> Z) (rest : list A) (best x : A) :
  In x (best :: rest) -> key x <= key (max_by key best rest).
Proof.
  revert best. induction rest as [| y rest IH]; intros best; simpl.
  - intros [-> | []]. lia.
  - pose proof (max_by_ge_best key rest y) as Hy.
    pose proof (max_by_ge_best key rest best) as Hbest.
    intros [E | [E | I]]; try rewrite <- E;
      destruct (Z.ltb_spec (key best) (key y)); try lia;
      apply IH; now right.
Qed.

(** ** Sorting by creation time *)

Lemma insert_by_permutation {A} (key : A -> Z) (x : A) (l : list A) :
  Permutation (x :: l) (insert_by key x l).
Proof.
  induction l as [| y l IH]; simpl; [reflexivity |].
  destruct (key y <? key x); [| reflexivity].
  rewrite perm_swap. now constructor.
Qed.

Lemma sorted_permutation {A} (key : A -> Z) (l : list A) :
  Permutation l (sorted key l).
Proof.
  induction l as [| x l IH]; simpl; [constructor |].
  rewrite <- insert_by_permutation. now constructor.
Qed.

Lemma insert_by_ordered {A} (key : A -> Z) (x : A) (l : list A) :
  Sorted (fun a b => key a <= key b) l ->
  Sorted (fun a b => key a <= key b) (insert_by key x l).
Proof.
  induction 1 as [| y l Hs IH Hr]; simpl; [repeat constructor |].
  destruct (Z.ltb_spec (key y) (key x)).
  - constructor; [assumption |].
    destruct l as [| z l]; simpl in *.
    + constructor. lia.
    + destruct (Z.ltb_spec (key z) (key x)); constructor; try lia.
      now inversion Hr.
  - repeat constructor; auto.
Qed.

Lemma sorted_ordered {A} (key : A -> Z) (l : list A) :
  Sorted (fun a b => key a <= key b) (sorted key l).
Proof.
  induction l as [| x l IH]; simpl; [constructor |].
  now apply insert_by_ordered.
Qed.

Lemma sorted_head_first_earliest (l : list instance) (x : instance) :
  exists v tl,
    sorted time_created (x :: l) = v :: tl /\ first_earliest v (x :: l).
Proof.
  revert x. induction l as [| y l IH]; intros x.
  - exists x, []. split; [reflexivity |].
    exists [], []. repeat split; intros z [].
  - destruct (IH y) as (m & tl & E & before & after & Hl & Hb & Ha).
    change (sorted time_created (x :: y :: l))
      with (insert_by time_created x (sorted time_created (y :: l))).
    rewrite E. simpl insert_by.
    destruct (Z.ltb_spec (time_created m) (time_created x)).
    + exists m, (insert_by time_created x tl). split; [reflexivity |].
      exists (x :: before), after. rewrite Hl. repeat split; auto.
      intros z [<- | I]; auto.
    + exists x, (m :: tl). split; [reflexivity |].
      exists [], (y :: l). repeat split; [intros z [] |].
      intros z I. rewrite Hl in I. apply in_app_or in I.
      destruct I as [I | [<- | I]].
      * specialize (Hb z I). lia.
      * assumption.
      * specialize (Ha z I). lia.
Qed.

Lemma first_earliest_in v l : first_earliest v l -> In v l.
Proof.
  intros (before & after & -> & _). apply in_or_app. right. now left.
Qed.

Lemma first_earliest_least v l x :
  first_earliest v l -> In x l -> time_created v <= time_created x.
Proof.
  intros (before & after & -> & Hb & Ha) I. apply in_app_or in I.
  destruct I as [I | [<- | I]]; [specialize (Hb x I) | | specialize (Ha x I)]; lia.
Qed.

Lemma select_returns (l : list instance) (s : state W) :
  l <> [] ->
  exists v,
    ScaleDown.select_instance_for_removal l s = (Returned v, s) /\ first_earliest v l.
Proof.
  intros Hl. destruct l as [| x l]; [contradiction |].
  destruct (sorted_head_first_earliest l x) as (v & tl & E & F).
  exists v. unfold ScaleDown.select_instance_for_removal. now rewrite E.
Qed.

(** ** What the removal steps add to the log *)

Lemma down_get_instance_private_ip_emits ocid :
  emits read_only (ScaleDown.get_instance_private_ip ocid).
Proof.
  unfold ScaleDown.get_instance_private_ip. repeat (emits_step || reflexivity).
Qed.

Lemma delete_container_instance_emits ocid :
  emits (fun ev => is_delete_backend ev = false)
        (ScaleDown.delete_container_instance ocid).
Proof.
  unfold ScaleDown.delete_container_instance. repeat (emits_step || reflexivity).
Qed.

Lemma delete_container_instance_begins ocid :
  begins_with (eq (Called (oci.delete_container_instance ocid)))
              (ScaleDown.delete_container_instance ocid).
Proof.
  unfold ScaleDown.delete_container_instance.
  apply begins_try.
  - apply begins_call; [reflexivity |]. intros _. repeat (emits_step || exact I).
  - intros e. repeat (emits_step || exact I).
Qed.

Lemma down_error_result_emits P e : emits P (ScaleDown.error_result e).
Proof. unfold ScaleDown.error_result. repeat emits_step. Qed.

Lemma read_only_not_delete_backend (log : list event) :
  Forall read_only log -> Forall (fun ev => is_delete_backend ev = false) log.
Proof.
  apply Forall_impl. intros [A c |]; [| reflexivity].
  destruct c; simpl; auto; discriminate.
Qed.

(** The best-effort block of the scale-down handler always returns an
    address, ["unknown"] when one of its two steps raised. *)
Lemma best_effort_total cfg ocid s :
  exists address s',
    try_except
      (private_ip <- ScaleDown.get_instance_private_ip ocid ;;
       ScaleDown.remove_backend_from_lb cfg private_ip ;;
       ret private_ip)
      (fun _ => ret "unknown") s = (Returned address, s').
Proof.
  apply try_total.
  - repeat (terminates_step
            || apply down_get_instance_private_ip_terminates
            || apply remove_backend_terminates).
  - intros e s0. now exists "unknown", s0.
Qed.

Lemma instance_eq_dec (x y : instance) : {x = y} + {x <> y}.
Proof.
  repeat decide equality; try apply string_dec; try apply Z.eq_dec.
Qed.

End Facts.

(** * The claims *)

Section Claims.
Context {W : Type} `{Platform W}.
Local Abbreviation M := (M W).

Lemma up_error_result_total e s :
  exists d s', ScaleUp.error_result e s = (Returned d, s').
Proof. destruct s as [w log]. eexists. eexists. reflexivity. Qed.

Lemma down_error_result_total e s :
  exists d s', ScaleDown.error_result e s = (Returned d, s').
Proof. destruct s as [w log]. eexists. eexists. reflexivity. Qed.

Lemma up_handler_body_returns env data :
  returns (fun d => dict_get "status" d = Some (VStr "success")
                    \/ dict_get "status" d = Some (VStr "skipped"))
          (ScaleUp.handler_body env data).
Proof.
  unfold ScaleUp.handler_body.
  repeat (returns_step || (simpl; auto; fail)).
Qed.

Lemma down_handler_body_returns env data :
  returns (fun d => dict_get "status" d = Some (VStr "success")
                    \/ dict_get "status" d = Some (VStr "skipped"))
          (ScaleDown.handler_body env data).
Proof.
  unfold ScaleDown.handler_body, ScaleDown.handler_body_with.
  repeat (returns_step || (simpl; auto; fail)).
Qed.

(** C7.  Whatever the providers do, either handler returns a result
    dictionary whose status is success, skipped or error, and never raises:
    when the body of its [try] block returns a dictionary that is the result;
    when the body raises [e] the result has status error and message
    [str(e)]; the body never runs out of fuel. *)
Theorem handlers_always_return_structured_result :
  forall (env : environ) (data : option string) (s : state W),
    (exists d s',
        ScaleUp.handler env data s = (Returned d, s') /\ structured d /\
        match ScaleUp.handler_body env data s with
        | (Returned r, s1) => d = r /\ s' = s1
        | (Raised e, s1) =>
            d = [ ("status", VStr "error"); ("message", VStr (str e));
                  ("timestamp", VStr (utcnow_isoformat (fst s1))) ] /\ s' = s1
        | (OutOfFuel, _) => False
        end)
    /\
    (exists d s',
        ScaleDown.handler env data s = (Returned d, s') /\ structured d /\
        match ScaleDown.handler_body env data s with
        | (Returned r, s1) => d = r /\ s' = s1
        | (Raised e, s1) =>
            d = [ ("status", VStr "error"); ("message", VStr (str e));
                  ("timestamp", VStr (utcnow_isoformat (fst s1))) ] /\ s' = s1
        | (OutOfFuel, _) => False
        end).
Proof.
  intros env data s. split.
  - pose proof (up_handler_body_terminates env data s) as T.
    pose proof (up_handler_body_returns env data s) as R.
    unfold ScaleUp.handler, try_except.
    destruct (ScaleUp.handler_body env data s) as [[r | e | ] s1]; simpl in T.
    + exists r, s1. repeat split.
      destruct (R r s1 eq_refl) as [E | E]; unfold structured; auto.
    + destruct s1 as [w1 log1]. eexists. eexists.
      split; [reflexivity |]. split; [| split; reflexivity].
      unfold structured. simpl. auto.
    + contradiction.
  - assert (T : fst (ScaleDown.handler_body env data s) <> OutOfFuel)
      by apply (down_handler_body_terminates _ env data select_terminates s).
    pose proof (down_handler_body_returns env data s) as R.
    unfold ScaleDown.handler, ScaleDown.handler_with, try_except.
    fold (ScaleDown.handler_body env data).
    destruct (ScaleDown.handler_body env data s) as [[r | e | ] s1]; simpl in T.
    + exists r, s1. repeat split.
      destruct (R r s1 eq_refl) as [E | E]; unfold structured; auto.
    + destruct s1 as [w1 log1]. eexists. eexists.
      split; [reflexivity |]. split; [| split; reflexivity].
      unfold structured. simpl. auto.
    + contradiction.
Qed.

Lemma up_enter env s cfg s1 (k : ScaleUp.config -> M dict) :
  scale_up_startup env s = (Returned cfg, s1) ->
  (config <- ScaleUp.get_config env ;;
   ScaleUp.compartment_slice config ;;
   call oci.get_resource_principals_signer ;;
   k config) s = k cfg s1.
Proof.
  intros Hstart.
  destruct (up_startup_inv _ _ _ _ Hstart) as (s0 & s0' & Hcfg & Hslice & Hsign).
  rewrite (bind_returned _ _ _ _ _ Hcfg).
  rewrite (bind_returned _ _ _ _ _ Hslice).
  now rewrite (bind_returned _ _ _ _ _ Hsign).
Qed.

Lemma down_enter env s cfg s1 (k : ScaleDown.config -> M dict) :
  scale_down_startup env s = (Returned cfg, s1) ->
  (config <- ScaleDown.get_config env ;;
   ScaleDown.compartment_slice config ;;
   call oci.get_resource_principals_signer ;;
   k config) s = k cfg s1.
Proof.
  intros Hstart.
  destruct (down_startup_inv _ _ _ _ Hstart) as (s0 & s0' & Hcfg & Hslice & Hsign).
  rewrite (bind_returned _ _ _ _ _ Hcfg).
  rewrite (bind_returned _ _ _ _ _ Hslice).
  now rewrite (bind_returned _ _ _ _ _ Hsign).
Qed.

(** C1.  Scale-up: when the startup succeeded and the counts read by the
    handler satisfy active + creating >= max_instances (in particular when
    active >= max_instances), the handler returns a skipped result whose
    message mentions the maximum, and the whole run made no mutating call.
    Scale-down: when the list of active instances read by the handler has at
    most min_instances elements, the handler returns a skipped result whose
    message mentions the minimum, and the whole run made no mutating call. *)
Theorem fleet_bounds_enforced_before_mutation :
  forall (env : environ) (data : option string) (w : W),
    (forall cfg s1 a s2 c s3,
        scale_up_startup env (w, []) = (Returned cfg, s1) ->
        ScaleUp.count_active_instances cfg s1 = (Returned a, s2) ->
        ScaleUp.count_creating_instances cfg s2 = (Returned c, s3) ->
        ScaleUp.max_instances cfg <= a + c \/ ScaleUp.max_instances cfg <= a ->
        exists d,
          ScaleUp.handler env data (w, []) = (Returned d, s3) /\
          dict_get "status" d = Some (VStr "skipped") /\
          message_mentions "maximum" d /\
          no_mutation (snd s3))
    /\
    (forall cfg s1 l s2,
        scale_down_startup env (w, []) = (Returned cfg, s1) ->
        ScaleDown.list_active_instances cfg s1 = (Returned l, s2) ->
        len l <= ScaleDown.min_instances cfg ->
        exists d,
          ScaleDown.handler env data (w, []) = (Returned d, s2) /\
          dict_get "status" d = Some (VStr "skipped") /\
          message_mentions "minimum" d /\
          no_mutation (snd s2)).
Proof.
  intros env data w. split.
  - intros cfg s1 a s2 c s3 Hstart Ha Hc Hmax.
    assert (0 <= c) by exact (count_creating_nonneg cfg s2 c s3 Hc).
    eexists. split; [| split; [| split]].
    + apply try_returned. unfold ScaleUp.handler_body.
      rewrite (up_enter env _ _ _ _ Hstart).
      rewrite (bind_returned _ _ _ _ _ Ha).
      rewrite (bind_returned _ _ _ _ _ Hc). cbv zeta.
      destruct (Z.geb_spec (a + c) (ScaleUp.max_instances cfg)); [reflexivity | lia].
    + reflexivity.
    + eexists. exists "Already at ".
      exists (" instances (" ++ str_of_int (ScaleUp.max_instances cfg) ++ ")")%string.
      split; reflexivity.
    + unfold no_mutation.
      apply (emits_keeps _ _ _ _ _ (count_creating_emits cfg) Hc).
      apply (emits_keeps _ _ _ _ _ (count_active_emits cfg) Ha).
      apply (emits_keeps _ _ _ _ _ (up_startup_emits env) Hstart).
      constructor.
  - intros cfg s1 l s2 Hstart Hl Hmin.
    eexists. split; [| split; [| split]].
    + apply try_returned. unfold ScaleDown.handler_body_with.
      rewrite (down_enter env _ _ _ _ Hstart).
      rewrite (bind_returned _ _ _ _ _ Hl).
      destruct (Z.leb_spec (len l) (ScaleDown.min_instances cfg)); [reflexivity | lia].
    + reflexivity.
    + eexists. exists "Already at ".
      exists (" instances (" ++ str_of_int (ScaleDown.min_instances cfg) ++ ")")%string.
      split; reflexivity.
    + unfold no_mutation.
      apply (emits_keeps _ _ _ _ _ (list_active_emits cfg) Hl).
      apply (emits_keeps _ _ _ _ _ (down_startup_emits env) Hstart).
      constructor.
Qed.

Lemma provision_begins cfg current_count secrets :
  ScaleUp.image_pull_secrets cfg = inr secrets ->
  begins_with is_create
    (try_except
       (instance_ocid <- ScaleUp.create_container_instance cfg ;;
        ScaleUp.wait_for_instance_state instance_ocid "ACTIVE" 300 ;;
        private_ip <- ScaleUp.get_instance_private_ip instance_ocid ;;
        ScaleUp.ensure_backend_set_exists cfg ;;
        ScaleUp.add_backend_to_lb cfg private_ip ;;
        timestamp <- observe utcnow_isoformat ;;
        ret [ ("status", VStr "success");
              ("message", VStr "Container instance scaled up successfully");
              ("instance_ocid", VStr instance_ocid);
              ("private_ip", VStr private_ip);
              ("total_instances", VInt (current_count + 1));
              ("timestamp", VStr timestamp) ])
       ScaleUp.error_result).
Proof.
  intros Hsecrets.
  apply begins_try; [| apply up_error_result_emits].
  apply begins_bind; [exact (create_container_instance_begins cfg secrets Hsecrets) |].
  intros ocid.
  repeat (emits_step
          || apply wait_for_instance_state_emits
          || apply up_get_instance_private_ip_emits
          || apply ensure_backend_set_exists_emits
          || apply add_backend_to_lb_emits
          || exact I).
Qed.

Lemma provision_refused cfg current_count e (s : state W) :
  ScaleUp.image_pull_secrets cfg = inl e ->
  (try_except
         (instance_ocid <- ScaleUp.create_container_instance cfg ;;
          ScaleUp.wait_for_instance_state instance_ocid "ACTIVE" 300 ;;
          private_ip <- ScaleUp.get_instance_private_ip instance_ocid ;;
          ScaleUp.ensure_backend_set_exists cfg ;;
          ScaleUp.add_backend_to_lb cfg private_ip ;;
          timestamp <- observe utcnow_isoformat ;;
          ret [ ("status", VStr "success");
                ("message", VStr "Container instance scaled up successfully");
                ("instance_ocid", VStr instance_ocid);
                ("private_ip", VStr private_ip);
                ("total_instances", VInt (current_count + 1));
                ("timestamp", VStr timestamp) ])
         ScaleUp.error_result) s
  = (Returned [ ("status", VStr "error");
                ("message", VStr (str e));
                ("timestamp", VStr (utcnow_isoformat (fst s))) ], s).
Proof.
  intros Hsecrets. unfold try_except.
  rewrite (bind_raised _ _ _ _ _ (create_container_instance_refused cfg e s Hsecrets)).
  now destruct s.
Qed.

Lemma provision_result cfg current_count (s : state W) :
  exists d,
    fst (try_except
                (instance_ocid <- ScaleUp.create_container_instance cfg ;;
                 ScaleUp.wait_for_instance_state instance_ocid "ACTIVE" 300 ;;
                 private_ip <- ScaleUp.get_instance_private_ip instance_ocid ;;
                 ScaleUp.ensure_backend_set_exists cfg ;;
                 ScaleUp.add_backend_to_lb cfg private_ip ;;
                 timestamp <- observe utcnow_isoformat ;;
                 ret [ ("status", VStr "success");
                       ("message", VStr "Container instance scaled up successfully");
                       ("instance_ocid", VStr instance_ocid);
                       ("private_ip", VStr private_ip);
                       ("total_instances", VInt (current_count + 1));
                       ("timestamp", VStr timestamp) ])
                ScaleUp.error_result s) = Returned d /\
    (dict_get "status" d = Some (VStr "success") \/
     dict_get "status" d = Some (VStr "error")).
Proof.
  unfold try_except.
  match goal with
  | |- context [bind ?m ?k s] =>
      assert (T : terminates (bind m k));
      [| assert (R : returns (fun d => dict_get "status" d = Some (VStr "success"))
                       (bind m k)) ]
  end.
  { repeat (terminates_step
            || apply create_container_instance_terminates
            || apply wait_for_instance_state_terminates
            || apply up_get_instance_private_ip_terminates
            || apply ensure_backend_set_exists_terminates
            || apply add_backend_to_lb_terminates). }
  { repeat (returns_step || reflexivity). }
  specialize (T s). specialize (R s).
  match type of T with
  | fst ?run <> _ => destruct run as [[d | e | ] [w1 log1]]
  end.
  - exists d. split; [reflexivity |]. left. exact (R d _ eq_refl).
  - eexists. split; [reflexivity |]. right. reflexivity.
  - now destruct T.
Qed.

(** The handler once the three checks have been evaluated: a denied
    cooldown gives the skipped result, an allowed one leads to the creation
    of an instance. *)
Lemma up_handler_at_cooldown env data w cfg s1 a s2 s3 allowed s4 :
  scale_up_startup env (w, []) = (Returned cfg, s1) ->
  ScaleUp.count_active_instances cfg s1 = (Returned a, s2) ->
  ScaleUp.count_creating_instances cfg s2 = (Returned 0, s3) ->
  a < ScaleUp.max_instances cfg ->
  ScaleUp.check_cooldown cfg s3 = (Returned allowed, s4) ->
  if allowed
  then proceeds_to_create env data w cfg s4
  else ScaleUp.handler env data (w, [])
       = (Returned [ ("status", VStr "skipped");
                     ("message",
                      VStr "Cooldown period active (2 minutes since last scale operation)");
                     ("current_count", VInt a) ], s4).
Proof.
  intros Hstart Ha Hc Hmax Hcool.
  unfold proceeds_to_create.
  unfold ScaleUp.handler, try_except, ScaleUp.handler_body.
  rewrite (up_enter env _ _ _ _ Hstart).
  rewrite (bind_returned _ _ _ _ _ Ha).
  rewrite (bind_returned _ _ _ _ _ Hc). cbv zeta.
  destruct (Z.geb_spec (a + 0) (ScaleUp.max_instances cfg)); [lia |].
  change (0 >? 0) with false. cbv iota.
  rewrite (bind_returned _ _ _ _ _ Hcool).
  destruct allowed; simpl negb; cbv iota; [| reflexivity].
  split; [| split].
  - intros [Hnone | (secret & Hsecret)].
    + exact (provision_begins cfg a _ (image_pull_secrets_none cfg Hnone) s4).
    + exact (provision_begins cfg a _ (image_pull_secrets_answer cfg _ Hsecret) s4).
  - intros e He.
    exact (provision_refused cfg a e s4 (image_pull_secrets_answer cfg _ He)).
  - exact (provision_result cfg a s4).
Qed.

Lemma check_cooldown_run cfg w3 log3 items w4 :
  provider _ (oci.list_container_instances (ScaleUp.compartment_id cfg) None None) w3
  = (inr items, w4) ->
  ScaleUp.check_cooldown cfg (w3, log3)
  = (Returned
       match ScaleUp.matching_instances cfg items with
       | [] => true
       | first :: rest =>
           negb (datetime_now w4 - latest_creation first rest
                 <? ScaleUp.cooldown_seconds cfg * 1000000)
       end,
     (w4, (log3 ++ [Called (oci.list_container_instances
                              (ScaleUp.compartment_id cfg) None None)])%list)).
Proof.
  intros E. unfold ScaleUp.check_cooldown, try_except.
  rewrite (bind_returned _ _ _ _ _ (call_returned _ _ _ _ _ E)).
  destruct (ScaleUp.matching_instances cfg items) as [| first rest]; [reflexivity |].
  unfold bind, observe. rewrite max_by_fold. fold (latest_creation first rest).
  now destruct (_ <? _).
Qed.

Lemma latest_creation_attained first rest :
  exists m, In m (first :: rest) /\
            time_created m = latest_creation first rest /\
            forall x, In x (first :: rest) -> time_created x <= time_created m.
Proof.
  exists (max_by time_created first rest). split; [apply max_by_in |]. split.
  - apply max_by_fold.
  - intros x. apply max_by_greatest.
Qed.

(** C2.  When the listing of CREATING instances read by the scale-up handler
    contains an instance with the fleet prefix, the handler returns a
    skipped result and the whole run made no mutating call, whatever the
    active count [a]; the maximum bound is tested first: the message is the
    one of the maximum when active + creating >= max_instances and the one
    of the scale-up in progress otherwise. *)
Theorem in_flight_exclusion :
  forall (env : environ) (data : option string) (w : W) cfg s1 a w2 log2 items w3,
    scale_up_startup env (w, []) = (Returned cfg, s1) ->
    ScaleUp.count_active_instances cfg s1 = (Returned a, (w2, log2)) ->
    provider _ (oci.list_container_instances
                  (ScaleUp.compartment_id cfg) (Some "CREATING") None) w2
    = (inr items, w3) ->
    (exists inst, In inst items /\
                  startswith (display_name inst) (ScaleUp.display_name_prefix cfg) = true) ->
    let c := len (ScaleUp.matching_instances cfg items) in
    let final :=
      (w3, (log2 ++ [Called (oci.list_container_instances
                               (ScaleUp.compartment_id cfg) (Some "CREATING") None)])%list) in
    exists d,
      ScaleUp.handler env data (w, []) = (Returned d, final) /\
      dict_get "status" d = Some (VStr "skipped") /\
      no_mutation (snd final) /\
      0 < c /\
      dict_get "message" d
      = Some (VStr (if a + c >=? ScaleUp.max_instances cfg
                    then "Already at maximum instances ("
                           ++ str_of_int (ScaleUp.max_instances cfg) ++ ")"
                    else "Scale-up already in progress ("
                           ++ str_of_int c ++ " instances being created)")).
Proof.
  intros env data w cfg s1 a w2 log2 items w3 Hstart Ha Hlist (inst & Hin & Hpre) c final.
  assert (Hc : ScaleUp.count_creating_instances cfg (w2, log2) = (Returned c, final)).
  { unfold ScaleUp.count_creating_instances, try_except.
    now rewrite (bind_returned _ _ _ _ _ (call_returned _ _ _ _ _ Hlist)). }
  assert (Hpos : 0 < c).
  { unfold c, len, ScaleUp.matching_instances.
    assert (I : In inst (filter (fun i => startswith (display_name i)
                                            (ScaleUp.display_name_prefix cfg)) items))
      by (apply filter_In; auto).
    destruct (filter _ items); [destruct I | simpl; lia]. }
  assert (Hbody : exists d,
             ScaleUp.handler_body env data (w, []) = (Returned d, final) /\
             dict_get "status" d = Some (VStr "skipped") /\
             dict_get "message" d
             = Some (VStr (if a + c >=? ScaleUp.max_instances cfg
                           then "Already at maximum instances ("
                                  ++ str_of_int (ScaleUp.max_instances cfg) ++ ")"
                           else "Scale-up already in progress ("
                                  ++ str_of_int c ++ " instances being created)"))).
  { unfold ScaleUp.handler_body.
    rewrite (up_enter env _ _ _ _ Hstart).
    rewrite (bind_returned _ _ _ _ _ Ha).
    rewrite (bind_returned _ _ _ _ _ Hc). cbv zeta.
    destruct (a + c >=? ScaleUp.max_instances cfg).
    - eexists. repeat split.
    - destruct (Z.gtb_spec c 0); [| lia]. eexists. repeat split. }
  destruct Hbody as (d & Hd & Hs & Hm).
  exists d. repeat split; auto.
  - now apply try_returned.
  - unfold no_mutation.
    apply (emits_keeps _ _ _ _ _ (count_creating_emits cfg) Hc).
    apply (emits_keeps _ _ _ _ _ (count_active_emits cfg) Ha).
    apply (emits_keeps _ _ _ _ _ (up_startup_emits env) Hstart).
    constructor.
Qed.

(** C3.  Once the bound and in-flight checks have passed, the scale-up
    handler lists the instances of every lifecycle state; the reference time
    is the greatest creation timestamp among the listed instances whose
    display name starts with the fleet prefix, whatever their state.  With
    no such instance the check answers True and the handler goes on to the
    creation of an instance.  Otherwise, with [t] the time elapsed since the
    reference time: if [t < cooldown_seconds] the check answers False and
    the handler returns a skipped result without any mutating call; if
    [t >= cooldown_seconds] (equality included) the check answers True and
    the handler goes on to the creation of an instance. *)
Theorem cooldown_semantics :
  forall (env : environ) (data : option string) (w : W) cfg s1 a s2 w3 log3 items w4,
    scale_up_startup env (w, []) = (Returned cfg, s1) ->
    ScaleUp.count_active_instances cfg s1 = (Returned a, s2) ->
    ScaleUp.count_creating_instances cfg s2 = (Returned 0, (w3, log3)) ->
    a < ScaleUp.max_instances cfg ->
    provider _ (oci.list_container_instances (ScaleUp.compartment_id cfg) None None) w3
    = (inr items, w4) ->
    let log4 :=
      (log3 ++ [Called (oci.list_container_instances
                          (ScaleUp.compartment_id cfg) None None)])%list in
    let of_fleet (inst : instance) :=
      startswith (display_name inst) (ScaleUp.display_name_prefix cfg) in
    let proceeds := proceeds_to_create env data w cfg (w4, log4) in
    match filter of_fleet items with
    | [] =>
        ScaleUp.check_cooldown cfg (w3, log3) = (Returned true, (w4, log4)) /\ proceeds
    | first :: rest =>
        let t := datetime_now w4 - latest_creation first rest in
        (exists m, In m items /\ of_fleet m = true /\
                   time_created m = latest_creation first rest /\
                   forall x, In x items -> of_fleet x = true ->
                             time_created x <= time_created m) /\
        (t < ScaleUp.cooldown_seconds cfg * 1000000 ->
         ScaleUp.check_cooldown cfg (w3, log3) = (Returned false, (w4, log4)) /\
         exists d,
           ScaleUp.handler env data (w, []) = (Returned d, (w4, log4)) /\
           dict_get "status" d = Some (VStr "skipped") /\
           no_mutation log4) /\
        (ScaleUp.cooldown_seconds cfg * 1000000 <= t ->
         ScaleUp.check_cooldown cfg (w3, log3) = (Returned true, (w4, log4)) /\ proceeds)
    end.
Proof.
  intros env data w cfg s1 a s2 w3 log3 items w4 Hstart Ha Hc Hmax Hlist
         log4 of_fleet proceeds.
  pose proof (check_cooldown_run cfg w3 log3 items w4 Hlist) as Hrun.
  fold log4 in Hrun.
  change (ScaleUp.matching_instances cfg items) with (filter of_fleet items) in Hrun.
  assert (Hlog3 : Forall read_only log3).
  { apply (emits_keeps _ _ _ _ _ (count_creating_emits cfg) Hc).
    apply (emits_keeps _ _ _ _ _ (count_active_emits cfg) Ha).
    apply (emits_keeps _ _ _ _ _ (up_startup_emits env) Hstart).
    constructor. }
  destruct (filter of_fleet items) as [| first rest] eqn:Hfleet.
  - split; [exact Hrun |].
    exact (up_handler_at_cooldown env data w cfg s1 a s2 _ true _ Hstart Ha Hc Hmax Hrun).
  - cbv zeta. split; [| split; intros Ht].
    + destruct (latest_creation_attained first rest) as (m & Hin & Hm & Hgreatest).
      rewrite <- Hfleet in Hin. apply filter_In in Hin as [Hin Hpre].
      exists m. repeat split; auto.
      intros x Hx Hxpre. apply Hgreatest. rewrite <- Hfleet. now apply filter_In.
    + destruct (Z.ltb_spec (datetime_now w4 - latest_creation first rest)
                           (ScaleUp.cooldown_seconds cfg * 1000000)); [| lia].
      simpl negb in Hrun. split; [exact Hrun |].
      eexists. split; [| split].
      * exact (up_handler_at_cooldown env data w cfg s1 a s2 _ false _
                 Hstart Ha Hc Hmax Hrun).
      * reflexivity.
      * unfold no_mutation, log4. apply Forall_app. split; [exact Hlog3 |].
        repeat constructor.
    + destruct (Z.ltb_spec (datetime_now w4 - latest_creation first rest)
                           (ScaleUp.cooldown_seconds cfg * 1000000)); [lia |].
      simpl negb in Hrun. split; [exact Hrun |].
      exact (up_handler_at_cooldown env data w cfg s1 a s2 _ true _ Hstart Ha Hc Hmax Hrun).
Qed.

(** C4 (amended).  Read errors fail open in scale-up and closed in
    scale-down.  In scale-up a provider error while listing the ACTIVE or the
    CREATING instances is counted as 0 instances and a provider error in the
    cooldown check is answered True, so that when the three reads fail and
    max_instances > 0 the handler goes on to the creation of an instance: its
    next call is the creation request (unless the SDK refuses the pull
    secret, which gives an error result), and the result is not skipped.  In
    scale-down a provider error while listing the inventory gives the empty
    list, and with min_instances >= 0 the handler returns a skipped result
    with current_count 0 and makes no mutating call. *)
Theorem read_errors_fail_open_in_scale_up_only :
  forall (env : environ) (data : option string) (w : W),
    (forall cfg w1 log1 e w2,
        provider _ (oci.list_container_instances
                      (ScaleUp.compartment_id cfg) (Some "ACTIVE") None) w1
        = (inl e, w2) ->
        ScaleUp.count_active_instances cfg (w1, log1)
        = (Returned 0,
           (w2, (log1 ++ [Called (oci.list_container_instances
                                    (ScaleUp.compartment_id cfg) (Some "ACTIVE") None)])%list)))
    /\
    (forall cfg w1 log1 e w2,
        provider _ (oci.list_container_instances
                      (ScaleUp.compartment_id cfg) (Some "CREATING") None) w1
        = (inl e, w2) ->
        ScaleUp.count_creating_instances cfg (w1, log1)
        = (Returned 0,
           (w2, (log1 ++ [Called (oci.list_container_instances
                                    (ScaleUp.compartment_id cfg) (Some "CREATING") None)])%list)))
    /\
    (forall cfg w1 log1 e w2,
        provider _ (oci.list_container_instances
                      (ScaleUp.compartment_id cfg) None None) w1
        = (inl e, w2) ->
        ScaleUp.check_cooldown cfg (w1, log1)
        = (Returned true,
           (w2, (log1 ++ [Called (oci.list_container_instances
                                    (ScaleUp.compartment_id cfg) None None)])%list)))
    /\
    (forall cfg w1 log1 e1 w2 e2 w3 e3 w4,
        scale_up_startup env (w, []) = (Returned cfg, (w1, log1)) ->
        provider _ (oci.list_container_instances
                      (ScaleUp.compartment_id cfg) (Some "ACTIVE") None) w1
        = (inl e1, w2) ->
        provider _ (oci.list_container_instances
                      (ScaleUp.compartment_id cfg) (Some "CREATING") None) w2
        = (inl e2, w3) ->
        provider _ (oci.list_container_instances
                      (ScaleUp.compartment_id cfg) None None) w3
        = (inl e3, w4) ->
        0 < ScaleUp.max_instances cfg ->
        proceeds_to_create env data w cfg
          (w4,
           (log1
            ++ [ Called (oci.list_container_instances
                           (ScaleUp.compartment_id cfg) (Some "ACTIVE") None);
                 Called (oci.list_container_instances
                           (ScaleUp.compartment_id cfg) (Some "CREATING") None);
                 Called (oci.list_container_instances
                           (ScaleUp.compartment_id cfg) None None) ])%list))
    /\
    (forall cfg w1 log1 e w2,
        scale_down_startup env (w, []) = (Returned cfg, (w1, log1)) ->
        provider _ (oci.list_container_instances
                      (ScaleDown.compartment_id cfg) (Some "ACTIVE") None) w1
        = (inl e, w2) ->
        0 <= ScaleDown.min_instances cfg ->
        let final :=
          (w2, (log1 ++ [Called (oci.list_container_instances
                                   (ScaleDown.compartment_id cfg) (Some "ACTIVE") None)])%list) in
        ScaleDown.list_active_instances cfg (w1, log1) = (Returned [], final) /\
        exists d,
          ScaleDown.handler env data (w, []) = (Returned d, final) /\
          dict_get "status" d = Some (VStr "skipped") /\
          dict_get "current_count" d = Some (VInt 0) /\
          no_mutation (snd final)).
Proof.
  intros env data w.
  assert (Hactive : forall cfg w1 log1 e w2,
             provider _ (oci.list_container_instances
                           (ScaleUp.compartment_id cfg) (Some "ACTIVE") None) w1
             = (inl e, w2) ->
             ScaleUp.count_active_instances cfg (w1, log1)
             = (Returned 0,
                (w2, (log1 ++ [Called (oci.list_container_instances
                                         (ScaleUp.compartment_id cfg)
                                         (Some "ACTIVE") None)])%list))).
  { intros cfg w1 log1 e w2 E. unfold ScaleUp.count_active_instances, try_except.
    now rewrite (bind_raised _ _ _ _ _ (call_raised _ _ _ _ _ E)). }
  assert (Hcreating : forall cfg w1 log1 e w2,
             provider _ (oci.list_container_instances
                           (ScaleUp.compartment_id cfg) (Some "CREATING") None) w1
             = (inl e, w2) ->
             ScaleUp.count_creating_instances cfg (w1, log1)
             = (Returned 0,
                (w2, (log1 ++ [Called (oci.list_container_instances
                                         (ScaleUp.compartment_id cfg)
                                         (Some "CREATING") None)])%list))).
  { intros cfg w1 log1 e w2 E. unfold ScaleUp.count_creating_instances, try_except.
    now rewrite (bind_raised _ _ _ _ _ (call_raised _ _ _ _ _ E)). }
  assert (Hcool : forall cfg w1 log1 e w2,
             provider _ (oci.list_container_instances
                           (ScaleUp.compartment_id cfg) None None) w1
             = (inl e, w2) ->
             ScaleUp.check_cooldown cfg (w1, log1)
             = (Returned true,
                (w2, (log1 ++ [Called (oci.list_container_instances
                                         (ScaleUp.compartment_id cfg) None None)])%list))).
  { intros cfg w1 log1 e w2 E. unfold ScaleUp.check_cooldown, try_except.
    now rewrite (bind_raised _ _ _ _ _ (call_raised _ _ _ _ _ E)). }
  split; [exact Hactive | split; [exact Hcreating | split; [exact Hcool | split]]].
  - intros cfg w1 log1 e1 w2 e2 w3 e3 w4 Hstart E1 E2 E3 Hmax.
    pose proof (up_handler_at_cooldown env data w cfg _ 0 _ _ true _ Hstart
                  (Hactive _ _ log1 _ _ E1) (Hcreating _ _ _ _ _ E2) Hmax
                  (Hcool _ _ _ _ _ E3)) as Hgo.
    cbv iota in Hgo. now rewrite <- !app_assoc in Hgo.
  - intros cfg w1 log1 e w2 Hstart E Hmin final.
    assert (Hl : ScaleDown.list_active_instances cfg (w1, log1) = (Returned [], final)).
    { unfold ScaleDown.list_active_instances, try_except.
      now rewrite (bind_raised _ _ _ _ _ (call_raised _ _ _ _ _ E)). }
    split; [exact Hl |].
    eexists. split; [| split; [| split]].
    + apply try_returned. unfold ScaleDown.handler_body_with.
      rewrite (down_enter env _ _ _ _ Hstart).
      rewrite (bind_returned _ _ _ _ _ Hl).
      change (len []) with 0.
      destruct (Z.leb_spec 0 (ScaleDown.min_instances cfg)); [reflexivity | lia].
    + reflexivity.
    + reflexivity.
    + unfold no_mutation.
      apply (emits_keeps _ _ _ _ _ (list_active_emits cfg) Hl).
      apply (emits_keeps _ _ _ _ _ (down_startup_emits env) Hstart).
      constructor.
Qed.

(** C8.  When the provider answers the deletion of a backend, or the
    deletion of a container instance, with a service error of status 404,
    [remove_backend_from_lb], respectively [delete_container_instance],
    returns normally; with a service error of any other status the same
    error is raised again.  A deletion that was accepted also returns
    normally when the first poll of the instance is answered with a 404. *)
Theorem removals_are_idempotent_on_not_found :
  forall (cfg : ScaleDown.config) (address ocid : string) (w : W) (log : list event)
         (status : Z) (text : string) (w' : W),
    let backend :=
      oci.delete_backend (ScaleDown.lb_ocid cfg) (ScaleDown.backend_set_name cfg)
        (address ++ ":" ++ str_of_int (ScaleDown.app_port cfg)) in
    (provider _ backend w = (inl (ServiceError status text), w') ->
     ScaleDown.remove_backend_from_lb cfg address (w, log)
     = (if status =? 404 then Returned tt else Raised (ServiceError status text),
        (w', (log ++ [Called backend])%list)))
    /\
    (provider _ (oci.delete_container_instance ocid) w
     = (inl (ServiceError status text), w') ->
     ScaleDown.delete_container_instance ocid (w, log)
     = (if status =? 404 then Returned tt else Raised (ServiceError status text),
        (w', (log ++ [Called (oci.delete_container_instance ocid)])%list)))
    /\
    (forall w1,
        provider _ (oci.delete_container_instance ocid) w = (inr tt, w1) ->
        provider _ (oci.get_container_instance ocid) (sleeping 10 w1)
        = (inl (ServiceError 404 text), w') ->
        ScaleDown.delete_container_instance ocid (w, log)
        = (Returned tt,
           (w', (((log ++ [Called (oci.delete_container_instance ocid)])
                  ++ [Slept 10])
                 ++ [Called (oci.get_container_instance ocid)])%list))).
Proof.
  intros cfg address ocid w log status text w' backend.
  split; [| split]; [intros E | intros E | intros w1 E1 E2].
  - unfold ScaleDown.remove_backend_from_lb, try_except.
    fold backend.
    rewrite (bind_raised _ _ _ _ _ (call_raised _ _ _ _ _ E)).
    now destruct (status =? 404).
  - unfold ScaleDown.delete_container_instance, try_except.
    rewrite (bind_raised _ _ _ _ _ (call_raised _ _ _ _ _ E)).
    now destruct (status =? 404).
  - unfold ScaleDown.delete_container_instance, try_except at 1.
    rewrite (bind_returned _ _ _ _ _ (call_returned _ _ _ _ _ E1)).
    unfold bind at 1, sleep.
    change (fuel_for 120) with (S (Nat.pred (fuel_for 120))).
    simpl while_elapsed.
    unfold bind at 1, try_except.
    now rewrite (bind_raised _ _ _ _ _ (call_raised _ _ _ _ _ E2)).
Qed.

Lemma bind_congr {A B} (m : M A) (k1 k2 : A -> M B) s :
  (forall a s', m s = (Returned a, s') -> k1 a s' = k2 a s') ->
  bind m k1 s = bind m k2 s.
Proof.
  intros Hk. unfold bind. destruct (m s) as [[a | e | ] s']; auto.
Qed.

Lemma guard_implies_nonempty {A} (l : list A) (minimum : Z) :
  0 <= minimum -> (len l <=? minimum) = false -> l <> [].
Proof.
  intros Hmin Hguard ->. change (len []) with 0 in Hguard.
  destruct (Z.leb_spec 0 minimum); [discriminate | lia].
Qed.

(** C10.  When the configured min_instances is not negative, the scale-down
    handler reaches the victim selection only with a non-empty list: the
    handler is the same function whatever the selection does on the empty
    list, and on a non-empty list the selection returns an instance. *)
Theorem selection_never_sees_empty_list :
  forall (env : environ) (data : option string) (s : state W)
         (select : list instance -> M instance),
    (forall cfg s0, ScaleDown.get_config env s = (Returned cfg, s0) ->
                    0 <= ScaleDown.min_instances cfg) ->
    (forall l s0, l <> [] -> select l s0 = ScaleDown.select_instance_for_removal l s0) ->
    ScaleDown.handler_with select env data s = ScaleDown.handler env data s
    /\
    (forall (l : list instance) (s0 : state W),
        l <> [] ->
        exists v, ScaleDown.select_instance_for_removal l s0 = (Returned v, s0)
                  /\ In v l).
Proof.
  intros env data s select Hmin Hsel. split.
  - unfold ScaleDown.handler, ScaleDown.handler_with, try_except.
    replace (ScaleDown.handler_body_with select env data s)
      with (ScaleDown.handler_body_with ScaleDown.select_instance_for_removal env data s);
      [reflexivity |].
    unfold ScaleDown.handler_body_with.
    apply bind_congr. intros cfg s0 Hcfg.
    apply bind_congr. intros _ s1 _.
    apply bind_congr. intros _ s2 _.
    apply bind_congr. intros l s3 _.
    destruct (len l <=? ScaleDown.min_instances cfg) eqn:G; [reflexivity |].
    apply eq_sym. unfold bind at 1. rewrite Hsel; [reflexivity |].
    exact (guard_implies_nonempty l _ (Hmin cfg s0 Hcfg) G).
  - intros l s0 Hl. destruct (select_returns l s0 Hl) as (v & E & F).
    exists v. split; [exact E | exact (first_earliest_in v l F)].
Qed.

(** The scale-down handler once the bound check has passed: the result
    follows the outcome of the deletion. *)
Lemma down_handler_past_check env data w cfg s1 l s2 v address s3 r s4 :
  scale_down_startup env (w, []) = (Returned cfg, s1) ->
  ScaleDown.list_active_instances cfg s1 = (Returned l, s2) ->
  ScaleDown.min_instances cfg < len l ->
  ScaleDown.select_instance_for_removal l s2 = (Returned v, s2) ->
  try_except
    (private_ip <- ScaleDown.get_instance_private_ip (id v) ;;
     ScaleDown.remove_backend_from_lb cfg private_ip ;;
     ret private_ip)
    (fun _ => ret "unknown") s2 = (Returned address, s3) ->
  ScaleDown.delete_container_instance (id v) s3 = (r, s4) ->
  ScaleDown.handler env data (w, [])
  = match r with
    | Returned _ =>
        (Returned [ ("status", VStr "success");
                    ("message", VStr "Container instance scaled down successfully");
                    ("instance_ocid", VStr (id v));
                    ("instance_name", VStr (display_name v));
                    ("private_ip", VStr address);
                    ("total_instances", VInt (len l - 1));
                    ("timestamp", VStr (utcnow_isoformat (fst s4))) ], s4)
    | Raised e =>
        (Returned [ ("status", VStr "error");
                    ("message", VStr (str e));
                    ("timestamp", VStr (utcnow_isoformat (fst s4))) ], s4)
    | OutOfFuel => (OutOfFuel, s4)
    end.
Proof.
  intros Hstart Hl Hmin Hsel Hbest Hdel.
  unfold ScaleDown.handler, ScaleDown.handler_with, try_except,
    ScaleDown.handler_body_with.
  rewrite (down_enter env _ _ _ _ Hstart).
  rewrite (bind_returned _ _ _ _ _ Hl).
  destruct (Z.leb_spec (len l) (ScaleDown.min_instances cfg)); [lia |].
  rewrite (bind_returned _ _ _ _ _ Hsel).
  rewrite (bind_returned _ _ _ _ _ Hbest).
  unfold bind at 1. rewrite Hdel.
  destruct s4 as [w4 log4]. now destruct r as [[] | e | ].
Qed.

(** C5 (amended).  When the scale-down handler gets past the bound check
    with a non-empty list, the instance it selects has the earliest creation
    timestamp of the list; among several instances with that timestamp it is
    the one listed first by the provider; an instance strictly older than
    every other one is the one selected; and the handler asks the provider
    to delete the selected instance. *)
Theorem victim_is_first_listed_oldest :
  forall (env : environ) (data : option string) (w : W) cfg s1 l s2,
    scale_down_startup env (w, []) = (Returned cfg, s1) ->
    ScaleDown.list_active_instances cfg s1 = (Returned l, s2) ->
    ScaleDown.min_instances cfg < len l ->
    l <> [] ->
    exists v,
      ScaleDown.select_instance_for_removal l s2 = (Returned v, s2) /\
      In v l /\
      (forall x, In x l -> time_created v <= time_created x) /\
      first_earliest v l /\
      (forall x, In x l ->
                 (forall y, In y l -> y <> x -> time_created x < time_created y) ->
                 v = x) /\
      In (Called (oci.delete_container_instance (id v)))
         (snd (snd (ScaleDown.handler env data (w, [])))).
Proof.
  intros env data w cfg s1 l s2 Hstart Hl Hmin Hne.
  destruct (select_returns l s2 Hne) as (v & Hsel & F).
  exists v. split; [exact Hsel |].
  split; [exact (first_earliest_in v l F) |].
  split; [intros x; exact (first_earliest_least v l x F) |].
  split; [exact F |]. split.
  - intros x Ix Hx. destruct (instance_eq_dec v x) as [E | N]; [exact E |].
    pose proof (first_earliest_least v l x F Ix).
    specialize (Hx v (first_earliest_in v l F) N). lia.
  - destruct (best_effort_total cfg (id v) s2) as (address & s3 & Hbest).
    destruct (ScaleDown.delete_container_instance (id v) s3) as [r s4] eqn:Hdel.
    rewrite (down_handler_past_check env data w cfg s1 l s2 v address s3 r s4
               Hstart Hl Hmin Hsel Hbest Hdel).
    destruct (delete_container_instance_begins (id v) s3) as (ev & rest & <- & E).
    rewrite Hdel in E. simpl in E.
    assert (I : In (Called (oci.delete_container_instance (id v))) (snd s4))
      by (rewrite E; apply in_or_app; right; now left).
    now destruct r.
Qed.

(** C9 (amended).  When the scale-down handler has selected [v]: the
    deletion of [v] is always requested from the provider, whatever happens
    while resolving the address or removing the backend.  When the address
    resolution raises, no backend removal is requested, the deletion of [v]
    is the next call, and the result follows the deletion: if it completes,
    the result is success with private_ip ["unknown"]; if the deletion itself
    raises, the result is error with the text of that exception. *)
Theorem scale_down_is_best_effort_before_deletion :
  forall (env : environ) (data : option string) (w : W) cfg s1 l s2 v,
    scale_down_startup env (w, []) = (Returned cfg, s1) ->
    ScaleDown.list_active_instances cfg s1 = (Returned l, s2) ->
    ScaleDown.min_instances cfg < len l ->
    ScaleDown.select_instance_for_removal l s2 = (Returned v, s2) ->
    In (Called (oci.delete_container_instance (id v)))
       (snd (snd (ScaleDown.handler env data (w, []))))
    /\
    (forall e s3 r s4,
        ScaleDown.get_instance_private_ip (id v) s2 = (Raised e, s3) ->
        ScaleDown.delete_container_instance (id v) s3 = (r, s4) ->
        (exists rest,
            snd s4 = (snd s3 ++ Called (oci.delete_container_instance (id v)) :: rest)%list) /\
        Forall (fun ev => is_delete_backend ev = false) (snd s4) /\
        match r with
        | Returned _ =>
            ScaleDown.handler env data (w, [])
            = (Returned [ ("status", VStr "success");
                          ("message", VStr "Container instance scaled down successfully");
                          ("instance_ocid", VStr (id v));
                          ("instance_name", VStr (display_name v));
                          ("private_ip", VStr "unknown");
                          ("total_instances", VInt (len l - 1));
                          ("timestamp", VStr (utcnow_isoformat (fst s4))) ], s4)
        | Raised e' =>
            ScaleDown.handler env data (w, [])
            = (Returned [ ("status", VStr "error");
                          ("message", VStr (str e'));
                          ("timestamp", VStr (utcnow_isoformat (fst s4))) ], s4)
        | OutOfFuel => False
        end).
Proof.
  intros env data w cfg s1 l s2 v Hstart Hl Hmin Hsel. split.
  - destruct (best_effort_total cfg (id v) s2) as (address & s3 & Hbest).
    destruct (ScaleDown.delete_container_instance (id v) s3) as [r s4] eqn:Hdel.
    rewrite (down_handler_past_check env data w cfg s1 l s2 v address s3 r s4
               Hstart Hl Hmin Hsel Hbest Hdel).
    destruct (delete_container_instance_begins (id v) s3) as (ev & rest & <- & E).
    rewrite Hdel in E. simpl in E.
    assert (I : In (Called (oci.delete_container_instance (id v))) (snd s4))
      by (rewrite E; apply in_or_app; right; now left).
    now destruct r.
  - intros e s3 r s4 Hip Hdel.
    assert (Hbest :
              try_except
                (private_ip <- ScaleDown.get_instance_private_ip (id v) ;;
                 ScaleDown.remove_backend_from_lb cfg private_ip ;;
                 ret private_ip)
                (fun _ => ret "unknown") s2 = (Returned "unknown", s3)).
    { unfold try_except. now rewrite (bind_raised _ _ _ _ _ Hip). }
    pose proof (down_handler_past_check env data w cfg s1 l s2 v "unknown" s3 r s4
                  Hstart Hl Hmin Hsel Hbest Hdel) as Hrun.
    split; [| split].
    + destruct (delete_container_instance_begins (id v) s3) as (ev & rest & <- & E).
      rewrite Hdel in E. now exists rest.
    + apply (emits_keeps _ _ _ _ _ (delete_container_instance_emits (id v)) Hdel).
      apply read_only_not_delete_backend.
      apply (emits_keeps _ _ _ _ _ (down_get_instance_private_ip_emits (id v)) Hip).
      apply (emits_keeps _ _ _ _ _ (list_active_emits cfg) Hl).
      apply (emits_keeps _ _ _ _ _ (down_startup_emits env) Hstart).
      constructor.
    + pose proof (delete_container_instance_terminates (id v) s3) as T.
      rewrite Hdel in T. simpl in T.
      destruct r as [[] | e' | ]; [exact Hrun | exact Hrun | contradiction].
Qed.

Lemma wait_poll_elsewhere ocid target (w : W) log :
  (forall inst,
      fst (provider _ (oci.get_container_instance ocid) w) = inr inst ->
      lifecycle_state inst <> target) ->
  try_except
    (inst <- call (oci.get_container_instance ocid) ;;
     if String.eqb (lifecycle_state inst) target
     then ret (Some true)
     else ret None)
    (fun _ => ret None) (w, log)
  = (Returned None,
     (replay [Called (oci.get_container_instance ocid)] w,
      (log ++ [Called (oci.get_container_instance ocid)])%list)).
Proof.
  intros Hp. unfold try_except, bind, call, replay. simpl.
  destruct (provider _ (oci.get_container_instance ocid) w) as [[e | inst] w'];
    simpl in *; [reflexivity |].
  destruct (String.eqb_spec (lifecycle_state inst) target);
    [now destruct (Hp inst eq_refl) | reflexivity].
Qed.

Lemma wait_poll_seen ocid target (w : W) log inst :
  fst (provider _ (oci.get_container_instance ocid) w) = inr inst ->
  lifecycle_state inst = target ->
  try_except
    (inst <- call (oci.get_container_instance ocid) ;;
     if String.eqb (lifecycle_state inst) target
     then ret (Some true)
     else ret None)
    (fun _ => ret None) (w, log)
  = (Returned (Some true),
     (replay [Called (oci.get_container_instance ocid)] w,
      (log ++ [Called (oci.get_container_instance ocid)])%list)).
Proof.
  intros Ha Hs. unfold try_except, bind, call, replay. simpl.
  destruct (provider _ (oci.get_container_instance ocid) w) as [[e | inst'] w'];
    simpl in *; [discriminate |].
  inversion Ha; subst inst'.
  destruct (String.eqb_spec (lifecycle_state inst) target); [reflexivity | contradiction].
Qed.

(** No poll of the run shows the target state: the timeout, after all the
    polls. *)
Lemma wait_times_out ocid target max_wait (w : W) log :
  let poll := oci.get_container_instance ocid in
  let n := Z.to_nat (iterations max_wait 5) in
  (forall j, (j < n)%nat ->
     forall inst, answer_after w (polls poll 5 j) poll = inr inst ->
                  lifecycle_state inst <> target) ->
  ScaleUp.wait_for_instance_state ocid target max_wait (w, log)
  = (Raised (Exception ("Timeout waiting for instance to reach " ++ target ++ " state")),
     (replay (polls poll 5 n) w, (log ++ polls poll 5 n)%list)).
Proof.
  intros poll n Hp. unfold ScaleUp.wait_for_instance_state.
  rewrite (while_times_out poll
             (fun r => forall inst, r = inr inst -> lifecycle_state inst <> target));
    [reflexivity | lia | | exact Hp].
  intros w0 log0. apply wait_poll_elsewhere.
Qed.

(** The poll number [k] is the first to show the target state. *)
Lemma wait_sees ocid target max_wait (w : W) log k inst :
  let poll := oci.get_container_instance ocid in
  (k < Z.to_nat (iterations max_wait 5))%nat ->
  (forall j, (j < k)%nat ->
     forall inst', answer_after w (polls poll 5 j) poll = inr inst' ->
                   lifecycle_state inst' <> target) ->
  answer_after w (polls poll 5 k) poll = inr inst ->
  lifecycle_state inst = target ->
  ScaleUp.wait_for_instance_state ocid target max_wait (w, log)
  = (Returned true,
     (replay (polls poll 5 k ++ [Called poll]) w,
      (log ++ polls poll 5 k ++ [Called poll])%list)).
Proof.
  intros poll Hk Hp Ha Hs. unfold ScaleUp.wait_for_instance_state.
  match goal with
  | |- while_elapsed _ _ _ _ ?b ?a _ = _ =>
      destruct (while_reaches poll
                  (fun r => forall inst, r = inr inst -> lifecycle_state inst <> target)
                  max_wait 5 b a w log k) as (fuel & ->);
      [lia | intros w0 log0; apply wait_poll_elsewhere | exact Hk | exact Hp |]
  end.
  unfold bind at 1. rewrite (wait_poll_seen ocid target _ _ inst Ha Hs).
  rewrite replay_app, <- app_assoc. reflexivity.
Qed.

(** Every run of the wait is one of the two above. *)
Lemma wait_outcome ocid target max_wait (w : W) log :
  let poll := oci.get_container_instance ocid in
  let n := Z.to_nat (iterations max_wait 5) in
  let elsewhere (j : nat) :=
    forall inst, answer_after w (polls poll 5 j) poll = inr inst ->
                 lifecycle_state inst <> target in
  let run := ScaleUp.wait_for_instance_state ocid target max_wait (w, log) in
  ((forall j, (j < n)%nat -> elsewhere j) /\
   run = (Raised (Exception ("Timeout waiting for instance to reach "
                               ++ target ++ " state")),
          (replay (polls poll 5 n) w, (log ++ polls poll 5 n)%list)))
  \/
  (exists k inst,
      (k < n)%nat /\ (forall j, (j < k)%nat -> elsewhere j) /\
      answer_after w (polls poll 5 k) poll = inr inst /\
      lifecycle_state inst = target /\
      run = (Returned true,
             (replay (polls poll 5 k ++ [Called poll]) w,
              (log ++ polls poll 5 k ++ [Called poll])%list))).
Proof.
  intros poll n elsewhere run.
  destruct (first_settled elsewhere
              (fun j => exists inst,
                   answer_after w (polls poll 5 j) poll = inr inst /\
                   lifecycle_state inst = target) n)
    as [Hall | (k & Hk & Hbefore & inst & Ha & Hs)].
  - intros j _. unfold elsewhere.
    destruct (answer_after w (polls poll 5 j) poll) as [e | inst];
      [left; discriminate |].
    destruct (string_dec (lifecycle_state inst) target) as [E | E].
    + right. now exists inst.
    + left. intros inst' E'. now inversion E'; subst.
  - left. split; [exact Hall |]. now apply wait_times_out.
  - right. exists k, inst. repeat split; auto.
    exact (wait_sees ocid target max_wait w log k inst Hk Hbefore Ha Hs).
Qed.

(** The handler once the instance is created. *)
Lemma up_handler_at_wait env data (w : W) cfg s1 a s2 s3 s4 ocid s5 :
  scale_up_startup env (w, []) = (Returned cfg, s1) ->
  ScaleUp.count_active_instances cfg s1 = (Returned a, s2) ->
  ScaleUp.count_creating_instances cfg s2 = (Returned 0, s3) ->
  a < ScaleUp.max_instances cfg ->
  ScaleUp.check_cooldown cfg s3 = (Returned true, s4) ->
  ScaleUp.create_container_instance cfg s4 = (Returned ocid, s5) ->
  ScaleUp.handler env data (w, [])
  = try_except
      (ScaleUp.wait_for_instance_state ocid "ACTIVE" 300 ;;
       private_ip <- ScaleUp.get_instance_private_ip ocid ;;
       ScaleUp.ensure_backend_set_exists cfg ;;
       ScaleUp.add_backend_to_lb cfg private_ip ;;
       timestamp <- observe utcnow_isoformat ;;
       ret [ ("status", VStr "success");
             ("message", VStr "Container instance scaled up successfully");
             ("instance_ocid", VStr ocid);
             ("private_ip", VStr private_ip);
             ("total_instances", VInt (a + 1));
             ("timestamp", VStr timestamp) ])
      ScaleUp.error_result s5.
Proof.
  intros Hstart Ha Hc Hmax Hcool Hcreate.
  unfold ScaleUp.handler, try_except, ScaleUp.handler_body.
  rewrite (up_enter env _ _ _ _ Hstart).
  rewrite (bind_returned _ _ _ _ _ Ha).
  rewrite (bind_returned _ _ _ _ _ Hc). cbv zeta.
  destruct (Z.geb_spec (a + 0) (ScaleUp.max_instances cfg)); [lia |].
  change (0 >? 0) with false. cbv iota.
  rewrite (bind_returned _ _ _ _ _ Hcool). change (negb true) with false. cbv iota.
  now rewrite (bind_returned _ _ _ _ _ Hcreate).
Qed.

(** C6 (amended).  [wait_for_instance_state] polls the instance every 5
    seconds, ceil(max_wait / 5) times at most, a poll that raises counting as
    a poll that does not show the target state.  It either returns True or
    raises the exception "Timeout waiting for instance to reach <target>
    state": it never returns a failure value.  When none of the polls of the
    run shows the target state it raises the timeout after the last of them;
    when the poll number [k] is the first that shows it, it returns True at
    once, without sleeping again; it raises in no other case.  In the
    scale-up handler the timeout ends the invocation with an error result
    carrying that message, the instance created and no load balancer call
    made. *)
Theorem wait_for_instance_state_raises_on_timeout :
  forall (ocid target : string) (max_wait : Z) (w : W) (log : list event),
    let poll := oci.get_container_instance ocid in
    let timeout :=
      Exception ("Timeout waiting for instance to reach " ++ target ++ " state") in
    let n := Z.to_nat (iterations max_wait 5) in
    let elsewhere (j : nat) :=
      forall inst, answer_after w (polls poll 5 j) poll = inr inst ->
                   lifecycle_state inst <> target in
    let timed_out := (replay (polls poll 5 n) w, (log ++ polls poll 5 n)%list) in
    let run := ScaleUp.wait_for_instance_state ocid target max_wait (w, log) in
    (fst run = Returned true \/ fst run = Raised timeout)
    /\
    ((forall j, (j < n)%nat -> elsewhere j) -> run = (Raised timeout, timed_out))
    /\
    (forall k inst,
        (k < n)%nat -> (forall j, (j < k)%nat -> elsewhere j) ->
        answer_after w (polls poll 5 k) poll = inr inst ->
        lifecycle_state inst = target ->
        run = (Returned true,
               (replay (polls poll 5 k ++ [Called poll]) w,
                (log ++ polls poll 5 k ++ [Called poll])%list)))
    /\
    (fst run = Raised timeout -> forall j, (j < n)%nat -> elsewhere j)
    /\
    (forall env data w0 cfg s1 a s2 s3 s4,
        scale_up_startup env (w0, []) = (Returned cfg, s1) ->
        ScaleUp.count_active_instances cfg s1 = (Returned a, s2) ->
        ScaleUp.count_creating_instances cfg s2 = (Returned 0, s3) ->
        a < ScaleUp.max_instances cfg ->
        ScaleUp.check_cooldown cfg s3 = (Returned true, s4) ->
        ScaleUp.create_container_instance cfg s4 = (Returned ocid, (w, log)) ->
        target = "ACTIVE" -> max_wait = 300 ->
        (forall j, (j < n)%nat -> elsewhere j) ->
        ScaleUp.handler env data (w0, [])
        = (Returned [ ("status", VStr "error");
                      ("message", VStr (str timeout));
                      ("timestamp", VStr (utcnow_isoformat (fst timed_out))) ],
           timed_out)).
Proof.
  intros ocid target max_wait w log poll timeout n elsewhere timed_out run.
  pose proof (wait_outcome ocid target max_wait w log) as Hcases.
  cbv zeta in Hcases. fold poll n timeout in Hcases. fold run in Hcases.
  split; [| split; [| split; [| split]]].
  - destruct Hcases as [[_ ->] | (k & inst & _ & _ & _ & _ & ->)]; auto.
  - intros Hall. now apply wait_times_out.
  - intros k inst Hk Hbefore Ha Hs.
    exact (wait_sees ocid target max_wait w log k inst Hk Hbefore Ha Hs).
  - intros Hraised.
    destruct Hcases as [[Hall _] | (k & inst & _ & _ & _ & _ & E)]; [exact Hall |].
    rewrite E in Hraised. discriminate.
  - intros env data w0 cfg s1 a s2 s3 s4 Hstart Ha Hc Hmax Hcool Hcreate -> -> Hall.
    rewrite (up_handler_at_wait env data w0 cfg s1 a s2 s3 s4 ocid (w, log)
               Hstart Ha Hc Hmax Hcool Hcreate).
    unfold try_except.
    rewrite (bind_raised _ _ _ _ _ (wait_times_out ocid "ACTIVE" 300 w log Hall)).
    reflexivity.
Qed.

End Claims.

(** * The claims on concrete runs *)

(** C1 on the simulated cloud: five active instances with max 5 (scale-up),
    one active instance with min 1 (scale-down). *)
Lemma fleet_bounds_enforced_before_mutation_witness :
  (exists s d,
      ScaleUp.handler Sim.env None (Sim.at_time 1000 Sim.five_active Sim.no_fault, [])
      = (Returned d, s) /\
      dict_get "status" d = Some (VStr "skipped") /\
      message_mentions "maximum" d /\
      no_mutation (snd s))
  /\
  (exists s d,
      ScaleDown.handler Sim.env None (Sim.at_time 1000 Sim.one_active Sim.no_fault, [])
      = (Returned d, s) /\
      dict_get "status" d = Some (VStr "skipped") /\
      message_mentions "minimum" d /\
      no_mutation (snd s)).
Proof.
  split.
  - eexists.
    eapply (proj1 (@fleet_bounds_enforced_before_mutation Sim.world Sim.platform
                     Sim.env None (Sim.at_time 1000 Sim.five_active Sim.no_fault))).
    + reflexivity.
    + reflexivity.
    + reflexivity.
    + left. vm_compute. discriminate.
  - eexists.
    eapply (proj2 (@fleet_bounds_enforced_before_mutation Sim.world Sim.platform
                     Sim.env None (Sim.at_time 1000 Sim.one_active Sim.no_fault))).
    + reflexivity.
    + reflexivity.
    + vm_compute. discriminate.
Defined.

(** C2 on the simulated cloud: one active and one creating instance. *)
Lemma in_flight_exclusion_witness :
  exists s d,
    ScaleUp.handler Sim.env None (Sim.at_time 1000 Sim.one_creating Sim.no_fault, [])
    = (Returned d, s) /\
    dict_get "status" d = Some (VStr "skipped") /\
    no_mutation (snd s) /\
    dict_get "message" d
    = Some (VStr "Scale-up already in progress (1 instances being created)").
Proof.
  destruct (@in_flight_exclusion Sim.world Sim.platform Sim.env None
              (Sim.at_time 1000 Sim.one_creating Sim.no_fault)
              _ _ _ _ _ _ _ eq_refl eq_refl eq_refl)
    as (d & Hd & Hs & Hm & _ & Hmsg).
  - exists (Sim.member "b" "CREATING" 2000000). split; [now left | reflexivity].
  - eexists. exists d. repeat split; [exact Hd | exact Hs | exact Hm | exact Hmsg].
Defined.

(** C3 on the simulated cloud with a cooldown of 120 s.  One instance
    created at second 1: at second 100 the scale-up is skipped.  The same
    with an instance created at second 100 that does not carry the fleet
    prefix: at second 121, exactly 120 s after the creation of the fleet
    member, the newer stranger does not count and the next call is the
    creation request. *)
Lemma cooldown_semantics_witness :
  (exists s d,
      ScaleUp.handler Sim.env None (Sim.at_time 100 Sim.one_active Sim.no_fault, [])
      = (Returned d, s) /\
      dict_get "status" d = Some (VStr "skipped"))
  /\
  (exists ev rest,
      is_create ev /\
      snd (snd (ScaleUp.handler Sim.env None
                  (Sim.at_time 121 Sim.with_stranger Sim.no_fault, [])))
      = ([ Called oci.get_resource_principals_signer;
           Called (oci.list_container_instances
                     (Some "ocid1.compartment") (Some "ACTIVE") None);
           Called (oci.list_container_instances
                     (Some "ocid1.compartment") (Some "CREATING") None);
           Called (oci.list_container_instances
                     (Some "ocid1.compartment") None None) ]
         ++ ev :: rest)%list).
Proof.
  split.
  - epose proof (@cooldown_semantics Sim.world Sim.platform Sim.env None
                   (Sim.at_time 100 Sim.one_active Sim.no_fault)
                   _ _ _ _ _ _ _ _ eq_refl eq_refl eq_refl) as T.
    specialize (T eq_refl eq_refl).
    destruct T as (_ & Hskip & _).
    destruct (Hskip eq_refl) as (_ & d & Hd & Hs & _).
    eexists. exists d. split; [exact Hd | exact Hs].
  - epose proof (@cooldown_semantics Sim.world Sim.platform Sim.env None
                   (Sim.at_time 121 Sim.with_stranger Sim.no_fault)
                   _ _ _ _ _ _ _ _ eq_refl eq_refl eq_refl) as T.
    specialize (T eq_refl eq_refl).
    destruct T as (_ & _ & Hgo).
    assert (Hle : 120 * 1000000 <= 121000000 - 1000000) by (vm_compute; discriminate).
    destruct (Hgo Hle) as (_ & Hnext & _).
    apply Hnext. left. reflexivity.
Defined.

(** C4, the claim as stated fails for scale-down: with two active instances
    and min 1, an error of the provider while listing the inventory makes the
    handler return skipped, and nothing is deleted. *)
Lemma scale_down_read_error_is_skipped :
  let w := Sim.at_time 1000 Sim.two_active Sim.listing_fault in
  let listing :=
    oci.list_container_instances (Some "ocid1.compartment") (Some "ACTIVE") None in
  provider _ listing w = (inl (ServiceError 500 "InternalError"), w) /\
  ScaleDown.handler Sim.env None (w, [])
  = (Returned [ ("status", VStr "skipped");
                ("message", VStr "Already at minimum instances (1)");
                ("current_count", VInt 0) ],
     (w, [ Called oci.get_resource_principals_signer; Called listing ])).
Proof. split; reflexivity. Qed.

(** C4 (amended) on the simulated cloud where every listing raises. *)
Lemma read_errors_fail_open_in_scale_up_only_witness :
  let w := Sim.at_time 1000 Sim.two_active Sim.listing_fault in
  (exists ev rest,
      is_create ev /\
      snd (snd (ScaleUp.handler Sim.env None (w, [])))
      = ([ Called oci.get_resource_principals_signer;
           Called (oci.list_container_instances
                     (Some "ocid1.compartment") (Some "ACTIVE") None);
           Called (oci.list_container_instances
                     (Some "ocid1.compartment") (Some "CREATING") None);
           Called (oci.list_container_instances
                     (Some "ocid1.compartment") None None) ]
         ++ ev :: rest)%list)
  /\
  (exists s d,
      ScaleDown.handler Sim.env None (w, []) = (Returned d, s) /\
      dict_get "status" d = Some (VStr "skipped") /\
      dict_get "current_count" d = Some (VInt 0) /\
      no_mutation (snd s)).
Proof.
  intros w.
  destruct (@read_errors_fail_open_in_scale_up_only Sim.world Sim.platform
              Sim.env None w) as (Hactive & Hcreating & Hcool & Hup & Hdown).
  split.
  - epose proof (Hup _ _ _ _ _ _ _ _ _ eq_refl eq_refl eq_refl eq_refl eq_refl)
      as (Hnext & _).
    apply Hnext. left. reflexivity.
  - epose proof (Hdown _ _ _ _ _ eq_refl eq_refl) as T.
    assert (Hmin : 0 <= 1) by (vm_compute; discriminate).
    destruct (T Hmin) as (_ & d & Hd & Hs & Hc & Hm).
    eexists. exists d. repeat split; [exact Hd | exact Hs | exact Hc | exact Hm].
Defined.

(** C5, the claim as stated fails on ties: of two instances created at the
    same time the handler selects the one the provider lists first, here the
    one with the greater identifier; it is not the least for (timestamp,
    identifier), and listing the same instances in the other order selects
    the other one. *)
Lemma tie_is_broken_by_listing_order :
  let a := Sim.member "a" "ACTIVE" 7000000 in
  let b := Sim.member "b" "ACTIVE" 7000000 in
  let s : state Sim.world := (Sim.at_time 1000 [b; a] Sim.no_fault, []) in
  ScaleDown.select_instance_for_removal [b; a] s = (Returned b, s) /\
  ~ least_by_time_then_id b [b; a] /\
  ScaleDown.select_instance_for_removal [a; b] s = (Returned a, s).
Proof.
  intros a b s. split; [reflexivity |]. split; [| reflexivity].
  intros [_ Hleast].
  destruct (Hleast a (or_intror (or_introl eq_refl))) as [Hlt | [_ Hid]].
  - vm_compute in Hlt. discriminate.
  - vm_compute in Hid. discriminate.
Qed.

(** C5 (amended) on the simulated cloud with the two instances above. *)
Lemma victim_is_first_listed_oldest_witness :
  exists v,
    v = Sim.member "b" "ACTIVE" 7000000 /\
    first_earliest v Sim.two_active /\
    In (Called (oci.delete_container_instance (id v)))
       (snd (snd (ScaleDown.handler Sim.env None
                    (Sim.at_time 1000 Sim.two_active Sim.no_fault, [])))).
Proof.
  epose proof (@victim_is_first_listed_oldest Sim.world Sim.platform Sim.env None
                 (Sim.at_time 1000 Sim.two_active Sim.no_fault)
                 _ _ _ _ eq_refl eq_refl eq_refl) as T.
  assert (Hne : Sim.two_active <> []) by discriminate.
  destruct (T Hne) as (v & Hsel & _ & _ & F & _ & Hdel).
  exists v. split; [| split; [exact F | exact Hdel]].
  vm_compute in Hsel. now inversion Hsel.
Defined.

(** C6, the claim as stated fails: when the instance stays in the CREATING
    state, waiting 300 s for ACTIVE does not return a failure value, it
    raises. *)
Lemma wait_for_instance_state_timeout_raises :
  fst (ScaleUp.wait_for_instance_state "ocid1.b" "ACTIVE" 300
         (Sim.at_time 1000 Sim.one_creating Sim.no_fault, []))
  = Raised (Exception "Timeout waiting for instance to reach ACTIVE state").
Proof. vm_compute. reflexivity. Qed.

(** C6 (amended).  On the cloud whose instances never leave CREATING the
    wait raises the timeout after 60 polls; on the simulated cloud the
    active instance is seen at the first poll; on the simulated cloud where
    reading an instance raises, the scale-up creates the instance, polls 60
    times and returns an error result. *)
Lemma wait_for_instance_state_raises_on_timeout_witness :
  @ScaleUp.wait_for_instance_state unit Stuck.platform "ocid1.x" "ACTIVE" 300 (tt, [])
  = (Raised (Exception "Timeout waiting for instance to reach ACTIVE state"),
     (tt, polls (oci.get_container_instance "ocid1.x") 5 60))
  /\
  ScaleUp.wait_for_instance_state "ocid1.a" "ACTIVE" 300
    (Sim.at_time 1000 Sim.one_active Sim.no_fault, [])
  = (Returned true,
     (Sim.at_time 1000 Sim.one_active Sim.no_fault,
      [ Called (oci.get_container_instance "ocid1.a") ]))
  /\
  (exists s,
      ScaleUp.handler Sim.env None (Sim.at_time 1000 Sim.one_active Sim.get_fault, [])
      = (Returned [ ("status", VStr "error");
                    ("message",
                     VStr "Timeout waiting for instance to reach ACTIVE state");
                    ("timestamp", VStr "1970-01-01T00:00:00+1315") ], s) /\
      total one_per_creation (snd s) = 1 /\
      Forall (fun ev => is_load_balancer_call ev = false) (snd s)).
Proof.
  split; [| split].
  - apply (proj1 (proj2
             (@wait_for_instance_state_raises_on_timeout unit Stuck.platform
                "ocid1.x" "ACTIVE" 300 tt []))).
    intros j _ inst E. inversion E. discriminate.
  - apply (proj1 (proj2 (proj2
             (@wait_for_instance_state_raises_on_timeout Sim.world Sim.platform
                "ocid1.a" "ACTIVE" 300
                (Sim.at_time 1000 Sim.one_active Sim.no_fault) [])))
             O (Sim.member "a" "ACTIVE" 1000000)).
    + vm_compute. lia.
    + intros j Hj. inversion Hj.
    + reflexivity.
    + reflexivity.
  - eexists.
    epose proof (proj2 (proj2 (proj2 (proj2
                   (@wait_for_instance_state_raises_on_timeout Sim.world Sim.platform
                      _ _ _ _ _))))
                   Sim.env None (Sim.at_time 1000 Sim.one_active Sim.get_fault)
                   _ _ _ _ _ _ eq_refl eq_refl eq_refl eq_refl eq_refl eq_refl
                   eq_refl eq_refl) as T.
    split; [| split].
    + apply T. intros j Hj inst E.
      do 60 (destruct j as [| j]; [vm_compute in E; discriminate E |]).
      vm_compute in Hj. lia.
    + vm_compute. reflexivity.
    + vm_compute. repeat constructor.
Defined.

(** C8 on the simulated cloud: a 404 from either deletion is a normal
    return, a 409 is raised again. *)
Lemma removals_are_idempotent_on_not_found_witness :
  let cfg :=
    {| ScaleDown.compartment_id := Some "ocid1.compartment";
       ScaleDown.subnet_id := None;
       ScaleDown.display_name_prefix := "autoscaling-demo-instance";
       ScaleDown.lb_ocid := Some "ocid1.lb";
       ScaleDown.backend_set_name := "autoscaling-demo-backend-set";
       ScaleDown.app_port := 8080;
       ScaleDown.max_instances := 5;
       ScaleDown.min_instances := 1 |} in
  let gone := Sim.at_time 1000 Sim.one_active Sim.not_found_fault in
  let refused := Sim.at_time 1000 Sim.one_active Sim.conflict_fault in
  fst (ScaleDown.remove_backend_from_lb cfg "10.0.0.7" (gone, [])) = Returned tt /\
  fst (ScaleDown.delete_container_instance "ocid1.a" (gone, [])) = Returned tt /\
  fst (ScaleDown.remove_backend_from_lb cfg "10.0.0.7" (refused, []))
  = Raised (ServiceError 409 "Conflict") /\
  fst (ScaleDown.delete_container_instance "ocid1.a" (refused, []))
  = Raised (ServiceError 409 "Conflict") /\
  fst (ScaleDown.delete_container_instance "ocid1.a"
         (Sim.at_time 1000 Sim.one_active Sim.no_fault, []))
  = Returned tt.
Proof.
  intros cfg gone refused.
  pose proof (@removals_are_idempotent_on_not_found Sim.world Sim.platform
                cfg "10.0.0.7" "ocid1.a"
                (Sim.at_time 1000 Sim.one_active Sim.no_fault) []
                404 "NotAuthorizedOrNotFound"
                (Sim.at_time 1010 [] Sim.no_fault)) as (_ & _ & P404).
  rewrite (P404 _ eq_refl eq_refl).
  pose proof (@removals_are_idempotent_on_not_found Sim.world Sim.platform
                cfg "10.0.0.7" "ocid1.a" gone [] 404 "NotFound" gone)
    as (B404 & D404 & _).
  pose proof (@removals_are_idempotent_on_not_found Sim.world Sim.platform
                cfg "10.0.0.7" "ocid1.a" refused [] 409 "Conflict" refused)
    as (B409 & D409 & _).
  rewrite (B404 eq_refl), (D404 eq_refl), (B409 eq_refl), (D409 eq_refl).
  repeat split.
Defined.

(** C9, the claim as stated fails: the address resolution raises, the
    deletion is attempted and refused by the provider with a 500, and the
    result is error, not success. *)
Lemma scale_down_deletion_error_is_reported :
  let w := Sim.at_time 1000 Sim.two_active Sim.get_and_delete_fault in
  let listing :=
    oci.list_container_instances (Some "ocid1.compartment") (Some "ACTIVE") None in
  fst (ScaleDown.get_instance_private_ip "ocid1.b"
         (w, [ Called oci.get_resource_principals_signer; Called listing ]))
  = Raised (Exception "Failed to retrieve private IP address") /\
  ScaleDown.handler Sim.env None (w, [])
  = (Returned [ ("status", VStr "error");
                ("message", VStr "InternalError");
                ("timestamp", VStr "1970-01-01T00:00:00+1000") ],
     (w, [ Called oci.get_resource_principals_signer;
           Called listing;
           Called (oci.get_container_instance "ocid1.b");
           Called (oci.delete_container_instance "ocid1.b") ])).
Proof. split; reflexivity. Qed.

(** C9 (amended) on the simulated cloud where reading an instance raises
    and the deletion works. *)
Lemma scale_down_is_best_effort_before_deletion_witness :
  exists s d,
    ScaleDown.handler Sim.env None (Sim.at_time 1000 Sim.two_active Sim.get_fault, [])
    = (Returned d, s) /\
    dict_get "status" d = Some (VStr "success") /\
    dict_get "private_ip" d = Some (VStr "unknown") /\
    Forall (fun ev => is_delete_backend ev = false) (snd s) /\
    In (Called (oci.delete_container_instance "ocid1.b")) (snd s).
Proof.
  epose proof (@scale_down_is_best_effort_before_deletion Sim.world Sim.platform
                 Sim.env None (Sim.at_time 1000 Sim.two_active Sim.get_fault)
                 _ _ _ _ _ eq_refl eq_refl eq_refl eq_refl) as [Hdel Hraise].
  epose proof (Hraise _ _ _ _ eq_refl eq_refl) as (_ & Hnone & Hrun).
  cbv iota in Hrun.
  eexists. eexists. split; [exact Hrun |].
  split; [reflexivity |]. split; [reflexivity |]. split; [exact Hnone |].
  rewrite Hrun in Hdel. exact Hdel.
Defined.

(** C10 on the simulated cloud, min 1, with a selection that answers an
    arbitrary instance on the empty list. *)
Lemma selection_never_sees_empty_list_witness :
  let select : list instance -> M Sim.world instance :=
    fun l =>
      match l with
      | [] => ret (Sim.member "none" "ACTIVE" 0)
      | _ :: _ => ScaleDown.select_instance_for_removal l
      end in
  ScaleDown.handler_with select Sim.env None
    (Sim.at_time 1000 Sim.two_active Sim.no_fault, [])
  = ScaleDown.handler Sim.env None (Sim.at_time 1000 Sim.two_active Sim.no_fault, []).
Proof.
  intros select.
  apply (@selection_never_sees_empty_list Sim.world Sim.platform Sim.env None
           (Sim.at_time 1000 Sim.two_active Sim.no_fault, []) select).
  - intros cfg s0 E. vm_compute in E. inversion E. vm_compute. discriminate.
  - intros [| x l] s0 Hl; [contradiction | reflexivity].
Defined.

(** * Further reasoning about runs *)

Section MoreReasoning.
Context {W : Type} `{Platform W}.
Local Abbreviation M := (M W).

Lemma bind_inv_returned {A B} (m : M A) (k : A -> M B) s b s' :
  bind m k s = (Returned b, s') ->
  exists a s1, m s = (Returned a, s1) /\ k a s1 = (Returned b, s').
Proof.
  unfold bind. destruct (m s) as [[a | e | ] s1]; try discriminate.
  intros E. now exists a, s1.
Qed.

Lemma try_inv_returned {R} (body : M R) handler s r s' :
  try_except body handler s = (Returned r, s') ->
  body s = (Returned r, s') \/
  exists e s1, body s = (Raised e, s1) /\ handler e s1 = (Returned r, s').
Proof.
  unfold try_except. destruct (body s) as [[a | e | ] s1]; try discriminate.
  - intros E. now left.
  - intros E. right. now exists e, s1.
Qed.

Lemma total_app cost (l1 l2 : list event) :
  total cost (l1 ++ l2) = total cost l1 + total cost l2.
Proof. induction l1 as [| ev l1 IH]; simpl; [reflexivity | rewrite IH; lia]. Qed.

(** ** Budgets *)

Lemma spends_weaken {R} cost b b' (m : M R) :
  spends cost b m -> b <= b' -> spends cost b' m.
Proof. intros Hm Hb s. destruct (Hm s) as (l & E & T). exists l. split; [exact E | lia]. Qed.

Lemma spends_ret {R} cost b (r : R) : 0 <= b -> spends cost b (ret r : M R).
Proof. intros Hb s. exists []. simpl. now rewrite app_nil_r. Qed.

Lemma spends_raise {R} cost b e : 0 <= b -> spends cost b (raise e : M R).
Proof. intros Hb s. exists []. simpl. now rewrite app_nil_r. Qed.

Lemma spends_out_of_fuel {R} cost b : 0 <= b -> spends cost b (out_of_fuel : M R).
Proof. intros Hb s. exists []. simpl. now rewrite app_nil_r. Qed.

Lemma spends_of_sum {R} cost b (r : exn + R) : 0 <= b -> spends cost b (of_sum r : M R).
Proof. destruct r; [apply spends_raise | apply spends_ret]. Qed.

Lemma spends_observe {R} cost b (f : W -> R) : 0 <= b -> spends cost b (observe f).
Proof. intros Hb [w log]. exists []. simpl. now rewrite app_nil_r. Qed.

Lemma spends_call {A} cost b (c : oci.call A) :
  cost (Called c) <= b -> spends cost b (call c).
Proof.
  intros Hb [w log]. exists [Called c]. unfold call.
  destruct (provider A c w) as [[e | a] w']; simpl; split; auto; lia.
Qed.

Lemma spends_sleep cost b n : cost (Slept n) <= b -> spends cost b (sleep n : M unit).
Proof. intros Hb [w log]. exists [Slept n]. simpl. split; auto; lia. Qed.

Lemma spends_bind {A B} cost b1 b2 b (m : M A) (k : A -> M B) :
  spends cost b1 m -> (forall a, spends cost b2 (k a)) ->
  b1 <= b -> b1 + b2 <= b ->
  spends cost b (bind m k).
Proof.
  intros Hm Hk H1 H2 s. unfold bind.
  destruct (Hm s) as (l1 & E1 & T1).
  destruct (m s) as [[a | e | ] s1]; simpl in E1.
  - destruct (Hk a s1) as (l2 & E2 & T2).
    exists (l1 ++ l2)%list. rewrite E2, E1, app_assoc, total_app.
    split; [reflexivity | lia].
  - exists l1. simpl. split; [assumption | lia].
  - exists l1. simpl. split; [assumption | lia].
Qed.

Lemma spends_try {R} cost b1 b2 b (body : M R) handler :
  spends cost b1 body -> (forall e, spends cost b2 (handler e)) ->
  b1 <= b -> b1 + b2 <= b ->
  spends cost b (try_except body handler).
Proof.
  intros Hm Hk H1 H2 s. unfold try_except.
  destruct (Hm s) as (l1 & E1 & T1).
  destruct (body s) as [[a | e | ] s1]; simpl in E1.
  - exists l1. simpl. split; [assumption | lia].
  - destruct (Hk e s1) as (l2 & E2 & T2).
    exists (l1 ++ l2)%list. rewrite E2, E1, app_assoc, total_app.
    split; [reflexivity | lia].
  - exists l1. simpl. split; [assumption | lia].
Qed.

Lemma spends_while_from {R} cost bb ba fuel elapsed max_wait interval
    (body : M (option R)) after :
  0 < interval -> 0 <= bb -> 0 <= cost (Slept interval) -> 0 <= ba ->
  spends cost bb body -> spends cost ba after ->
  spends cost
    ((bb + cost (Slept interval))
     * Z.max 0 ((max_wait - elapsed + interval - 1) / interval) + ba)
    (while_elapsed fuel elapsed max_wait interval body after).
Proof.
  intros Hi Hbb Hcs Hba Hb Ha. revert elapsed.
  induction fuel as [| fuel IH]; intros elapsed; simpl;
    destruct (Z.ltb_spec elapsed max_wait) as [He | He].
  - apply spends_out_of_fuel. nia.
  - apply (spends_weaken _ ba); [assumption | nia].
  - rewrite (turns_step max_wait elapsed interval Hi He).
    set (K := Z.max 0 ((max_wait - (elapsed + interval) + interval - 1) / interval)).
    assert (0 <= K) by (unfold K; lia).
    apply (spends_bind _ bb
             (cost (Slept interval) + ((bb + cost (Slept interval)) * K + ba)));
      [assumption | | nia | nia].
    intros [v |]; [apply spends_ret; nia |].
    apply (spends_bind _ (cost (Slept interval))
             ((bb + cost (Slept interval)) * K + ba));
      [apply spends_sleep; lia | intros _; apply IH | nia | lia].
  - apply (spends_weaken _ ba); [assumption | nia].
Qed.

Lemma spends_while {R} cost bb ba b fuel max_wait interval
    (body : M (option R)) after :
  0 < interval -> 0 <= bb -> 0 <= cost (Slept interval) -> 0 <= ba ->
  spends cost bb body -> spends cost ba after ->
  (bb + cost (Slept interval)) * iterations max_wait interval + ba <= b ->
  spends cost b (while_elapsed fuel 0 max_wait interval body after).
Proof.
  intros Hi Hbb Hcs Hba Hb Ha Hle.
  eapply spends_weaken;
    [exact (spends_while_from cost bb ba fuel 0 max_wait interval body after
              Hi Hbb Hcs Hba Hb Ha) |].
  unfold iterations in Hle. now rewrite Z.sub_0_r.
Qed.

(** ** Raised exceptions *)

Lemma raises_ret {R} (Q : exn -> Prop) (r : R) : raises Q (ret r : M R).
Proof. intros s e s' E. discriminate. Qed.

Lemma raises_raise {R} (Q : exn -> Prop) e : Q e -> raises Q (raise e : M R).
Proof. intros Qe s e' s' E. inversion E. now subst. Qed.

Lemma raises_observe {R} (Q : exn -> Prop) (f : W -> R) : raises Q (observe f).
Proof. intros [w log] e s' E. discriminate. Qed.

Lemma raises_sleep (Q : exn -> Prop) n : raises Q (sleep n : M unit).
Proof. intros [w log] e s' E. discriminate. Qed.

Lemma raises_bind {A B} (Q : exn -> Prop) (m : M A) (k : A -> M B) :
  raises Q m -> (forall a, raises Q (k a)) -> raises Q (bind m k).
Proof.
  intros Hm Hk s e s' E. unfold bind in E.
  destruct (m s) as [[a | e1 | ] s1] eqn:Em; try discriminate.
  - exact (Hk a s1 e s' E).
  - inversion E; subst. exact (Hm s e s' Em).
Qed.

Lemma raises_try {R} (Q : exn -> Prop) (body : M R) handler :
  (forall e, raises Q (handler e)) -> raises Q (try_except body handler).
Proof.
  intros Hh s e s' E. unfold try_except in E.
  destruct (body s) as [[a | e1 | ] s1]; try discriminate.
  exact (Hh e1 s1 e s' E).
Qed.

Lemma raises_while {R} (Q : exn -> Prop) fuel elapsed max_wait interval
    (body : M (option R)) after :
  raises Q body -> raises Q after ->
  raises Q (while_elapsed fuel elapsed max_wait interval body after).
Proof.
  intros Hb Ha. revert elapsed.
  induction fuel as [| fuel IH]; intros elapsed; simpl;
    destruct (elapsed <? max_wait); auto; try (intros s e s' E; discriminate).
  apply raises_bind; [assumption |].
  intros [v |]; [apply raises_ret |].
  apply raises_bind; [apply raises_sleep | intros _; apply IH].
Qed.

(** ** Computations that leave the state alone *)

Lemma silent_ret {R} (r : R) : silent (ret r : M R).
Proof. intros s. reflexivity. Qed.

Lemma silent_raise {R} e : silent (raise e : M R).
Proof. intros s. reflexivity. Qed.

Lemma silent_of_sum {R} (r : exn + R) : silent (of_sum r : M R).
Proof. destruct r; intros s; reflexivity. Qed.

Lemma silent_bind {A B} (m : M A) (k : A -> M B) :
  silent m -> (forall a, silent (k a)) -> silent (bind m k).
Proof.
  intros Hm Hk s. unfold bind. specialize (Hm s).
  destruct (m s) as [[a | e | ] s1]; simpl in *; subst; auto. apply Hk.
Qed.

Lemma spends_ret0 {R} cost (r : R) : spends cost 0 (ret r : M R).
Proof. apply spends_ret. lia. Qed.

Lemma spends_raise0 {R} cost e : spends cost 0 (raise e : M R).
Proof. apply spends_raise. lia. Qed.

Lemma spends_of_sum0 {R} cost (r : exn + R) : spends cost 0 (of_sum r : M R).
Proof. apply spends_of_sum. lia. Qed.

Lemma spends_observe0 {R} cost (f : W -> R) : spends cost 0 (observe f).
Proof. apply spends_observe. lia. Qed.

Lemma spends_bind_sum {A B} cost b1 b2 (m : M A) (k : A -> M B) :
  spends cost b1 m -> (forall a, spends cost b2 (k a)) -> 0 <= b2 ->
  spends cost (b1 + b2) (bind m k).
Proof. intros Hm Hk Hb. apply (spends_bind cost b1 b2); auto; lia. Qed.

Lemma spends_try_sum {R} cost b1 b2 (body : M R) handler :
  spends cost b1 body -> (forall e, spends cost b2 (handler e)) -> 0 <= b2 ->
  spends cost (b1 + b2) (try_except body handler).
Proof. intros Hm Hk Hb. apply (spends_try cost b1 b2); auto; lia. Qed.

Lemma spends_while_sum {R} cost bb ba cs fuel max_wait interval
    (body : M (option R)) after :
  spends cost bb body -> spends cost ba after ->
  cost (Slept interval) = cs ->
  0 < interval -> 0 <= bb -> 0 <= cs -> 0 <= ba ->
  spends cost ((bb + cs) * iterations max_wait interval + ba)
         (while_elapsed fuel 0 max_wait interval body after).
Proof.
  intros Hb Ha <- Hi Hbb Hcs Hba.
  apply (spends_while cost bb ba); auto; lia.
Qed.

(** ** Two phases *)

Lemma phased_first {R} P1 P2 (m : M R) : emits P1 m -> phased P1 P2 m.
Proof.
  intros Hm s. destruct (Hm s) as (l & E & F). exists l, [].
  rewrite app_nil_r. auto.
Qed.

Lemma phased_second {R} P1 P2 (m : M R) : emits P2 m -> phased P1 P2 m.
Proof.
  intros Hm s. destruct (Hm s) as (l & E & F). exists [], l. simpl. auto.
Qed.

Lemma phased_bind_first {A B} P1 P2 (m : M A) (k : A -> M B) :
  emits P1 m -> (forall a, phased P1 P2 (k a)) -> phased P1 P2 (bind m k).
Proof.
  intros Hm Hk s. unfold bind. destruct (Hm s) as (l & E & F).
  destruct (m s) as [[a | e | ] s1]; simpl in E.
  - destruct (Hk a s1) as (l1 & l2 & E2 & F1 & F2).
    exists (l ++ l1)%list, l2. rewrite E2, E, <- !app_assoc.
    repeat split; auto. now apply Forall_app.
  - exists l, []. simpl. rewrite app_nil_r. auto.
  - exists l, []. simpl. rewrite app_nil_r. auto.
Qed.

Lemma phased_try {R} P1 P2 (body : M R) handler :
  phased P1 P2 body -> (forall e, emits P2 (handler e)) ->
  phased P1 P2 (try_except body handler).
Proof.
  intros Hm Hk s. unfold try_except. destruct (Hm s) as (l1 & l2 & E & F1 & F2).
  destruct (body s) as [[a | e | ] s1]; simpl in E.
  - now exists l1, l2.
  - destruct (Hk e s1) as (l3 & E3 & F3).
    exists l1, (l2 ++ l3)%list. rewrite E3, E, <- !app_assoc.
    repeat split; auto. now apply Forall_app.
  - now exists l1, l2.
Qed.


(** ** The world a run leaves is the world its log leads to *)

Lemma replay_snoc (log : list event) (ev : event) (w : W) :
  replay (log ++ [ev]) w = effect ev (replay log w).
Proof. now rewrite replay_app. Qed.

Lemma tracks_ret {R} (r : R) : tracks (ret r : M R).
Proof. intros w0 s E. exact E. Qed.

Lemma tracks_raise {R} e : tracks (raise e : M R).
Proof. intros w0 s E. exact E. Qed.

Lemma tracks_out_of_fuel {R} : tracks (out_of_fuel : M R).
Proof. intros w0 s E. exact E. Qed.

Lemma tracks_of_sum {R} (r : exn + R) : tracks (of_sum r : M R).
Proof. destruct r; [apply tracks_raise | apply tracks_ret]. Qed.

Lemma tracks_observe {R} (f : W -> R) : tracks (observe f).
Proof. intros w0 [w log] E. exact E. Qed.

Lemma tracks_call {A} (c : oci.call A) : tracks (call c).
Proof.
  intros w0 [w log] E. simpl in E. subst w. unfold call.
  destruct (provider A c (replay log w0)) as [[e | a] w'] eqn:Ep; simpl;
    rewrite replay_snoc; simpl; now rewrite Ep.
Qed.

Lemma tracks_sleep n : tracks (sleep n : M unit).
Proof.
  intros w0 [w log] E. simpl in E. subst w. simpl. now rewrite replay_snoc.
Qed.

Lemma tracks_bind {A B} (m : M A) (k : A -> M B) :
  tracks m -> (forall a, tracks (k a)) -> tracks (bind m k).
Proof.
  intros Hm Hk w0 s E. specialize (Hm w0 s E). unfold bind.
  destruct (m s) as [[a | e | ] s1]; simpl in Hm; auto.
  now apply Hk.
Qed.

Lemma tracks_try {R} (body : M R) handler :
  tracks body -> (forall e, tracks (handler e)) -> tracks (try_except body handler).
Proof.
  intros Hm Hk w0 s E. specialize (Hm w0 s E). unfold try_except.
  destruct (body s) as [[a | e | ] s1]; simpl in Hm; auto.
  now apply Hk.
Qed.

Lemma tracks_while {R} fuel elapsed max_wait interval (body : M (option R)) after :
  tracks body -> tracks after ->
  tracks (while_elapsed fuel elapsed max_wait interval body after).
Proof.
  intros Hb Ha. revert elapsed.
  induction fuel as [| fuel IH]; intros elapsed; simpl;
    destruct (elapsed <? max_wait); auto; try apply tracks_out_of_fuel.
  apply tracks_bind; [assumption |].
  intros [v |]; [apply tracks_ret |].
  apply tracks_bind; [apply tracks_sleep | intros _; apply IH].
Qed.

Lemma tracks_keeps {R} (m : M R) w0 s r s' :
  tracks m -> m s = (r, s') ->
  fst s = replay (snd s) w0 -> fst s' = replay (snd s') w0.
Proof. intros Hm E Hs. specialize (Hm w0 s Hs). now rewrite E in Hm. Qed.


End MoreReasoning.

Ltac spends_leaf :=
  lazymatch goal with
  | |- spends _ _ (ret _) => apply spends_ret; lia
  | |- spends _ _ (raise _) => apply spends_raise; lia
  | |- spends _ _ (of_sum _) => apply spends_of_sum; lia
  | |- spends _ _ (observe _) => apply spends_observe; lia
  | |- spends _ _ (call _) => apply spends_call; simpl; lia
  | |- spends _ _ (sleep _) => apply spends_sleep; simpl; lia
  | |- spends _ _ (match ?x with _ => _ end) => destruct x
  | |- spends _ _ _ => progress cbv zeta
  end.

Ltac budget_side :=
  first [ lia | vm_compute; discriminate | unfold iterations; nia ].

(** Computes a budget for a computation built from the monad's operations:
    sums along sequences, the maximum over the two branches of a test. *)
Ltac budget :=
  cbv zeta;
  lazymatch goal with
  | |- spends _ _ (bind _ _) =>
      eapply spends_bind_sum; [ budget | intro; budget | budget_side ]
  | |- spends _ _ (try_except _ _) =>
      eapply spends_try_sum; [ budget | intro; budget | budget_side ]
  | |- spends _ _ (while_elapsed _ _ _ _ _ _) =>
      eapply spends_while_sum;
      [ budget | budget | simpl; reflexivity
      | lia | budget_side | budget_side | budget_side ]
  | |- spends _ _ (ret _) => apply spends_ret0
  | |- spends _ _ (raise _) => apply spends_raise0
  | |- spends _ _ (of_sum _) => apply spends_of_sum0
  | |- spends _ _ (observe _) => apply spends_observe0
  | |- spends ?cost ?b (call ?c) =>
      let v := eval simpl in (cost (Called c)) in
      unify b v; apply spends_call; simpl; lia
  | |- spends ?cost ?b (sleep ?n) =>
      let v := eval simpl in (cost (Slept n)) in
      unify b v; apply spends_sleep; simpl; lia
  | |- spends ?cost ?b (match ?x with _ => _ end) =>
      let b1 := open_constr:(_ : Z) in
      let b2 := open_constr:(_ : Z) in
      unify b (Z.max b1 b2);
      destruct x;
      [ eapply spends_weaken; [ budget | apply Z.le_max_l ]
      | eapply spends_weaken; [ budget | apply Z.le_max_r ] ]
  end.

Ltac unfold_scale_up :=
  unfold ScaleUp.handler, ScaleUp.handler_body, ScaleUp.error_result,
    ScaleUp.get_config, ScaleUp.compartment_slice,
    ScaleUp.count_active_instances, ScaleUp.count_creating_instances,
    ScaleUp.check_cooldown, ScaleUp.create_container_instance,
    ScaleUp.wait_for_instance_state, ScaleUp.get_instance_private_ip,
    ScaleUp.ensure_backend_set_exists, ScaleUp.add_backend_to_lb.

Ltac unfold_scale_down :=
  unfold ScaleDown.handler, ScaleDown.handler_with, ScaleDown.handler_body_with,
    ScaleDown.error_result, ScaleDown.get_config, ScaleDown.compartment_slice,
    ScaleDown.list_active_instances, ScaleDown.select_instance_for_removal,
    ScaleDown.get_instance_private_ip, ScaleDown.remove_backend_from_lb,
    ScaleDown.delete_container_instance.

Ltac emits_all := solve [ repeat (emits_step || reflexivity || exact I) ].

Ltac phased_step :=
  lazymatch goal with
  | |- phased _ _ (try_except _ _) => apply phased_try; [ | intro; emits_all ]
  | |- phased _ _ (bind _ _) =>
      first [ apply phased_bind_first; [ emits_all | intro ]
            | apply phased_second; emits_all ]
  | |- phased _ _ (match ?x with _ => _ end) => destruct x
  | |- phased _ _ (ret _) => apply phased_first; apply emits_ret
  | |- phased _ _ (raise _) => apply phased_first; apply emits_raise
  | |- phased _ _ _ => progress cbv zeta
  end.

Ltac raises_step :=
  lazymatch goal with
  | |- raises _ (bind _ _) => apply raises_bind; [ | intro ]
  | |- raises _ (try_except _ _) => apply raises_try; intro
  | |- raises _ (ret _) => apply raises_ret
  | |- raises _ (raise _) => apply raises_raise
  | |- raises _ (observe _) => apply raises_observe
  | |- raises _ (sleep _) => apply raises_sleep
  | |- raises _ (while_elapsed _ _ _ _ _ _) => apply raises_while
  | |- raises _ (match ?x with _ => _ end) => destruct x
  | |- raises _ _ => progress cbv zeta
  end.

Ltac tracks_step :=
  lazymatch goal with
  | |- tracks (bind _ _) => apply tracks_bind; [ | intro ]
  | |- tracks (try_except _ _) => apply tracks_try; [ | intro ]
  | |- tracks (ret _) => apply tracks_ret
  | |- tracks (raise _) => apply tracks_raise
  | |- tracks (of_sum _) => apply tracks_of_sum
  | |- tracks (observe _) => apply tracks_observe
  | |- tracks (call _) => apply tracks_call
  | |- tracks (sleep _) => apply tracks_sleep
  | |- tracks (while_elapsed _ _ _ _ _ _) => apply tracks_while
  | |- tracks (match ?x with _ => _ end) => destruct x
  | |- tracks _ => progress cbv zeta
  end.

Ltac silent_step :=
  lazymatch goal with
  | |- silent (bind _ _) => apply silent_bind; [ | intro ]
  | |- silent (ret _) => apply silent_ret
  | |- silent (raise _) => apply silent_raise
  | |- silent (of_sum _) => apply silent_of_sum
  | |- silent (match ?x with _ => _ end) => destruct x
  | |- silent _ => progress cbv zeta
  end.

(** * Further properties of the two functions *)

Section Further.
Context {W : Type} `{Platform W}.
Local Abbreviation M := (M W).

(** ** Configuration *)

Lemma up_get_config_silent env : silent (ScaleUp.get_config env).
Proof. unfold ScaleUp.get_config. repeat silent_step. Qed.

Lemma down_get_config_silent env : silent (ScaleDown.get_config env).
Proof. unfold ScaleDown.get_config. repeat silent_step. Qed.

Lemma up_get_config_compartment env :
  returns (fun cfg => ScaleUp.compartment_id cfg = env "COMPARTMENT_OCID")
          (ScaleUp.get_config env).
Proof. unfold ScaleUp.get_config. repeat (returns_step || reflexivity). Qed.

Lemma down_get_config_compartment env :
  returns (fun cfg => ScaleDown.compartment_id cfg = env "COMPARTMENT_OCID")
          (ScaleDown.get_config env).
Proof. unfold ScaleDown.get_config. repeat (returns_step || reflexivity). Qed.

(** X1.  A missing COMPARTMENT_OCID, or an integer setting that [int()]
    rejects, makes either handler return an error result before any SDK call:
    the world and the log are left as they were. *)
Theorem misconfiguration_is_an_error_without_any_call :
  forall (env : environ) (data : option string) (s : state W),
    ((env "COMPARTMENT_OCID" = None \/
      exists e s0, ScaleUp.get_config env s = (Raised e, s0)) ->
     exists d,
       ScaleUp.handler env data s = (Returned d, s) /\
       dict_get "status" d = Some (VStr "error"))
    /\
    ((env "COMPARTMENT_OCID" = None \/
      exists e s0, ScaleDown.get_config env s = (Raised e, s0)) ->
     exists d,
       ScaleDown.handler env data s = (Returned d, s) /\
       dict_get "status" d = Some (VStr "error")).
Proof.
  intros env data [w log]. split; intros Hbad.
  - pose proof (up_get_config_silent env (w, log)) as Hs.
    pose proof (up_get_config_terminates env (w, log)) as Ht.
    pose proof (up_get_config_compartment env (w, log)) as Hc.
    unfold ScaleUp.handler, try_except, ScaleUp.handler_body.
    unfold bind at 1.
    destruct (ScaleUp.get_config env (w, log)) as [[cfg | e | ] s0];
      simpl in Hs, Ht; subst s0.
    + destruct Hbad as [Hnone | (e & s0 & E)]; [| discriminate].
      specialize (Hc cfg _ eq_refl). unfold bind at 1, ScaleUp.compartment_slice.
      rewrite Hc, Hnone. eexists. split; reflexivity.
    + eexists. split; reflexivity.
    + contradiction.
  - pose proof (down_get_config_silent env (w, log)) as Hs.
    pose proof (down_get_config_terminates env (w, log)) as Ht.
    pose proof (down_get_config_compartment env (w, log)) as Hc.
    unfold ScaleDown.handler, ScaleDown.handler_with, try_except,
      ScaleDown.handler_body_with.
    unfold bind at 1.
    destruct (ScaleDown.get_config env (w, log)) as [[cfg | e | ] s0];
      simpl in Hs, Ht; subst s0.
    + destruct Hbad as [Hnone | (e & s0 & E)]; [| discriminate].
      specialize (Hc cfg _ eq_refl). unfold bind at 1, ScaleDown.compartment_slice.
      rewrite Hc, Hnone. eexists. split; reflexivity.
    + eexists. split; reflexivity.
    + contradiction.
Qed.

(** X2.  The two functions read the same fleet from the same environment:
    whenever the scale-up configuration loads, the scale-down configuration
    loads too and has the same compartment, subnet, display-name prefix,
    load balancer, backend set, port and instance bounds. *)
Theorem configurations_agree :
  forall (env : environ) (s s1 : state W) (up : ScaleUp.config),
    ScaleUp.get_config env s = (Returned up, s1) ->
    exists down,
      ScaleDown.get_config env s = (Returned down, s) /\
      ScaleDown.compartment_id down = ScaleUp.compartment_id up /\
      ScaleDown.subnet_id down = ScaleUp.subnet_id up /\
      ScaleDown.display_name_prefix down = ScaleUp.display_name_prefix up /\
      ScaleDown.lb_ocid down = ScaleUp.lb_ocid up /\
      ScaleDown.backend_set_name down = ScaleUp.backend_set_name up /\
      ScaleDown.app_port down = ScaleUp.app_port up /\
      ScaleDown.max_instances down = ScaleUp.max_instances up /\
      ScaleDown.min_instances down = ScaleUp.min_instances up.
Proof.
  intros env s s1 up. unfold ScaleUp.get_config, ScaleDown.get_config, bind.
  destruct (int (environ_get env "MEMORY_GB" "8")); simpl; try discriminate.
  destruct (int (environ_get env "OCPUS" "1")); simpl; try discriminate.
  destruct (int (environ_get env "APP_PORT" "8080")); simpl; try discriminate.
  destruct (int (environ_get env "MAX_INSTANCES" "5")); simpl; try discriminate.
  destruct (int (environ_get env "MIN_INSTANCES" "1")); simpl; try discriminate.
  destruct (int (environ_get env "COOLDOWN_SECONDS" "120")); simpl; try discriminate.
  intros E. inversion E; subst. eexists. split; [reflexivity |].
  repeat split.
Qed.

(** ** Resources of one invocation *)

Lemma spends_from_empty {R} cost b (m : M R) (w : W) :
  spends cost b m -> total cost (snd (snd (m (w, [])))) <= b.
Proof. intros Hm. destruct (Hm (w, [])) as (l & -> & T). exact T. Qed.

Lemma emits_from_empty {R} P (m : M R) (w : W) :
  emits P m -> Forall P (snd (snd (m (w, [])))).
Proof. intros Hm. destruct (Hm (w, [])) as (l & -> & F). exact F. Qed.

(** X3.  One scale-up invocation makes at most 118 SDK calls and sleeps at
    most 495 seconds in total, whatever the providers answer. *)
Theorem scale_up_invocation_is_bounded :
  forall (env : environ) (data : option string) (w : W),
    let log := snd (snd (ScaleUp.handler env data (w, []))) in
    total one_per_call log <= 118 /\ total seconds_slept log <= 495.
Proof.
  intros env data w log. split; apply spends_from_empty.
  - eapply spends_weaken; [unfold_scale_up; budget | vm_compute; discriminate].
  - eapply spends_weaken; [unfold_scale_up; budget | vm_compute; discriminate].
Qed.

(** X4.  One scale-down invocation makes at most 18 SDK calls and sleeps at
    most 150 seconds in total, whatever the providers answer. *)
Theorem scale_down_invocation_is_bounded :
  forall (env : environ) (data : option string) (w : W),
    let log := snd (snd (ScaleDown.handler env data (w, []))) in
    total one_per_call log <= 18 /\ total seconds_slept log <= 150.
Proof.
  intros env data w log. split; apply spends_from_empty.
  - eapply spends_weaken; [unfold_scale_down; budget | vm_compute; discriminate].
  - eapply spends_weaken; [unfold_scale_down; budget | vm_compute; discriminate].
Qed.

(** X5.  One scale-up invocation requests the creation of at most one
    container instance, and never asks the provider to delete an instance or
    to remove a backend. *)
Theorem scale_up_creates_at_most_once_and_never_removes :
  forall (env : environ) (data : option string) (w : W),
    let log := snd (snd (ScaleUp.handler env data (w, []))) in
    total one_per_creation log <= 1 /\
    Forall (fun ev => is_removal ev = false) log.
Proof.
  intros env data w log. split.
  - apply spends_from_empty.
    eapply spends_weaken; [unfold_scale_up; budget | vm_compute; discriminate].
  - apply emits_from_empty. unfold_scale_up. repeat (emits_step || reflexivity).
Qed.

(** X6.  One scale-down invocation requests the deletion of at most one
    container instance and the removal of at most one backend, and never
    asks the provider to create an instance, a backend set or a backend. *)
Theorem scale_down_removes_at_most_once_and_never_creates :
  forall (env : environ) (data : option string) (w : W),
    let log := snd (snd (ScaleDown.handler env data (w, []))) in
    total one_per_deletion log <= 1 /\
    total one_per_backend_removal log <= 1 /\
    Forall (fun ev => is_creation ev = false) log.
Proof.
  intros env data w log. split; [| split].
  - apply spends_from_empty.
    eapply spends_weaken; [unfold_scale_down; budget | vm_compute; discriminate].
  - apply spends_from_empty.
    eapply spends_weaken; [unfold_scale_down; budget | vm_compute; discriminate].
  - apply emits_from_empty. unfold_scale_down. repeat (emits_step || reflexivity).
Qed.

(** ** Order of the mutations *)

Lemma phased_from_empty {R} P1 P2 (m : M R) (w : W) :
  phased P1 P2 m ->
  exists l1 l2,
    snd (snd (m (w, []))) = (l1 ++ l2)%list /\ Forall P1 l1 /\ Forall P2 l2.
Proof. intros Hm. destruct (Hm (w, [])) as (l1 & l2 & -> & F). now exists l1, l2. Qed.

(** X7.  In a scale-up invocation the instance is created before the load
    balancer is touched: the log splits into a first part without any load
    balancer call and a second part without any creation request. *)
Theorem scale_up_creates_before_load_balancer :
  forall (env : environ) (data : option string) (w : W),
    exists l1 l2,
      snd (snd (ScaleUp.handler env data (w, []))) = (l1 ++ l2)%list /\
      Forall (fun ev => is_load_balancer_call ev = false) l1 /\
      Forall (fun ev => one_per_creation ev = 0) l2.
Proof.
  intros env data w. apply phased_from_empty.
  unfold_scale_up. repeat phased_step.
Qed.

(** X8.  In a scale-down invocation the backend is removed before the
    instance is deleted: the log splits into a first part without any
    deletion request and a second part without any backend removal. *)
Theorem scale_down_removes_backend_before_instance :
  forall (env : environ) (data : option string) (w : W),
    exists l1 l2,
      snd (snd (ScaleDown.handler env data (w, []))) = (l1 ++ l2)%list /\
      Forall (fun ev => one_per_deletion ev = 0) l1 /\
      Forall (fun ev => is_delete_backend ev = false) l2.
Proof.
  intros env data w. apply phased_from_empty.
  unfold_scale_down. repeat phased_step.
Qed.

(** ** Every way a handler can return *)

Lemma up_startup_intro env s cfg s0 s0' s1 :
  ScaleUp.get_config env s = (Returned cfg, s0) ->
  ScaleUp.compartment_slice cfg s0 = (Returned tt, s0') ->
  call oci.get_resource_principals_signer s0' = (Returned tt, s1) ->
  scale_up_startup env s = (Returned cfg, s1).
Proof.
  intros E1 E2 E3. unfold scale_up_startup.
  rewrite (bind_returned _ _ _ _ _ E1), (bind_returned _ _ _ _ _ E2).
  now rewrite (bind_returned _ _ _ _ _ E3).
Qed.

Lemma down_startup_intro env s cfg s0 s0' s1 :
  ScaleDown.get_config env s = (Returned cfg, s0) ->
  ScaleDown.compartment_slice cfg s0 = (Returned tt, s0') ->
  call oci.get_resource_principals_signer s0' = (Returned tt, s1) ->
  scale_down_startup env s = (Returned cfg, s1).
Proof.
  intros E1 E2 E3. unfold scale_down_startup.
  rewrite (bind_returned _ _ _ _ _ E1), (bind_returned _ _ _ _ _ E2).
  now rewrite (bind_returned _ _ _ _ _ E3).
Qed.

Lemma ret_inv {R} (r r' : R) (s s' : state W) :
  ret r s = (Returned r', s') -> r' = r /\ s' = s.
Proof. unfold ret. intros E. inversion E. auto. Qed.

(** The runs of the scale-down handler that do not end in an error
    result. *)
Lemma down_run_cases env data (w : W) d s' :
  ScaleDown.handler env data (w, []) = (Returned d, s') ->
  dict_get "status" d = Some (VStr "error") \/
  exists cfg s1 l s2,
    scale_down_startup env (w, []) = (Returned cfg, s1) /\
    ScaleDown.list_active_instances cfg s1 = (Returned l, s2) /\
    ((len l <= ScaleDown.min_instances cfg /\
      s' = s2 /\
      d = [ ("status", VStr "skipped");
            ("message", VStr ("Already at minimum instances ("
                                ++ str_of_int (ScaleDown.min_instances cfg) ++ ")"));
            ("current_count", VInt (len l)) ])
     \/
     (ScaleDown.min_instances cfg < len l /\
      exists v address s3 done,
        ScaleDown.select_instance_for_removal l s2 = (Returned v, s2) /\
        try_except
          (private_ip <- ScaleDown.get_instance_private_ip (id v) ;;
           ScaleDown.remove_backend_from_lb cfg private_ip ;;
           ret private_ip)
          (fun _ => ret "unknown") s2 = (Returned address, s3) /\
        ScaleDown.delete_container_instance (id v) s3 = (Returned done, s') /\
        d = [ ("status", VStr "success");
              ("message", VStr "Container instance scaled down successfully");
              ("instance_ocid", VStr (id v));
              ("instance_name", VStr (display_name v));
              ("private_ip", VStr address);
              ("total_instances", VInt (len l - 1));
              ("timestamp", VStr (utcnow_isoformat (fst s'))) ])).
Proof.
  intros Hrun. unfold ScaleDown.handler, ScaleDown.handler_with in Hrun.
  apply try_inv_returned in Hrun as [Hb | (e & s1 & _ & Herr)].
  2:{ left. destruct s1 as [w1 log1]. unfold ScaleDown.error_result, bind, observe in Herr.
      apply ret_inv in Herr as [-> _]. reflexivity. }
  right. unfold ScaleDown.handler_body_with in Hb.
  apply bind_inv_returned in Hb as (cfg & s0 & Hcfg & Hb).
  apply bind_inv_returned in Hb as ([] & s0' & Hslice & Hb).
  apply bind_inv_returned in Hb as ([] & s1 & Hsign & Hb).
  apply bind_inv_returned in Hb as (l & s2 & Hl & Hb).
  exists cfg, s1, l, s2.
  split; [exact (down_startup_intro _ _ _ _ _ _ Hcfg Hslice Hsign) |].
  split; [exact Hl |].
  destruct (Z.leb_spec (len l) (ScaleDown.min_instances cfg)) as [Hle | Hgt].
  - left. apply ret_inv in Hb as [-> ->]. auto.
  - right. split; [exact Hgt |].
    apply bind_inv_returned in Hb as (v & s2' & Hsel & Hb).
    assert (s2' = s2).
    { unfold ScaleDown.select_instance_for_removal in Hsel.
      destruct l; [discriminate |].
      destruct (sorted time_created (i :: l)); [discriminate |].
      now apply ret_inv in Hsel as [_ ->]. }
    subst s2'.
    apply bind_inv_returned in Hb as (address & s3 & Hbest & Hb).
    apply bind_inv_returned in Hb as (done & s4 & Hdel & Hb).
    destruct s4 as [w4 log4]. unfold bind, observe in Hb.
    apply ret_inv in Hb as [-> ->].
    now exists v, address, s3, done.
Qed.

(** The runs of the scale-up handler that do not end in an error result. *)
Lemma up_run_cases env data (w : W) d s' :
  ScaleUp.handler env data (w, []) = (Returned d, s') ->
  dict_get "status" d = Some (VStr "error") \/
  exists cfg s1 a s2 c s3,
    scale_up_startup env (w, []) = (Returned cfg, s1) /\
    ScaleUp.count_active_instances cfg s1 = (Returned a, s2) /\
    ScaleUp.count_creating_instances cfg s2 = (Returned c, s3) /\
    ((ScaleUp.max_instances cfg <= a + c /\
      s' = s3 /\
      dict_get "status" d = Some (VStr "skipped"))
     \/
     (a + c < ScaleUp.max_instances cfg /\ 0 < c /\
      s' = s3 /\
      dict_get "status" d = Some (VStr "skipped"))
     \/
     (a + c < ScaleUp.max_instances cfg /\ c <= 0 /\
      ScaleUp.check_cooldown cfg s3 = (Returned false, s') /\
      dict_get "status" d = Some (VStr "skipped"))
     \/
     (a + c < ScaleUp.max_instances cfg /\ c <= 0 /\
      exists s4 ocid s5 seen s6 address s7 s8,
        ScaleUp.check_cooldown cfg s3 = (Returned true, s4) /\
        ScaleUp.create_container_instance cfg s4 = (Returned ocid, s5) /\
        ScaleUp.wait_for_instance_state ocid "ACTIVE" 300 s5 = (Returned seen, s6) /\
        ScaleUp.get_instance_private_ip ocid s6 = (Returned address, s7) /\
        ScaleUp.ensure_backend_set_exists cfg s7 = (Returned tt, s8) /\
        ScaleUp.add_backend_to_lb cfg address s8 = (Returned tt, s') /\
        d = [ ("status", VStr "success");
              ("message", VStr "Container instance scaled up successfully");
              ("instance_ocid", VStr ocid);
              ("private_ip", VStr address);
              ("total_instances", VInt (a + 1));
              ("timestamp", VStr (utcnow_isoformat (fst s'))) ])).
Proof.
  intros Hrun. unfold ScaleUp.handler in Hrun.
  apply try_inv_returned in Hrun as [Hb | (e & s1 & _ & Herr)].
  2:{ left. destruct s1 as [w1 log1]. unfold ScaleUp.error_result, bind, observe in Herr.
      apply ret_inv in Herr as [-> _]. reflexivity. }
  right. unfold ScaleUp.handler_body in Hb.
  apply bind_inv_returned in Hb as (cfg & s0 & Hcfg & Hb).
  apply bind_inv_returned in Hb as ([] & s0' & Hslice & Hb).
  apply bind_inv_returned in Hb as ([] & s1 & Hsign & Hb).
  apply bind_inv_returned in Hb as (a & s2 & Ha & Hb).
  apply bind_inv_returned in Hb as (c & s3 & Hc & Hb).
  exists cfg, s1, a, s2, c, s3.
  split; [exact (up_startup_intro _ _ _ _ _ _ Hcfg Hslice Hsign) |].
  split; [exact Ha |]. split; [exact Hc |].
  cbv zeta in Hb.
  destruct (Z.geb_spec (a + c) (ScaleUp.max_instances cfg)) as [Hmax | Hmax].
  { left. apply ret_inv in Hb as [-> ->]. auto. }
  destruct (Z.gtb_spec c 0) as [Hpos | Hpos].
  { right. left. apply ret_inv in Hb as [-> ->]. repeat split; auto; lia. }
  right. right.
  apply bind_inv_returned in Hb as (allowed & s4 & Hcool & Hb).
  destruct allowed; simpl negb in Hb; cbv iota in Hb.
  - right. split; [lia |]. split; [lia |].
    apply bind_inv_returned in Hb as (ocid & s5 & Hcreate & Hb).
    apply bind_inv_returned in Hb as (seen & s6 & Hwait & Hb).
    apply bind_inv_returned in Hb as (address & s7 & Hip & Hb).
    apply bind_inv_returned in Hb as ([] & s8 & Hens & Hb).
    apply bind_inv_returned in Hb as ([] & s9 & Hadd & Hb).
    destruct s9 as [w9 log9]. unfold bind, observe in Hb.
    apply ret_inv in Hb as [-> ->].
    now exists s4, ocid, s5, seen, s6, address, s7, s8.
  - left. apply ret_inv in Hb as [-> ->]. repeat split; auto; lia.
Qed.

(** ** What the results say about the run *)

Lemma up_startup_log env (w : W) cfg s1 :
  scale_up_startup env (w, []) = (Returned cfg, s1) -> Forall read_only (snd s1).
Proof.
  intros E. apply (emits_keeps _ _ _ _ _ (up_startup_emits env) E). constructor.
Qed.

Lemma down_startup_log env (w : W) cfg s1 :
  scale_down_startup env (w, []) = (Returned cfg, s1) -> Forall read_only (snd s1).
Proof.
  intros E. apply (emits_keeps _ _ _ _ _ (down_startup_emits env) E). constructor.
Qed.

(** X9.  A skipped result means that nothing was changed: whenever either
    handler returns status skipped, its run made no call that creates or
    deletes an instance, a backend set or a backend. *)
Theorem skipped_means_untouched :
  forall (env : environ) (data : option string) (w : W) (d : dict) (s' : state W),
    dict_get "status" d = Some (VStr "skipped") ->
    (ScaleUp.handler env data (w, []) = (Returned d, s') -> no_mutation (snd s'))
    /\
    (ScaleDown.handler env data (w, []) = (Returned d, s') -> no_mutation (snd s')).
Proof.
  intros env data w d s' Hskip. split; intros Hrun.
  - destruct (up_run_cases env data w d s' Hrun)
      as [Herr | (cfg & s1 & a & s2 & c & s3 & Hstart & Ha & Hc & Hcases)];
      [rewrite Herr in Hskip; discriminate |].
    pose proof (up_startup_log env w cfg s1 Hstart) as L1.
    pose proof (emits_keeps _ _ _ _ _ (count_active_emits cfg) Ha L1) as L2.
    pose proof (emits_keeps _ _ _ _ _ (count_creating_emits cfg) Hc L2) as L3.
    destruct Hcases as [(_ & -> & _) | [(_ & _ & -> & _) | [(_ & _ & Hcool & _) | Hgo]]];
      try exact L3.
    + exact (emits_keeps _ _ _ _ _ (check_cooldown_emits cfg) Hcool L3).
    + destruct Hgo as (_ & _ & s4 & ocid & s5 & seen & s6 & address & s7 & s8 & Hgo).
      destruct Hgo as (_ & _ & _ & _ & _ & _ & ->). discriminate.
  - destruct (down_run_cases env data w d s' Hrun)
      as [Herr | (cfg & s1 & l & s2 & Hstart & Hl & Hcases)];
      [rewrite Herr in Hskip; discriminate |].
    pose proof (down_startup_log env w cfg s1 Hstart) as L1.
    pose proof (emits_keeps _ _ _ _ _ (list_active_emits cfg) Hl L1) as L2.
    destruct Hcases as [(_ & -> & _) | (_ & v & address & s3 & done & _ & _ & _ & ->)];
      [exact L2 | discriminate].
Qed.

(** X10.  The fleet size reported by a successful run stays within the
    configured bounds: a successful scale-up reports total_instances between
    1 and max_instances, a successful scale-down reports total_instances at
    least min_instances and at least 0. *)
Theorem reported_fleet_size_is_within_bounds :
  forall (env : environ) (data : option string) (w : W) (d : dict) (s' : state W),
    dict_get "status" d = Some (VStr "success") ->
    (ScaleUp.handler env data (w, []) = (Returned d, s') ->
     exists cfg n,
       ScaleUp.get_config env (w, []) = (Returned cfg, (w, [])) /\
       dict_get "total_instances" d = Some (VInt n) /\
       1 <= n <= ScaleUp.max_instances cfg)
    /\
    (ScaleDown.handler env data (w, []) = (Returned d, s') ->
     exists cfg n,
       ScaleDown.get_config env (w, []) = (Returned cfg, (w, [])) /\
       dict_get "total_instances" d = Some (VInt n) /\
       ScaleDown.min_instances cfg <= n /\ 0 <= n).
Proof.
  intros env data w d s' Hok. split; intros Hrun.
  - destruct (up_run_cases env data w d s' Hrun)
      as [Herr | (cfg & s1 & a & s2 & c & s3 & Hstart & Ha & Hc & Hcases)];
      [rewrite Herr in Hok; discriminate |].
    destruct Hcases as [(_ & _ & E) | [(_ & _ & _ & E) | [(_ & _ & _ & E) | Hgo]]];
      try (rewrite E in Hok; discriminate).
    destruct Hgo as (Hmax & Hzero & s4 & ocid & s5 & seen & s6 & address & s7 & s8 & Hgo).
    destruct Hgo as (_ & _ & _ & _ & _ & _ & ->).
    destruct (up_startup_inv _ _ _ _ Hstart) as (s0 & s0' & Hcfg & _).
    pose proof (up_get_config_silent env (w, [])) as Hs. rewrite Hcfg in Hs.
    simpl in Hs. subst s0.
    assert (0 <= a) by exact (count_active_nonneg cfg s1 a s2 Ha).
    assert (0 <= c) by exact (count_creating_nonneg cfg s2 c s3 Hc).
    exists cfg, (a + 1). split; [exact Hcfg |]. split; [reflexivity | lia].
  - destruct (down_run_cases env data w d s' Hrun)
      as [Herr | (cfg & s1 & l & s2 & Hstart & Hl & Hcases)];
      [rewrite Herr in Hok; discriminate |].
    destruct Hcases as [(_ & _ & ->) | (Hmin & v & address & s3 & done & Hsel & _ & _ & ->)];
      [discriminate |].
    destruct (down_startup_inv _ _ _ _ Hstart) as (s0 & s0' & Hcfg & _).
    pose proof (down_get_config_silent env (w, [])) as Hs. rewrite Hcfg in Hs.
    simpl in Hs. subst s0.
    exists cfg, (len l - 1). split; [exact Hcfg |]. split; [reflexivity |].
    split; [lia |].
    destruct l as [| x l]; [discriminate |]. unfold len.
    change (Datatypes.length (x :: l)) with (S (Datatypes.length l)). lia.
Qed.

(** ** Which instance a scale-down deletes *)

Lemma down_enter_bind env s (k : ScaleDown.config -> M dict) :
  (config <- ScaleDown.get_config env ;;
   ScaleDown.compartment_slice config ;;
   call oci.get_resource_principals_signer ;;
   k config) s = bind (scale_down_startup env) k s.
Proof.
  unfold scale_down_startup, bind.
  destruct (ScaleDown.get_config env s) as [[c | e0 | ] s0]; auto.
  destruct (ScaleDown.compartment_slice c s0) as [[[] | e0 | ] s0']; auto.
  destruct (call oci.get_resource_principals_signer s0') as [[[] | e0 | ] s1']; auto.
Qed.

Lemma down_enter_raised env s e s1 (k : ScaleDown.config -> M dict) :
  scale_down_startup env s = (Raised e, s1) ->
  (config <- ScaleDown.get_config env ;;
   ScaleDown.compartment_slice config ;;
   call oci.get_resource_principals_signer ;;
   k config) s = (Raised e, s1).
Proof. intros E. rewrite down_enter_bind. unfold bind. now rewrite E. Qed.

Lemma down_enter_out_of_fuel env s s1 (k : ScaleDown.config -> M dict) :
  scale_down_startup env s = (OutOfFuel, s1) ->
  (config <- ScaleDown.get_config env ;;
   ScaleDown.compartment_slice config ;;
   call oci.get_resource_principals_signer ;;
   k config) s = (OutOfFuel, s1).
Proof. intros E. rewrite down_enter_bind. unfold bind. now rewrite E. Qed.

Lemma read_only_not_deletion (log : list event) :
  Forall read_only log -> Forall (fun ev => deleted_instance ev = None) log.
Proof.
  apply Forall_impl. intros [A c |]; [| reflexivity].
  destruct c; simpl; auto; discriminate.
Qed.

Lemma down_error_result_log e (s : state W) :
  snd (snd (ScaleDown.error_result e s)) = snd s.
Proof. now destruct s. Qed.

(** The log of a scale-down run: either no deletion was requested, or the
    handler got past the bound check and its log is the one left by the
    deletion of the selected instance. *)
Lemma down_log_cases env data (w : W) :
  Forall (fun ev => deleted_instance ev = None)
         (snd (snd (ScaleDown.handler env data (w, []))))
  \/
  exists cfg s1 l s2 v address s3,
    scale_down_startup env (w, []) = (Returned cfg, s1) /\
    ScaleDown.list_active_instances cfg s1 = (Returned l, s2) /\
    ScaleDown.min_instances cfg < len l /\
    ScaleDown.select_instance_for_removal l s2 = (Returned v, s2) /\
    first_earliest v l /\
    try_except
      (private_ip <- ScaleDown.get_instance_private_ip (id v) ;;
       ScaleDown.remove_backend_from_lb cfg private_ip ;;
       ret private_ip)
      (fun _ => ret "unknown") s2 = (Returned address, s3) /\
    snd (snd (ScaleDown.handler env data (w, [])))
    = snd (snd (ScaleDown.delete_container_instance (id v) s3)).
Proof.
  destruct (scale_down_startup env (w, [])) as [[cfg | e | ] s1] eqn:Hstart.
  - pose proof (down_startup_log env w cfg s1 Hstart) as L1.
    destruct (list_active_total cfg s1) as (l & s2 & Hl).
    pose proof (emits_keeps _ _ _ _ _ (list_active_emits cfg) Hl L1) as L2.
    destruct (Z.leb_spec (len l) (ScaleDown.min_instances cfg)) as [Hle | Hgt].
    + left. unfold ScaleDown.handler, ScaleDown.handler_with, try_except,
        ScaleDown.handler_body_with.
      rewrite (down_enter env _ _ _ _ Hstart), (bind_returned _ _ _ _ _ Hl).
      destruct (Z.leb_spec (len l) (ScaleDown.min_instances cfg)); [| lia].
      apply read_only_not_deletion. exact L2.
    + assert (Hcases : l = [] \/ l <> [])
        by (destruct l; [now left | right; discriminate]).
      destruct Hcases as [-> | Hne].
      * left. unfold ScaleDown.handler, ScaleDown.handler_with, try_except,
          ScaleDown.handler_body_with.
        rewrite (down_enter env _ _ _ _ Hstart), (bind_returned _ _ _ _ _ Hl).
        destruct (Z.leb_spec (@len instance []) (ScaleDown.min_instances cfg)); [lia |].
        unfold bind at 1. simpl. rewrite down_error_result_log.
        apply read_only_not_deletion. exact L2.
      * destruct (select_returns l s2 Hne) as (v & Hsel & F).
        destruct (best_effort_total cfg (id v) s2) as (address & s3 & Hbest).
        right. exists cfg, s1, l, s2, v, address, s3.
        repeat split; auto.
        destruct (ScaleDown.delete_container_instance (id v) s3) as [r s4] eqn:Hdel.
        rewrite (down_handler_past_check env data w cfg s1 l s2 v address s3 r s4
                   Hstart Hl Hgt Hsel Hbest Hdel).
        now destruct r.
  - left. unfold ScaleDown.handler, ScaleDown.handler_with, try_except,
      ScaleDown.handler_body_with.
    rewrite (down_enter_raised env _ _ _ _ Hstart). rewrite down_error_result_log.
    apply read_only_not_deletion.
    apply (emits_keeps _ _ _ _ _ (down_startup_emits env) Hstart). constructor.
  - left. unfold ScaleDown.handler, ScaleDown.handler_with, try_except,
      ScaleDown.handler_body_with.
    rewrite (down_enter_out_of_fuel env _ _ _ Hstart).
    apply read_only_not_deletion.
    apply (emits_keeps _ _ _ _ _ (down_startup_emits env) Hstart). constructor.
Qed.

Lemma list_active_inv cfg (w1 : W) log1 l s2 :
  ScaleDown.list_active_instances cfg (w1, log1) = (Returned l, s2) ->
  l = [] \/
  exists items w2,
    provider _ (oci.list_container_instances
                  (ScaleDown.compartment_id cfg) (Some "ACTIVE") None) w1
    = (inr items, w2) /\
    l = filter (fun inst => startswith (display_name inst)
                              (ScaleDown.display_name_prefix cfg)) items.
Proof.
  unfold ScaleDown.list_active_instances, try_except, bind, call.
  destruct (provider _ _ w1) as [[e | items] w2]; intros E.
  - left. now apply ret_inv in E as [-> _].
  - right. exists items, w2. split; [reflexivity |].
    now apply ret_inv in E as [-> _].
Qed.

Lemma best_effort_emits_no_deletion cfg ocid :
  emits (fun ev => deleted_instance ev = None)
    (try_except
       (private_ip <- ScaleDown.get_instance_private_ip ocid ;;
        ScaleDown.remove_backend_from_lb cfg private_ip ;;
        ret private_ip)
       (fun _ => ret "unknown") : M string).
Proof. unfold_scale_down. repeat (emits_step || reflexivity). Qed.

Lemma delete_emits_only_its_instance ocid :
  emits (fun ev => forall o, deleted_instance ev = Some o -> o = ocid)
        (ScaleDown.delete_container_instance ocid).
Proof.
  unfold_scale_down.
  repeat (emits_step || (simpl; intros o E; inversion E; reflexivity)
          || (simpl; intros o E; discriminate)).
Qed.

(** X11.  A scale-down only ever deletes a member of the fleet: every
    deletion request found in the log of a run names an instance that the
    provider listed as ACTIVE in that run, whose display name starts with the
    fleet prefix, that is the oldest such instance, and the number of such
    instances exceeded min_instances. *)
Theorem scale_down_deletes_only_listed_fleet_members :
  forall (env : environ) (data : option string) (w : W) (ocid : string),
    In (Called (oci.delete_container_instance ocid))
       (snd (snd (ScaleDown.handler env data (w, [])))) ->
    exists cfg w1 log1 items w2 inst,
      scale_down_startup env (w, []) = (Returned cfg, (w1, log1)) /\
      provider _ (oci.list_container_instances
                    (ScaleDown.compartment_id cfg) (Some "ACTIVE") None) w1
      = (inr items, w2) /\
      In inst items /\
      id inst = ocid /\
      startswith (display_name inst) (ScaleDown.display_name_prefix cfg) = true /\
      (forall x, In x items ->
                 startswith (display_name x) (ScaleDown.display_name_prefix cfg) = true ->
                 time_created inst <= time_created x) /\
      ScaleDown.min_instances cfg
      < len (filter (fun i => startswith (display_name i)
                                (ScaleDown.display_name_prefix cfg)) items).
Proof.
  intros env data w ocid Hin.
  destruct (down_log_cases env data w)
    as [Hnone | (cfg & [w1 log1] & l & s2 & v & address & s3
                 & Hstart & Hl & Hmin & Hsel & F & Hbest & Hlog)].
  - rewrite Forall_forall in Hnone. specialize (Hnone _ Hin). discriminate.
  - assert (Hv : ocid = id v).
    { rewrite Hlog in Hin.
      assert (L3 : Forall (fun ev => forall o, deleted_instance ev = Some o -> o = id v)
                          (snd s3)).
      { eapply Forall_impl;
          [| apply (emits_keeps _ _ _ _ _ (best_effort_emits_no_deletion cfg (id v)) Hbest);
             apply read_only_not_deletion;
             apply (emits_keeps _ _ _ _ _ (list_active_emits cfg) Hl);
             exact (down_startup_log env w cfg _ Hstart)].
        intros ev E o Eo. rewrite E in Eo. discriminate. }
      destruct (ScaleDown.delete_container_instance (id v) s3) as [r s4] eqn:Hdel.
      pose proof (emits_keeps _ _ _ _ _ (delete_emits_only_its_instance (id v)) Hdel L3)
        as L4.
      rewrite Forall_forall in L4. exact (L4 _ Hin ocid eq_refl). }
    destruct (list_active_inv cfg w1 log1 l s2 Hl) as [-> | (items & w2 & Hp & El)].
    { destruct F as (before & after & E & _). now destruct before. }
    pose proof (first_earliest_in v l F) as Iv. rewrite El in Iv.
    apply filter_In in Iv as [Iv Pv].
    exists cfg, w1, log1, items, w2, v. repeat split; auto.
    + intros x Ix Px. apply (first_earliest_least v l x F).
      rewrite El. apply filter_In. auto.
    + now rewrite <- El.
Qed.

(** ** When a scale-up changes anything *)

Lemma up_enter_bind env s (k : ScaleUp.config -> M dict) :
  (config <- ScaleUp.get_config env ;;
   ScaleUp.compartment_slice config ;;
   call oci.get_resource_principals_signer ;;
   k config) s = bind (scale_up_startup env) k s.
Proof.
  unfold scale_up_startup, bind.
  destruct (ScaleUp.get_config env s) as [[c | e0 | ] s0]; auto.
  destruct (ScaleUp.compartment_slice c s0) as [[[] | e0 | ] s0']; auto.
  destruct (call oci.get_resource_principals_signer s0') as [[[] | e0 | ] s1']; auto.
Qed.

Lemma up_error_result_log e (s : state W) :
  snd (snd (ScaleUp.error_result e s)) = snd s.
Proof. now destruct s. Qed.

(** X12.  A scale-up changes the cloud only after all three checks have
    passed: if the log of a run contains any creating or deleting call, then
    the counts read in that run satisfied active + creating < max_instances
    with no instance being created, and the cooldown check answered True. *)
Theorem scale_up_mutates_only_after_all_checks :
  forall (env : environ) (data : option string) (w : W) (ev : event),
    In ev (snd (snd (ScaleUp.handler env data (w, [])))) ->
    is_mutation ev = true ->
    exists cfg s1 a s2 s3 s4,
      scale_up_startup env (w, []) = (Returned cfg, s1) /\
      ScaleUp.count_active_instances cfg s1 = (Returned a, s2) /\
      ScaleUp.count_creating_instances cfg s2 = (Returned 0, s3) /\
      ScaleUp.check_cooldown cfg s3 = (Returned true, s4) /\
      0 <= a < ScaleUp.max_instances cfg.
Proof.
  intros env data w ev Hin Hmut.
  assert (Hquiet : forall log, Forall read_only log -> In ev log -> False).
  { intros log F I. rewrite Forall_forall in F. specialize (F ev I).
    unfold read_only in F. congruence. }
  destruct (scale_up_startup env (w, [])) as [[cfg | e | ] s1] eqn:Hstart.
  - pose proof (up_startup_log env w cfg s1 Hstart) as L1.
    destruct (count_active_total cfg s1) as (a & s2 & Ha).
    destruct (count_creating_total cfg s2) as (c & s3 & Hc).
    destruct (check_cooldown_total cfg s3) as (allowed & s4 & Hcool).
    pose proof (emits_keeps _ _ _ _ _ (count_active_emits cfg) Ha L1) as L2.
    pose proof (emits_keeps _ _ _ _ _ (count_creating_emits cfg) Hc L2) as L3.
    pose proof (emits_keeps _ _ _ _ _ (check_cooldown_emits cfg) Hcool L3) as L4.
    assert (0 <= a) by exact (count_active_nonneg cfg s1 a s2 Ha).
    assert (0 <= c) by exact (count_creating_nonneg cfg s2 c s3 Hc).
    destruct (Z.geb_spec (a + c) (ScaleUp.max_instances cfg)) as [Hmax | Hmax].
    { exfalso. apply (Hquiet (snd s3) L3).
      revert Hin. unfold ScaleUp.handler, try_except, ScaleUp.handler_body.
      rewrite (up_enter env _ _ _ _ Hstart).
      rewrite (bind_returned _ _ _ _ _ Ha), (bind_returned _ _ _ _ _ Hc). cbv zeta.
      destruct (Z.geb_spec (a + c) (ScaleUp.max_instances cfg)); [| lia]. auto. }
    destruct (Z.gtb_spec c 0) as [Hpos | Hpos].
    { exfalso. apply (Hquiet (snd s3) L3).
      revert Hin. unfold ScaleUp.handler, try_except, ScaleUp.handler_body.
      rewrite (up_enter env _ _ _ _ Hstart).
      rewrite (bind_returned _ _ _ _ _ Ha), (bind_returned _ _ _ _ _ Hc). cbv zeta.
      destruct (Z.geb_spec (a + c) (ScaleUp.max_instances cfg)); [lia |].
      destruct (Z.gtb_spec c 0); [| lia]. auto. }
    assert (c = 0) by lia. subst c.
    destruct allowed.
    + exists cfg, s1, a, s2, s3, s4. repeat split; auto; lia.
    + exfalso. apply (Hquiet (snd s4) L4).
      assert (Ha' : a < ScaleUp.max_instances cfg) by lia.
      pose proof (up_handler_at_cooldown env data w cfg s1 a s2 s3 false s4
                    Hstart Ha Hc Ha' Hcool) as Hrun.
      cbv iota in Hrun. rewrite Hrun in Hin. exact Hin.
  - exfalso.
    apply (Hquiet (snd s1));
      [apply (emits_keeps _ _ _ _ _ (up_startup_emits env) Hstart); constructor |].
    revert Hin. unfold ScaleUp.handler, try_except, ScaleUp.handler_body.
    rewrite up_enter_bind. unfold bind. rewrite Hstart.
    now rewrite up_error_result_log.
  - exfalso.
    apply (Hquiet (snd s1));
      [apply (emits_keeps _ _ _ _ _ (up_startup_emits env) Hstart); constructor |].
    revert Hin. unfold ScaleUp.handler, try_except, ScaleUp.handler_body.
    rewrite up_enter_bind. unfold bind. now rewrite Hstart.
Qed.

(** ** The polling functions *)

Lemma spends_both {R} (m : M R) c1 b1 c2 b2 (s : state W) :
  spends c1 b1 m -> spends c2 b2 m ->
  exists l, snd (snd (m s)) = (snd s ++ l)%list /\ total c1 l <= b1 /\ total c2 l <= b2.
Proof.
  intros H1 H2. destruct (H1 s) as (l & E & T1). destruct (H2 s) as (l' & E' & T2).
  rewrite E in E'. apply app_inv_head in E'. subst l'. now exists l.
Qed.

(** X13.  [wait_for_instance_state] polls at most ceil(max_wait / 5) times
    and sleeps 5 seconds after each poll, at most max_wait + 4 seconds in
    total; with max_wait <= 0 it does not poll at all.  It only reads. *)
Theorem wait_for_instance_state_is_bounded :
  forall (ocid target : string) (max_wait : Z) (s : state W),
    exists l,
      snd (snd (ScaleUp.wait_for_instance_state ocid target max_wait s))
      = (snd s ++ l)%list /\
      total one_per_call l <= iterations max_wait 5 /\
      total seconds_slept l <= 5 * iterations max_wait 5 /\
      5 * iterations max_wait 5 <= Z.max 0 (max_wait + 4) /\
      Forall read_only l.
Proof.
  intros ocid target max_wait s.
  assert (H1 : spends one_per_call (iterations max_wait 5)
                 (ScaleUp.wait_for_instance_state ocid target max_wait)).
  { eapply spends_weaken; [unfold_scale_up; budget | unfold iterations; lia]. }
  assert (H2 : spends seconds_slept (5 * iterations max_wait 5)
                 (ScaleUp.wait_for_instance_state ocid target max_wait)).
  { eapply spends_weaken; [unfold_scale_up; budget | unfold iterations; lia]. }
  destruct (spends_both _ _ _ _ _ s H1 H2) as (l & E & T1 & T2).
  exists l. repeat split; auto.
  - unfold iterations.
    pose proof (Z.div_mod (max_wait + 5 - 1) 5 ltac:(lia)).
    pose proof (Z.mod_pos_bound (max_wait + 5 - 1) 5 ltac:(lia)). lia.
  - assert (He : emits read_only (ScaleUp.wait_for_instance_state ocid target max_wait))
      by (unfold_scale_up; repeat (emits_step || reflexivity)).
    destruct (He s) as (l' & E' & F). rewrite E in E'.
    apply app_inv_head in E'. now subst l'.
Qed.

Lemma up_ip_poll_returns ocid :
  returns (fun o : option string => forall v, o = Some v -> v <> "")
    (try_except
       (inst <- call (oci.get_container_instance ocid) ;;
        match vnics inst with
        | first :: _ =>
            match vnic_id first with
            | Some v =>
                if truthy (vnic_id first) then
                  vn <- call (oci.get_vnic v) ;;
                  match private_ip vn with
                  | Some ip => if truthy (private_ip vn) then ret (Some ip) else ret None
                  | None => ret None
                  end
                else ret None
            | None => ret None
            end
        | [] => ret None
        end)
       (fun _ => ret None) : M (option string)).
Proof.
  apply returns_try; [| intros e; apply returns_ret; discriminate].
  apply returns_bind. intros inst.
  destruct (vnics inst) as [| first rest]; [apply returns_ret; discriminate |].
  destruct (vnic_id first) as [v |]; [| apply returns_ret; discriminate].
  destruct (truthy (Some v)); [| apply returns_ret; discriminate].
  apply returns_bind. intros vn.
  destruct (private_ip vn) as [ip |]; [| apply returns_ret; discriminate].
  simpl truthy. destruct (String.eqb_spec ip ""); simpl;
    apply returns_ret; [discriminate |].
  intros v0 E. inversion E. now subst.
Qed.

(** X14.  The address resolver of the scale-up function only reads, makes
    at most 48 SDK calls and sleeps at most 120 seconds; when it returns,
    the address is not empty; the only exception it raises is "Failed to
    retrieve private IP address", whatever the provider raised. *)
Theorem scale_up_address_resolution :
  forall (ocid : string) (s : state W),
    (exists l,
        snd (snd (ScaleUp.get_instance_private_ip ocid s)) = (snd s ++ l)%list /\
        total one_per_call l <= 48 /\
        total seconds_slept l <= 120 /\
        Forall read_only l)
    /\
    match fst (ScaleUp.get_instance_private_ip ocid s) with
    | Returned address => address <> ""
    | Raised e => e = Exception "Failed to retrieve private IP address"
    | OutOfFuel => False
    end.
Proof.
  intros ocid s. split.
  - assert (H1 : spends one_per_call 48 (ScaleUp.get_instance_private_ip ocid))
      by (eapply spends_weaken; [unfold_scale_up; budget | vm_compute; discriminate]).
    assert (H2 : spends seconds_slept 120 (ScaleUp.get_instance_private_ip ocid))
      by (eapply spends_weaken; [unfold_scale_up; budget | vm_compute; discriminate]).
    destruct (spends_both _ _ _ _ _ s H1 H2) as (l & E & T1 & T2).
    exists l. repeat split; auto.
    assert (He : emits read_only (ScaleUp.get_instance_private_ip ocid))
      by (unfold_scale_up; repeat (emits_step || reflexivity)).
    destruct (He s) as (l' & E' & F). rewrite E in E'.
    apply app_inv_head in E'. now subst l'.
  - pose proof (up_get_instance_private_ip_terminates ocid s) as T.
    assert (R : returns (fun a => a <> "") (ScaleUp.get_instance_private_ip ocid)).
    { unfold ScaleUp.get_instance_private_ip.
      apply returns_while; [apply up_ip_poll_returns | apply returns_raise]. }
    assert (X : raises (fun e => e = Exception "Failed to retrieve private IP address")
                       (ScaleUp.get_instance_private_ip ocid)).
    { unfold ScaleUp.get_instance_private_ip. repeat (raises_step || reflexivity). }
    destruct (ScaleUp.get_instance_private_ip ocid s) as [[a | e | ] s'] eqn:E; simpl.
    + exact (R s a s' E).
    + exact (X s e s' E).
    + now apply T.
Qed.

(** X15.  The address resolver of the scale-down function makes a single
    attempt: at most 2 SDK calls, no sleep, reads only; when it returns, the
    address is not empty; whatever goes wrong, provider errors included, it
    raises "Failed to retrieve private IP address". *)
Theorem scale_down_address_resolution :
  forall (ocid : string) (s : state W),
    (exists l,
        snd (snd (ScaleDown.get_instance_private_ip ocid s)) = (snd s ++ l)%list /\
        total one_per_call l <= 2 /\
        total seconds_slept l <= 0 /\
        Forall read_only l)
    /\
    match fst (ScaleDown.get_instance_private_ip ocid s) with
    | Returned address => address <> ""
    | Raised e => e = Exception "Failed to retrieve private IP address"
    | OutOfFuel => False
    end.
Proof.
  intros ocid s. split.
  - assert (H1 : spends one_per_call 2 (ScaleDown.get_instance_private_ip ocid))
      by (eapply spends_weaken; [unfold_scale_down; budget | vm_compute; discriminate]).
    assert (H2 : spends seconds_slept 0 (ScaleDown.get_instance_private_ip ocid))
      by (eapply spends_weaken; [unfold_scale_down; budget | vm_compute; discriminate]).
    destruct (spends_both _ _ _ _ _ s H1 H2) as (l & E & T1 & T2).
    exists l. repeat split; auto.
    destruct (down_get_instance_private_ip_emits ocid s) as (l' & E' & F).
    rewrite E in E'. apply app_inv_head in E'. now subst l'.
  - pose proof (down_get_instance_private_ip_terminates ocid s) as T.
    assert (R : returns (fun a => a <> "") (ScaleDown.get_instance_private_ip ocid)).
    { unfold ScaleDown.get_instance_private_ip.
      intros s0 a s1 E. apply bind_inv_returned in E as (found & s2 & Hf & E).
      pose proof (up_ip_poll_returns ocid s0 found s2 Hf) as Hfound.
      destruct found as [ip |]; [| discriminate].
      apply ret_inv in E as [-> _]. now apply Hfound. }
    assert (X : raises (fun e => e = Exception "Failed to retrieve private IP address")
                       (ScaleDown.get_instance_private_ip ocid)).
    { unfold ScaleDown.get_instance_private_ip. repeat (raises_step || reflexivity). }
    destruct (ScaleDown.get_instance_private_ip ocid s) as [[a | e | ] s'] eqn:E; simpl.
    + exact (R s a s' E).
    + exact (X s e s' E).
    + now apply T.
Qed.

(** ** Deleting an instance *)

Lemma raises_call_from {A} (Q : exn -> Prop) (c : oci.call A) :
  (forall w e w', provider A c w = (inl e, w') -> Q e) -> raises Q (call c).
Proof.
  intros Hq [w log] e s' E. unfold call in E.
  destruct (provider A c w) as [[e0 | a] w'] eqn:Ep; inversion E; subst.
  exact (Hq w e w' Ep).
Qed.

Lemma raises_try_from {R} (Q0 Q : exn -> Prop) (body : M R) handler :
  raises Q0 body -> (forall e, Q0 e -> raises Q (handler e)) ->
  raises Q (try_except body handler).
Proof.
  intros Hb Hh s e s' E. unfold try_except in E.
  destruct (body s) as [[a | e1 | ] s1] eqn:Eb; try discriminate.
  exact (Hh e1 (Hb s e1 s1 Eb) s1 e s' E).
Qed.

Lemma raises_weaken {R} (Q Q' : exn -> Prop) (m : M R) :
  raises Q m -> (forall e, Q e -> Q' e) -> raises Q' m.
Proof. intros Hm Hq s e s' E. exact (Hq e (Hm s e s' E)). Qed.

Lemma deletion_poll_pending ocid (w : W) log :
  match fst (provider _ (oci.get_container_instance ocid) w) with
  | inr inst => lifecycle_state inst <> "DELETED"
  | inl (ServiceError status _) => status <> 404
  | inl (Exception _) => False
  end ->
  (try_except
         (inst <- call (oci.get_container_instance ocid) ;;
          if String.eqb (lifecycle_state inst) "DELETED"
          then ret (Some tt)
          else ret None)
         (fun e =>
            match e with
            | ServiceError status _ => if status =? 404 then ret (Some tt) else ret None
            | Exception _ => raise e
            end)) (w, log)
  = (Returned None,
     (replay [Called (oci.get_container_instance ocid)] w,
      (log ++ [Called (oci.get_container_instance ocid)])%list)).
Proof.
  intros Hp. unfold try_except, bind, call, replay. simpl.
  destruct (provider _ (oci.get_container_instance ocid) w) as [[e | inst] w'];
    simpl in *.
  - destruct e as [status text | text]; [| contradiction].
    destruct (Z.eqb_spec status 404); [contradiction | reflexivity].
  - destruct (String.eqb_spec (lifecycle_state inst) "DELETED");
      [contradiction | reflexivity].
Qed.

Lemma deletion_poll_gone ocid (w : W) log :
  match fst (provider _ (oci.get_container_instance ocid) w) with
  | inr inst => lifecycle_state inst = "DELETED"
  | inl (ServiceError status _) => status = 404
  | inl (Exception _) => False
  end ->
  (try_except
         (inst <- call (oci.get_container_instance ocid) ;;
          if String.eqb (lifecycle_state inst) "DELETED"
          then ret (Some tt)
          else ret None)
         (fun e =>
            match e with
            | ServiceError status _ => if status =? 404 then ret (Some tt) else ret None
            | Exception _ => raise e
            end)) (w, log)
  = (Returned (Some tt),
     (replay [Called (oci.get_container_instance ocid)] w,
      (log ++ [Called (oci.get_container_instance ocid)])%list)).
Proof.
  intros Hp. unfold try_except, bind, call, replay. simpl.
  destruct (provider _ (oci.get_container_instance ocid) w) as [[e | inst] w'];
    simpl in *.
  - destruct e as [status text | text]; [| contradiction].
    destruct (Z.eqb_spec status 404); [reflexivity | contradiction].
  - destruct (String.eqb_spec (lifecycle_state inst) "DELETED");
      [reflexivity | contradiction].
Qed.

Lemma deletion_poll_failed ocid (w : W) log text :
  fst (provider _ (oci.get_container_instance ocid) w) = inl (Exception text) ->
  (try_except
         (inst <- call (oci.get_container_instance ocid) ;;
          if String.eqb (lifecycle_state inst) "DELETED"
          then ret (Some tt)
          else ret None)
         (fun e =>
            match e with
            | ServiceError status _ => if status =? 404 then ret (Some tt) else ret None
            | Exception _ => raise e
            end)) (w, log)
  = (Raised (Exception text),
     (replay [Called (oci.get_container_instance ocid)] w,
      (log ++ [Called (oci.get_container_instance ocid)])%list)).
Proof.
  intros Hp. unfold try_except, bind, call, replay. simpl.
  destruct (provider _ (oci.get_container_instance ocid) w) as [[e | inst] w'];
    simpl in *; [| discriminate].
  now inversion Hp.
Qed.

(** The deletion once the provider has accepted the request: ten seconds of
    sleep, then the polling loop; of what the loop raises, nothing is a
    service error. *)
Lemma deletion_started ocid (w : W) log :
  answer_after w [] (oci.delete_container_instance ocid) = inr tt ->
  ScaleDown.delete_container_instance ocid (w, log)
  = try_except
      (while_elapsed (fuel_for 120) 0 120 10
         (try_except
          (inst <- call (oci.get_container_instance ocid) ;;
           if String.eqb (lifecycle_state inst) "DELETED"
           then ret (Some tt)
           else ret None)
          (fun e =>
             match e with
             | ServiceError status _ => if status =? 404 then ret (Some tt) else ret None
             | Exception _ => raise e
             end))
         (ret tt))
      (fun e =>
         match e with
         | ServiceError status _ => if status =? 404 then ret tt else raise e
         | Exception _ => raise e
         end)
      (replay [Called (oci.delete_container_instance ocid); Slept 10] w,
       (log ++ [Called (oci.delete_container_instance ocid); Slept 10])%list).
Proof.
  intros Hreq. unfold ScaleDown.delete_container_instance, try_except.
  unfold bind at 1. rewrite call_run.
  unfold answer_after in Hreq. simpl in Hreq. rewrite Hreq.
  unfold bind at 1, sleep.
  now rewrite <- app_assoc.
Qed.

(** X16.  [delete_container_instance] makes at most 13 SDK calls, one of
    them the deletion request, and sleeps at most 130 seconds.  A request the
    provider refuses with a 404 service error is a normal return, with any
    other exception it is raised again.  Once the request is accepted the
    instance is polled every 10 seconds, 12 times at most: a poll that shows
    a state other than DELETED, or raises a service error other than a 404,
    settles nothing; when no poll of the run settles anything the function
    returns normally after the last one; the first poll that shows DELETED
    or raises a 404 makes it return at once; the first poll that raises an
    exception that is not a service error makes it raise that exception. *)
Theorem deletion_tolerates_slow_and_failing_polls :
  forall (ocid : string) (w : W) (log : list event),
    let request := oci.delete_container_instance ocid in
    let poll := oci.get_container_instance ocid in
    let started := [Called request; Slept 10] in
    let answer (j : nat) := answer_after w (started ++ polls poll 10 j) poll in
    let pending (j : nat) :=
      match answer j with
      | inr inst => lifecycle_state inst <> "DELETED"
      | inl (ServiceError status _) => status <> 404
      | inl (Exception _) => False
      end in
    let gone (j : nat) :=
      match answer j with
      | inr inst => lifecycle_state inst = "DELETED"
      | inl (ServiceError status _) => status = 404
      | inl (Exception _) => False
      end in
    let stopped (k : nat) :=
      (replay (started ++ polls poll 10 k ++ [Called poll]) w,
       (log ++ started ++ polls poll 10 k ++ [Called poll])%list) in
    let run := ScaleDown.delete_container_instance ocid (w, log) in
    (exists l,
        snd (snd run) = (log ++ l)%list /\
        total one_per_call l <= 13 /\
        total seconds_slept l <= 130 /\
        total one_per_deletion l <= 1 /\
        exists rest, l = Called request :: rest)
    /\
    (forall e,
        answer_after w [] request = inl e ->
        run = (match e with
               | ServiceError status _ => if status =? 404 then Returned tt else Raised e
               | Exception _ => Raised e
               end,
               (replay [Called request] w, (log ++ [Called request])%list)))
    /\
    (answer_after w [] request = inr tt ->
     ((forall j, (j < 12)%nat -> pending j) ->
      run = (Returned tt,
             (replay (started ++ polls poll 10 12) w,
              (log ++ started ++ polls poll 10 12)%list)))
     /\
     (forall k,
         (k < 12)%nat -> (forall j, (j < k)%nat -> pending j) -> gone k ->
         run = (Returned tt, stopped k))
     /\
     (forall k text,
         (k < 12)%nat -> (forall j, (j < k)%nat -> pending j) ->
         answer k = inl (Exception text) ->
         run = (Raised (Exception text), stopped k))).
Proof.
  intros ocid w log request poll started answer pending gone stopped run.
  split; [| split].
  - assert (H1 : spends one_per_call 13 (ScaleDown.delete_container_instance ocid))
      by (eapply spends_weaken; [unfold_scale_down; budget | vm_compute; discriminate]).
    assert (H2 : spends seconds_slept 130 (ScaleDown.delete_container_instance ocid))
      by (eapply spends_weaken; [unfold_scale_down; budget | vm_compute; discriminate]).
    destruct (spends_both _ _ _ _ _ (w, log) H1 H2) as (l & E & T1 & T2).
    assert (H3 : spends one_per_deletion 1 (ScaleDown.delete_container_instance ocid))
      by (eapply spends_weaken; [unfold_scale_down; budget | vm_compute; discriminate]).
    destruct (H3 (w, log)) as (l3 & E3 & T3).
    rewrite E in E3. apply app_inv_head in E3. subst l3.
    destruct (delete_container_instance_begins ocid (w, log)) as (ev & rest & <- & Eb).
    rewrite E in Eb. apply app_inv_head in Eb.
    exists l. repeat split; auto. now exists rest.
  - intros e Hreq. unfold run, ScaleDown.delete_container_instance, try_except.
    unfold bind at 1. rewrite call_run.
    unfold answer_after, request in Hreq. simpl in Hreq. rewrite Hreq.
    destruct e as [status text | text]; [| reflexivity].
    now destruct (status =? 404).
  - intros Hreq.
    pose proof (deletion_started ocid w log Hreq) as Hrun. fold run in Hrun.
    fold request in Hrun. fold started in Hrun.
    set (settles_nothing :=
           fun r : exn + instance =>
             match r with
             | inr inst => lifecycle_state inst <> "DELETED"
             | inl (ServiceError status _) => status <> 404
             | inl (Exception _) => False
             end).
    match type of Hrun with
    | _ = try_except (while_elapsed _ _ _ _ ?b _) _ _ => pose (body := b)
    end.
    assert (Hbody : forall w0 log0,
               settles_nothing (fst (provider _ poll w0)) ->
               body (w0, log0)
               = (Returned None, (replay [Called poll] w0, (log0 ++ [Called poll])%list)))
      by (intros w0 log0; exact (deletion_poll_pending ocid w0 log0)).
    assert (Hshift : forall k,
               (forall j, (j < k)%nat -> pending j) ->
               forall j, (j < k)%nat ->
                 settles_nothing (answer_after (replay started w) (polls poll 10 j) poll)).
    { intros k Hp j Hj. rewrite <- answer_after_app. exact (Hp j Hj). }
    split; [| split].
    + intros Hall. rewrite Hrun. unfold try_except at 1. fold body.
      rewrite (while_times_out poll settles_nothing 120 10 body (ret tt) _ _
                 ltac:(lia) Hbody (Hshift 12%nat Hall)).
      change (Z.to_nat (iterations 120 10)) with 12%nat.
      unfold ret. now rewrite replay_app, <- !app_assoc.
    + intros k Hk Hbefore Hgone. rewrite Hrun. unfold try_except at 1. fold body.
      destruct (while_reaches poll settles_nothing 120 10 body (ret tt) (replay started w)
                  (log ++ started)%list k ltac:(lia) Hbody Hk (Hshift k Hbefore))
        as (fuel & ->).
      unfold bind at 1, body. rewrite deletion_poll_gone.
      * unfold stopped, ret. now rewrite !replay_app, <- !app_assoc.
      * unfold gone, answer, answer_after in Hgone. rewrite replay_app in Hgone.
        exact Hgone.
    + intros k text Hk Hbefore Hfail. rewrite Hrun. unfold try_except at 1. fold body.
      destruct (while_reaches poll settles_nothing 120 10 body (ret tt) (replay started w)
                  (log ++ started)%list k ltac:(lia) Hbody Hk (Hshift k Hbefore))
        as (fuel & ->).
      unfold bind at 1, body. rewrite (deletion_poll_failed ocid _ _ text).
      * unfold stopped, raise. now rewrite !replay_app, <- !app_assoc.
      * unfold answer, answer_after in Hfail. rewrite replay_app in Hfail.
        exact Hfail.
Qed.

(** ** The backend set *)

Lemma existsb_eqb_in (name : string) (names : list string) :
  existsb (String.eqb name) names = true <-> In name names.
Proof.
  rewrite existsb_exists. split.
  - intros (x & I & E). apply String.eqb_eq in E. now subst.
  - intros I. exists name. split; [assumption | apply String.eqb_refl].
Qed.

(** X17.  [ensure_backend_set_exists] creates the backend set only when the
    load balancer does not have it: when the name is among the backend sets
    it only reads; when it is absent it requests a ROUND_ROBIN set with an
    HTTP health check on the application port and path, and sleeps 30
    seconds once the request is accepted; an error of either call is raised
    to the caller as it is. *)
Theorem backend_set_is_created_only_when_absent :
  forall (cfg : ScaleUp.config) (w : W) (log : list event),
    let reading := oci.get_load_balancer (ScaleUp.lb_ocid cfg) in
    let creating :=
      oci.create_backend_set
        {| bs_name := ScaleUp.backend_set_name cfg;
           bs_policy := "ROUND_ROBIN";
           bs_health_checker :=
             {| hc_protocol := "HTTP";
                hc_port := ScaleUp.app_port cfg;
                hc_url_path := ScaleUp.health_check_path cfg;
                hc_interval_in_millis := 10000;
                hc_timeout_in_millis := 3000;
                hc_retries := 3;
                hc_return_code := 200 |} |}
        (ScaleUp.lb_ocid cfg) in
    (forall e w1,
        provider _ reading w = (inl e, w1) ->
        ScaleUp.ensure_backend_set_exists cfg (w, log)
        = (Raised e, (w1, (log ++ [Called reading])%list)))
    /\
    (forall names w1,
        provider _ reading w = (inr names, w1) ->
        In (ScaleUp.backend_set_name cfg) names ->
        ScaleUp.ensure_backend_set_exists cfg (w, log)
        = (Returned tt, (w1, (log ++ [Called reading])%list)))
    /\
    (forall names w1 answer w2,
        provider _ reading w = (inr names, w1) ->
        ~ In (ScaleUp.backend_set_name cfg) names ->
        provider _ creating w1 = (answer, w2) ->
        ScaleUp.ensure_backend_set_exists cfg (w, log)
        = match answer with
          | inr _ =>
              (Returned tt,
               (sleeping 30 w2,
                (((log ++ [Called reading]) ++ [Called creating]) ++ [Slept 30])%list))
          | inl e =>
              (Raised e, (w2, ((log ++ [Called reading]) ++ [Called creating])%list))
          end).
Proof.
  intros cfg w log reading creating. split; [| split].
  - intros e w1 E. unfold ScaleUp.ensure_backend_set_exists, try_except.
    fold reading. now rewrite (bind_raised _ _ _ _ _ (call_raised _ _ _ _ _ E)).
  - intros names w1 E Hin. unfold ScaleUp.ensure_backend_set_exists, try_except.
    fold reading. rewrite (bind_returned _ _ _ _ _ (call_returned _ _ _ _ _ E)).
    apply existsb_eqb_in in Hin. now rewrite Hin.
  - intros names w1 answer w2 E Hout Ec.
    unfold ScaleUp.ensure_backend_set_exists, try_except.
    fold reading. rewrite (bind_returned _ _ _ _ _ (call_returned _ _ _ _ _ E)).
    destruct (existsb (String.eqb (ScaleUp.backend_set_name cfg)) names) eqn:Ex;
      [apply existsb_eqb_in in Ex; contradiction |].
    fold creating. destruct answer as [e | []].
    + now rewrite (bind_raised _ _ _ _ _ (call_raised _ _ _ _ _ Ec)).
    + now rewrite (bind_returned _ _ _ _ _ (call_returned _ _ _ _ _ Ec)).
Qed.

(** ** Creating an instance *)

Lemma prefix_append (p s : string) : String.prefix p (p ++ s) = true.
Proof.
  induction p as [| a p IH]; simpl; [now destruct s |].
  destruct (ascii_dec a a); [exact IH | contradiction].
Qed.

Lemma call_then {A R} (P : event -> Prop) (c : oci.call A) (k : A -> M R) s :
  (forall a, emits P (k a)) ->
  exists l,
    snd (snd (bind (call c) k s)) = (snd s ++ Called c :: l)%list /\ Forall P l.
Proof.
  intros Hk. destruct s as [w log]. unfold bind, call.
  destruct (provider A c w) as [[e | a] w'].
  - exists []. auto.
  - destruct (Hk a (w', (log ++ [Called c])%list)) as (l & E & F).
    exists l. split; [| assumption]. rewrite E. simpl. now rewrite <- app_assoc.
Qed.

Lemma bind_ret {A B} (a : A) (k : A -> M B) (s : state W) : bind (ret a) k s = k a s.
Proof. reflexivity. Qed.

(** X18.  The creation request of a scale-up.  When both OCIR credentials
    are set and the SDK refuses to build the pull secret, the function
    raises the SDK's exception before any call: no instance is requested.
    Otherwise the request is the first call; it names the instance
    <prefix>-<timestamp>, a name that starts with the fleet prefix, so that
    the inventory readers of the function count the instance it creates; the
    host name is ci-<timestamp>; compartment, subnet, memory, CPUs and image
    come from the configuration; it carries the pull secret the SDK built
    when both credentials are set, and none otherwise.  Nothing else in the
    function creates an instance. *)
Theorem creation_request_carries_the_fleet_prefix :
  forall (cfg : ScaleUp.config) (w : W) (log : list event),
    let run := ScaleUp.create_container_instance cfg (w, log) in
    (forall e, pull_secret_answer cfg (inl e) -> run = (Raised e, (w, log)))
    /\
    (forall secrets,
        pull_secrets_sent cfg secrets ->
        exists details rest,
          snd (snd run)
          = (log ++ Called (oci.create_container_instance details) :: rest)%list /\
          cd_display_name details
          = ScaleUp.display_name_prefix cfg ++ "-" ++ str_of_int (time_time w) /\
          startswith (cd_display_name details) (ScaleUp.display_name_prefix cfg) = true /\
          cd_hostname_label details = "ci-" ++ str_of_int (time_time w) /\
          cd_compartment_id details = ScaleUp.compartment_id cfg /\
          cd_subnet_id details = ScaleUp.subnet_id cfg /\
          cd_memory_in_gbs details = ScaleUp.memory_gb cfg /\
          cd_ocpus details = ScaleUp.ocpus cfg /\
          cd_image_url details = ScaleUp.image_uri cfg /\
          cd_image_pull_secrets details = secrets /\
          Forall (fun ev => one_per_creation ev = 0) rest).
Proof.
  intros cfg w log run. split.
  - intros e He. apply create_container_instance_refused.
    exact (image_pull_secrets_answer cfg _ He).
  - intros secrets Hsent. apply pull_secrets_sent_built in Hsent.
    unfold run, ScaleUp.create_container_instance.
    unfold bind at 1, observe. cbv zeta. rewrite Hsent.
    unfold of_sum. rewrite bind_ret.
    match goal with
    | |- context [bind (call ?c) ?k (w, log)] =>
        destruct (call_then (fun ev => one_per_creation ev = 0) c k (w, log))
          as (rest & E & F)
    end.
    { intros wr. repeat (emits_step || reflexivity). }
    eexists. exists rest. split; [exact E |]. simpl.
    split; [reflexivity |]. split; [apply prefix_append |].
    repeat (split; [reflexivity |]). exact F.
Qed.

Lemma first_container_instance_spec resources ocid :
  ScaleUp.first_container_instance resources = Some ocid <->
  exists before r after,
    resources = (before ++ r :: after)%list /\
    entity_type r = "containerInstance" /\
    identifier r = ocid /\
    Forall (fun x => entity_type x <> "containerInstance") before.
Proof.
  induction resources as [| x rest IH]; simpl.
  - split; [discriminate |]. intros (before & r & after & E & _).
    now destruct before.
  - destruct (String.eqb_spec (entity_type x) "containerInstance") as [Ex | Ex].
    + split.
      * intros E. inversion E. exists [], x, rest. repeat split; auto.
      * intros (before & r & after & E & Er & Ei & F).
        destruct before as [| y before]; simpl in E; inversion E; subst.
        -- reflexivity.
        -- inversion F. contradiction.
    + rewrite IH. split.
      * intros (before & r & after & -> & Er & Ei & F).
        exists (x :: before), r, after. repeat split; auto.
      * intros (before & r & after & E & Er & Ei & F).
        destruct before as [| y before]; simpl in E; inversion E; subst.
        -- contradiction.
        -- inversion F. exists before, r, after. repeat split; auto.
Qed.

(** X19.  How [create_container_instance] finds the identifier of the new
    instance, for each answer of the provider to the request it sends.  A
    refused request raises the provider's error.  With a work request whose
    resources include a container instance, the function returns the
    identifier of the first such resource after sleeping 10 seconds, without
    listing.  With a work request that names no container instance, and
    without a work-request id, it sleeps 15 seconds and lists the instances
    by the exact display name of the request: it returns the identifier of
    the first one listed, and raises "Failed to retrieve container instance
    OCID" when the listing is empty, although the creation was requested. *)
Theorem instance_identifier_resolution :
  forall (cfg : ScaleUp.config) (w : W) (log : list event)
         (secrets : option (list image_pull_secret)),
    pull_secrets_sent cfg secrets ->
    let name := ScaleUp.display_name_prefix cfg ++ "-" ++ str_of_int (time_time w) in
    let request :=
      oci.create_container_instance
        (ScaleUp.create_details cfg (time_time w) name secrets) in
    let listing :=
      oci.list_container_instances (ScaleUp.compartment_id cfg) None (Some name) in
    let found (items : list instance) : outcome string :=
      match items with
      | first :: _ => Returned (id first)
      | [] => Raised (Exception "Failed to retrieve container instance OCID")
      end in
    let run := ScaleUp.create_container_instance cfg (w, log) in
    (forall e w1,
        provider _ request w = (inl e, w1) ->
        run = (Raised e, (w1, (log ++ [Called request])%list)))
    /\
    (forall wr w1 resources w2 ocid,
        provider _ request w = (inr (Some wr), w1) ->
        wr <> "" ->
        provider _ (oci.get_work_request wr) (sleeping 10 w1) = (inr resources, w2) ->
        (exists before r after,
            resources = (before ++ r :: after)%list /\
            entity_type r = "containerInstance" /\
            identifier r = ocid /\
            Forall (fun x => entity_type x <> "containerInstance") before) ->
        run = (Returned ocid,
               (w2, (log ++ [ Called request; Slept 10;
                              Called (oci.get_work_request wr) ])%list)))
    /\
    (forall wr w1 resources w2 items w3,
        provider _ request w = (inr (Some wr), w1) ->
        wr <> "" ->
        provider _ (oci.get_work_request wr) (sleeping 10 w1) = (inr resources, w2) ->
        Forall (fun x => entity_type x <> "containerInstance") resources ->
        provider _ listing (sleeping 15 w2) = (inr items, w3) ->
        run = (found items,
               (w3, (log ++ [ Called request; Slept 10;
                              Called (oci.get_work_request wr);
                              Slept 15; Called listing ])%list)))
    /\
    (forall answer w1 items w2,
        provider _ request w = (inr answer, w1) ->
        answer = None \/ answer = Some "" ->
        provider _ listing (sleeping 15 w1) = (inr items, w2) ->
        run = (found items,
               (w2, (log ++ [ Called request; Slept 15; Called listing ])%list))).
Proof.
  intros cfg w log secrets Hsent name request listing found run.
  apply pull_secrets_sent_built in Hsent.
  assert (Hfallback :
            forall w1 logx items w2,
              provider _ listing (sleeping 15 w1) = (inr items, w2) ->
              (sleep 15 ;;
               items0 <- call listing ;;
               match items0 with
               | first :: _ => ret (id first)
               | [] => raise (Exception "Failed to retrieve container instance OCID")
               end) (w1, logx)
              = (found items, (w2, ((logx ++ [Slept 15]) ++ [Called listing])%list))).
  { intros w1 logx items w2 Hl. unfold bind at 1, sleep.
    rewrite (bind_returned _ _ _ _ _ (call_returned _ _ _ _ _ Hl)).
    now destruct items. }
  split; [| split; [| split]].
  all: unfold run, ScaleUp.create_container_instance;
    unfold bind at 1, observe; cbv zeta; rewrite Hsent;
    unfold of_sum; rewrite bind_ret; fold name; fold request; fold listing.
  - intros e w1 Hreq.
    now rewrite (bind_raised _ _ _ _ _ (call_raised _ _ _ _ _ Hreq)).
  - intros wr w1 resources w2 ocid Hreq Hwr Hres Hfirst.
    apply first_container_instance_spec in Hfirst.
    rewrite (bind_returned _ _ _ _ _ (call_returned _ _ _ _ _ Hreq)).
    replace (truthy (Some wr)) with true
      by (unfold truthy; destruct (String.eqb_spec wr ""); [contradiction | reflexivity]).
    unfold bind at 1, sleep.
    rewrite (bind_returned _ _ _ _ _ (call_returned _ _ _ _ _ Hres)).
    rewrite Hfirst. unfold ret. now rewrite <- !app_assoc.
  - intros wr w1 resources w2 items w3 Hreq Hwr Hres Hnone Hl.
    assert (Hfirst : ScaleUp.first_container_instance resources = None).
    { destruct (ScaleUp.first_container_instance resources) as [ocid |] eqn:E;
        [| reflexivity].
      apply first_container_instance_spec in E
        as (before & r & after & -> & Er & _).
      apply Forall_app in Hnone as [_ Hnone]. inversion Hnone. contradiction. }
    rewrite (bind_returned _ _ _ _ _ (call_returned _ _ _ _ _ Hreq)).
    replace (truthy (Some wr)) with true
      by (unfold truthy; destruct (String.eqb_spec wr ""); [contradiction | reflexivity]).
    unfold bind at 1, sleep.
    rewrite (bind_returned _ _ _ _ _ (call_returned _ _ _ _ _ Hres)).
    rewrite Hfirst. rewrite (Hfallback _ _ _ _ Hl). now rewrite <- !app_assoc.
  - intros answer w1 items w2 Hreq Hanswer Hl.
    rewrite (bind_returned _ _ _ _ _ (call_returned _ _ _ _ _ Hreq)).
    destruct Hanswer as [-> | ->]; simpl truthy; cbv iota;
      rewrite (Hfallback _ _ _ _ Hl); now rewrite <- !app_assoc.
Qed.

(** ** Edge settings of the bounds *)

(** X20.  With MAX_INSTANCES at 0 or below the scale-up never creates
    anything: once the startup succeeded the result is skipped with the
    message of the maximum, and no mutating call was made. *)
Theorem non_positive_maximum_disables_scale_up :
  forall (env : environ) (data : option string) (w : W) cfg s1,
    scale_up_startup env (w, []) = (Returned cfg, s1) ->
    ScaleUp.max_instances cfg <= 0 ->
    exists d s',
      ScaleUp.handler env data (w, []) = (Returned d, s') /\
      dict_get "status" d = Some (VStr "skipped") /\
      message_mentions "maximum" d /\
      no_mutation (snd s').
Proof.
  intros env data w cfg s1 Hstart Hmax.
  destruct (count_active_total cfg s1) as (a & s2 & Ha).
  destruct (count_creating_total cfg s2) as (c & s3 & Hc).
  assert (0 <= a) by exact (count_active_nonneg cfg s1 a s2 Ha).
  assert (0 <= c) by exact (count_creating_nonneg cfg s2 c s3 Hc).
  eexists. exists s3. split; [| split; [| split]].
  - apply try_returned. unfold ScaleUp.handler_body.
    rewrite (up_enter env _ _ _ _ Hstart).
    rewrite (bind_returned _ _ _ _ _ Ha), (bind_returned _ _ _ _ _ Hc). cbv zeta.
    destruct (Z.geb_spec (a + c) (ScaleUp.max_instances cfg)); [reflexivity | lia].
  - reflexivity.
  - eexists. exists "Already at ".
    exists (" instances (" ++ str_of_int (ScaleUp.max_instances cfg) ++ ")")%string.
    split; reflexivity.
  - unfold no_mutation.
    apply (emits_keeps _ _ _ _ _ (count_creating_emits cfg) Hc).
    apply (emits_keeps _ _ _ _ _ (count_active_emits cfg) Ha).
    exact (up_startup_log env w cfg s1 Hstart).
Qed.

(** X21.  With a negative MIN_INSTANCES and an empty inventory the
    scale-down is not skipped: the victim selection raises and the result is
    error with the message "No instances available for removal"; no mutating
    call was made. *)
Theorem negative_minimum_with_empty_fleet_is_an_error :
  forall (env : environ) (data : option string) (w : W) cfg s1 s2,
    scale_down_startup env (w, []) = (Returned cfg, s1) ->
    ScaleDown.list_active_instances cfg s1 = (Returned [], s2) ->
    ScaleDown.min_instances cfg < 0 ->
    ScaleDown.handler env data (w, [])
    = (Returned [ ("status", VStr "error");
                  ("message", VStr "No instances available for removal");
                  ("timestamp", VStr (utcnow_isoformat (fst s2))) ], s2)
    /\ no_mutation (snd s2).
Proof.
  intros env data w cfg s1 s2 Hstart Hl Hmin. split.
  - unfold ScaleDown.handler, ScaleDown.handler_with, try_except,
      ScaleDown.handler_body_with.
    rewrite (down_enter env _ _ _ _ Hstart), (bind_returned _ _ _ _ _ Hl).
    destruct (Z.leb_spec (@len instance []) (ScaleDown.min_instances cfg));
      [unfold len in *; simpl in *; lia |].
    now destruct s2.
  - unfold no_mutation.
    apply (emits_keeps _ _ _ _ _ (list_active_emits cfg) Hl).
    exact (down_startup_log env w cfg s1 Hstart).
Qed.

(** ** What a success result stands for *)

Lemma call_inv_returned {A} (c : oci.call A) (w : W) log a s1 :
  call c (w, log) = (Returned a, s1) ->
  exists w', provider A c w = (inr a, w') /\ s1 = (w', (log ++ [Called c])%list).
Proof.
  unfold call. destruct (provider A c w) as [[e | a0] w']; intros E; inversion E.
  now exists w'.
Qed.

Lemma up_ip_returns_nonempty ocid :
  returns (fun a => a <> "") (ScaleUp.get_instance_private_ip ocid : M string).
Proof.
  unfold ScaleUp.get_instance_private_ip.
  apply returns_while; [apply up_ip_poll_returns | apply returns_raise].
Qed.

Lemma down_ip_returns_nonempty ocid :
  returns (fun a => a <> "") (ScaleDown.get_instance_private_ip ocid : M string).
Proof.
  unfold ScaleDown.get_instance_private_ip.
  intros s0 a s1 E. apply bind_inv_returned in E as (found & s2 & Hf & E).
  pose proof (up_ip_poll_returns ocid s0 found s2 Hf) as Hfound.
  destruct found as [ip |]; [| discriminate].
  apply ret_inv in E as [-> _]. now apply Hfound.
Qed.

(** X22.  A success result of the scale-up stands for a registered
    instance: one of the polls of the run was answered with the reported
    instance in the ACTIVE state, the address reported is not empty, and the
    last call of the run registered exactly that address, on the configured
    port, in the configured backend set, followed by the 20 seconds of
    settling. *)
Theorem successful_scale_up_registered_the_reported_address :
  forall (env : environ) (data : option string) (w : W) (d : dict) (s' : state W),
    ScaleUp.handler env data (w, []) = (Returned d, s') ->
    dict_get "status" d = Some (VStr "success") ->
    exists cfg ocid address before,
      ScaleUp.get_config env (w, []) = (Returned cfg, (w, [])) /\
      dict_get "instance_ocid" d = Some (VStr ocid) /\
      dict_get "private_ip" d = Some (VStr address) /\
      address <> "" /\
      (exists inst,
          answered w (snd s') (oci.get_container_instance ocid) (inr inst) /\
          lifecycle_state inst = "ACTIVE") /\
      snd s'
      = (before
         ++ [ Called (oci.create_backend
                        {| be_ip_address := address;
                           be_port := ScaleUp.app_port cfg;
                           be_weight := 1;
                           be_backup := false;
                           be_drain := false;
                           be_offline := false |}
                        (ScaleUp.lb_ocid cfg) (ScaleUp.backend_set_name cfg));
              Slept 20 ])%list.
Proof.
  intros env data w d s' Hrun Hok.
  destruct (up_run_cases env data w d s' Hrun)
    as [Herr | (cfg & s1 & a & s2 & c & s3 & Hstart & Ha & Hc & Hcases)];
    [rewrite Herr in Hok; discriminate |].
  destruct Hcases as [(_ & _ & E) | [(_ & _ & _ & E) | [(_ & _ & _ & E) | Hgo]]];
    try (rewrite E in Hok; discriminate).
  destruct Hgo as (_ & _ & s4 & ocid & [w5 log5] & seen & s6 & address & s7 & s8 & Hgo).
  destruct Hgo as (Hcool & Hcreate & Hwait & Hip & Hens & Hadd & ->).
  destruct (up_startup_inv _ _ _ _ Hstart) as (s0 & s0' & Hcfg & _).
  pose proof (up_get_config_silent env (w, [])) as Hs. rewrite Hcfg in Hs.
  simpl in Hs. subst s0.
  assert (Hlog : snd s'
                 = (snd s8
                    ++ [ Called (oci.create_backend
                                   {| be_ip_address := address;
                                      be_port := ScaleUp.app_port cfg;
                                      be_weight := 1;
                                      be_backup := false;
                                      be_drain := false;
                                      be_offline := false |}
                                   (ScaleUp.lb_ocid cfg) (ScaleUp.backend_set_name cfg));
                         Slept 20 ])%list).
  { unfold ScaleUp.add_backend_to_lb in Hadd. destruct s8 as [w8 log8].
    apply bind_inv_returned in Hadd as ([] & sx & Hcall & Hsleep).
    apply call_inv_returned in Hcall as (w9 & _ & ->).
    unfold sleep in Hsleep. inversion Hsleep. simpl. now rewrite <- app_assoc. }
  exists cfg, ocid, address, (snd s8).
  split; [exact Hcfg |]. split; [reflexivity |]. split; [reflexivity |].
  split; [exact (up_ip_returns_nonempty ocid s6 address s7 Hip) |].
  split; [| exact Hlog].
  assert (Htrack : w5 = replay log5 w).
  { assert (T1 : tracks (scale_up_startup env))
      by (unfold scale_up_startup; unfold_scale_up; repeat tracks_step).
    assert (T2 : tracks (ScaleUp.count_active_instances cfg))
      by (unfold_scale_up; repeat tracks_step).
    assert (T3 : tracks (ScaleUp.count_creating_instances cfg))
      by (unfold_scale_up; repeat tracks_step).
    assert (T4 : tracks (ScaleUp.check_cooldown cfg))
      by (unfold_scale_up; repeat tracks_step).
    assert (T5 : tracks (ScaleUp.create_container_instance cfg))
      by (unfold_scale_up; repeat tracks_step).
    apply (tracks_keeps _ w _ _ _ T5 Hcreate).
    apply (tracks_keeps _ w _ _ _ T4 Hcool).
    apply (tracks_keeps _ w _ _ _ T3 Hc).
    apply (tracks_keeps _ w _ _ _ T2 Ha).
    apply (tracks_keeps _ w _ _ _ T1 Hstart).
    reflexivity. }
  destruct (wait_outcome ocid "ACTIVE" 300 w5 log5)
    as [[_ E] | (k & inst & _ & _ & Hanswer & Hstate & E)];
    rewrite Hwait in E; [discriminate |].
  inversion E; subst s6. clear E.
  destruct (emits_run _ _ _ _ _ (up_get_instance_private_ip_emits ocid) Hip)
    as (l7 & E7 & _).
  destruct (emits_run _ _ _ _ _ (ensure_backend_set_exists_emits cfg) Hens)
    as (l8 & E8 & _).
  exists inst. split; [| exact Hstate].
  exists (log5 ++ polls (oci.get_container_instance ocid) 5 k)%list.
  eexists. split.
  - rewrite Hlog, E8, E7. simpl snd. rewrite <- !app_assoc. simpl. reflexivity.
  - rewrite answer_after_app, <- Htrack. exact Hanswer.
Qed.

(** X23.  A success result of the scale-down stands for a requested
    deletion: the instance reported is one the inventory listed, its
    deletion was requested, and the address reported is either "unknown" or
    a non-empty address whose backend <address>:<port> the run asked the load
    balancer to remove. *)
Theorem successful_scale_down_deleted_the_reported_instance :
  forall (env : environ) (data : option string) (w : W) (d : dict) (s' : state W),
    ScaleDown.handler env data (w, []) = (Returned d, s') ->
    dict_get "status" d = Some (VStr "success") ->
    exists cfg s1 l s2 v address,
      scale_down_startup env (w, []) = (Returned cfg, s1) /\
      ScaleDown.list_active_instances cfg s1 = (Returned l, s2) /\
      In v l /\
      dict_get "instance_ocid" d = Some (VStr (id v)) /\
      dict_get "instance_name" d = Some (VStr (display_name v)) /\
      dict_get "private_ip" d = Some (VStr address) /\
      In (Called (oci.delete_container_instance (id v))) (snd s') /\
      (address = "unknown" \/
       (address <> "" /\
        In (Called (oci.delete_backend
                      (ScaleDown.lb_ocid cfg) (ScaleDown.backend_set_name cfg)
                      (address ++ ":" ++ str_of_int (ScaleDown.app_port cfg))))
           (snd s'))).
Proof.
  intros env data w d s' Hrun Hok.
  destruct (down_run_cases env data w d s' Hrun)
    as [Herr | (cfg & s1 & l & s2 & Hstart & Hl & Hcases)];
    [rewrite Herr in Hok; discriminate |].
  destruct Hcases as [(_ & _ & ->) | (Hmin & v & address & s3 & done & Hsel & Hbest & Hdel & ->)];
    [discriminate |].
  assert (Hne : l <> []) by (intros ->; discriminate).
  destruct (select_returns l s2 Hne) as (v' & Hsel' & F).
  rewrite Hsel in Hsel'. inversion Hsel'; subst v'.
  exists cfg, s1, l, s2, v, address.
  split; [exact Hstart |]. split; [exact Hl |].
  split; [exact (first_earliest_in v l F) |].
  repeat (split; [reflexivity |]).
  destruct (delete_container_instance_begins (id v) s3) as (ev & rest & <- & E).
  rewrite Hdel in E. simpl in E.
  assert (Hgrow : exists l3, snd s' = (snd s3 ++ l3)%list)
    by (rewrite E; eexists; reflexivity).
  split; [rewrite E; apply in_or_app; right; now left |].
  apply try_inv_returned in Hbest as [Hbody | (e & sx & _ & Hunknown)].
  - right.
    apply bind_inv_returned in Hbody as (ip & [w4 log4] & Hip & Hbody).
    apply bind_inv_returned in Hbody as ([] & s5 & Hrem & Hret).
    apply ret_inv in Hret as [-> ->].
    split; [exact (down_ip_returns_nonempty (id v) s2 ip _ Hip) |].
    destruct Hgrow as (l3 & ->). apply in_or_app. left.
    unfold ScaleDown.remove_backend_from_lb in Hrem.
    match type of Hrem with
    | try_except (bind (call ?c) ?k) ?h ?s = _ =>
        destruct (call_then (fun _ => True) c k s) as (l4 & E4 & _);
        [intros; repeat (emits_step || exact I) |];
        assert (E5 : exists l5,
                   snd (snd (try_except (bind (call c) k) h s))
                   = (snd s ++ Called c :: l5)%list)
    end.
    { unfold try_except.
      match type of E4 with
      | snd (snd ?run) = _ => destruct run as [[[] | e | ] sy]; simpl in E4 |- *
      end.
      - now exists l4.
      - destruct e as [status text | text].
        + destruct (status =? 404); simpl; now exists l4.
        + simpl; now exists l4.
      - now exists l4. }
    destruct E5 as (l5 & E5). rewrite Hrem in E5. simpl in E5. rewrite E5.
    apply in_or_app. right. now left.
  - left. now apply ret_inv in Hunknown as [-> _].
Qed.

End Further.

(** * The further properties on concrete runs *)

Ltac run_of E handler_run :=
  eassert (E : handler_run = (Returned _, _)) by (vm_compute; reflexivity).

(** X1 on the simulated cloud with an empty environment. *)
Lemma misconfiguration_is_an_error_without_any_call_witness :
  let s : state Sim.world := (Sim.at_time 1000 Sim.one_active Sim.no_fault, []) in
  (exists d, ScaleUp.handler (fun _ => None) None s = (Returned d, s) /\
             dict_get "status" d = Some (VStr "error"))
  /\
  (exists d, ScaleDown.handler (fun _ => None) None s = (Returned d, s) /\
             dict_get "status" d = Some (VStr "error")).
Proof.
  intros s.
  destruct (@misconfiguration_is_an_error_without_any_call Sim.world Sim.platform
              (fun _ => None) None s) as [Hup Hdown].
  split; [apply Hup | apply Hdown]; left; reflexivity.
Defined.

(** X2 on the simulated cloud. *)
Lemma configurations_agree_witness :
  let s : state Sim.world := (Sim.at_time 1000 Sim.one_active Sim.no_fault, []) in
  exists down,
    ScaleDown.get_config Sim.env s = (Returned down, s) /\
    ScaleDown.display_name_prefix down = "autoscaling-demo-instance" /\
    ScaleDown.max_instances down = 5 /\
    ScaleDown.min_instances down = 1.
Proof.
  intros s.
  epose proof (@configurations_agree Sim.world Sim.platform Sim.env s _ _ eq_refl)
    as (down & Hd & _ & _ & Hp & _ & _ & _ & Hmax & Hmin).
  exists down. repeat split; assumption.
Defined.

(** X9 on the simulated cloud: a fleet at its maximum, a fleet at its
    minimum. *)
Lemma skipped_means_untouched_witness :
  no_mutation (snd (snd (ScaleUp.handler Sim.env None
                           (Sim.at_time 1000 Sim.five_active Sim.no_fault, []))))
  /\
  no_mutation (snd (snd (ScaleDown.handler Sim.env None
                           (Sim.at_time 1000 Sim.one_active Sim.no_fault, [])))).
Proof.
  split.
  - run_of E (ScaleUp.handler Sim.env None
                (Sim.at_time 1000 Sim.five_active Sim.no_fault, [])).
    match type of E with
    | _ = (Returned ?d, ?s) =>
        pose proof (proj1 (@skipped_means_untouched Sim.world Sim.platform Sim.env None
                             (Sim.at_time 1000 Sim.five_active Sim.no_fault)
                             d s eq_refl) E) as T
    end.
    rewrite E. exact T.
  - run_of E (ScaleDown.handler Sim.env None
                (Sim.at_time 1000 Sim.one_active Sim.no_fault, [])).
    match type of E with
    | _ = (Returned ?d, ?s) =>
        pose proof (proj2 (@skipped_means_untouched Sim.world Sim.platform Sim.env None
                             (Sim.at_time 1000 Sim.one_active Sim.no_fault)
                             d s eq_refl) E) as T
    end.
    rewrite E. exact T.
Defined.

(** X10 on the simulated cloud: one instance scaled up to two, two
    instances scaled down to one. *)
Lemma reported_fleet_size_is_within_bounds_witness :
  (exists d s n,
      ScaleUp.handler Sim.env None (Sim.at_time 1000 Sim.one_active Sim.no_fault, [])
      = (Returned d, s) /\
      dict_get "total_instances" d = Some (VInt n) /\ 1 <= n <= 5)
  /\
  (exists d s n,
      ScaleDown.handler Sim.env None (Sim.at_time 1000 Sim.two_active Sim.no_fault, [])
      = (Returned d, s) /\
      dict_get "total_instances" d = Some (VInt n) /\ 1 <= n).
Proof.
  split.
  - run_of E (ScaleUp.handler Sim.env None
                (Sim.at_time 1000 Sim.one_active Sim.no_fault, [])).
    match type of E with
    | _ = (Returned ?d, ?s) =>
        destruct (proj1 (@reported_fleet_size_is_within_bounds Sim.world Sim.platform
                           Sim.env None (Sim.at_time 1000 Sim.one_active Sim.no_fault)
                           d s eq_refl) E) as (cfg & n & Hcfg & Hn & Hb);
        exists d, s, n
    end.
    vm_compute in Hcfg. inversion Hcfg. subst cfg.
    split; [exact E |]. split; [exact Hn | exact Hb].
  - run_of E (ScaleDown.handler Sim.env None
                (Sim.at_time 1000 Sim.two_active Sim.no_fault, [])).
    match type of E with
    | _ = (Returned ?d, ?s) =>
        destruct (proj2 (@reported_fleet_size_is_within_bounds Sim.world Sim.platform
                           Sim.env None (Sim.at_time 1000 Sim.two_active Sim.no_fault)
                           d s eq_refl) E) as (cfg & n & Hcfg & Hn & Hb & _);
        exists d, s, n
    end.
    vm_compute in Hcfg. inversion Hcfg. subst cfg.
    split; [exact E |]. split; [exact Hn | exact Hb].
Defined.

(** X11 on the simulated cloud: the instance deleted is the first listed of
    the two. *)
Lemma scale_down_deletes_only_listed_fleet_members_witness :
  exists inst,
    In inst Sim.two_active /\ id inst = "ocid1.b" /\
    startswith (display_name inst) "autoscaling-demo-instance" = true.
Proof.
  destruct (@scale_down_deletes_only_listed_fleet_members Sim.world Sim.platform
              Sim.env None (Sim.at_time 1000 Sim.two_active Sim.no_fault) "ocid1.b")
    as (cfg & w1 & log1 & items & w2 & inst & Hstart & Hlist & Hin & Hid & Hpre & _).
  - vm_compute. right. right. right. right. right. right. left. reflexivity.
  - vm_compute in Hstart. inversion Hstart. subst cfg w1 log1.
    vm_compute in Hlist. inversion Hlist. subst items w2.
    exists inst. repeat split; assumption.
Defined.

(** X12 on the simulated cloud: the run that registered a backend had
    passed the three checks. *)
Lemma scale_up_mutates_only_after_all_checks_witness :
  exists cfg s1 a s2 s3 s4,
    scale_up_startup Sim.env (Sim.at_time 1000 Sim.one_active Sim.no_fault, [])
    = (Returned cfg, s1) /\
    ScaleUp.count_active_instances cfg s1 = (Returned a, s2) /\
    ScaleUp.count_creating_instances cfg s2 = (Returned 0, s3) /\
    ScaleUp.check_cooldown cfg s3 = (Returned true, s4) /\
    0 <= a < ScaleUp.max_instances cfg.
Proof.
  apply (@scale_up_mutates_only_after_all_checks Sim.world Sim.platform
           Sim.env None (Sim.at_time 1000 Sim.one_active Sim.no_fault)
           (Called (oci.create_backend
                      {| be_ip_address := "10.0.0.7";
                         be_port := 8080;
                         be_weight := 1;
                         be_backup := false;
                         be_drain := false;
                         be_offline := false |}
                      None "autoscaling-demo-backend-set"))).
  - vm_compute. do 11 right. left. reflexivity.
  - reflexivity.
Defined.

(** X16 on the cloud that accepts deletions and never completes them: the
    deletion returns normally after the request, 10 seconds and 12 polls. *)
Lemma deletion_tolerates_slow_and_failing_polls_witness :
  @ScaleDown.delete_container_instance unit Lingering.platform "ocid1.x" (tt, [])
  = (Returned tt,
     (tt,
      ([ Called (oci.delete_container_instance "ocid1.x"); Slept 10 ]
       ++ polls (oci.get_container_instance "ocid1.x") 10 12)%list)).
Proof.
  apply (proj1 (proj2 (proj2 (@deletion_tolerates_slow_and_failing_polls
                                unit Lingering.platform "ocid1.x" tt [])) eq_refl)).
  intros j _. cbn. discriminate.
Defined.

(** X17 on the scripted cloud: the backend set is there, the backend set is
    missing. *)
Lemma backend_set_is_created_only_when_absent_witness :
  let cfg :=
    {| ScaleUp.compartment_id := Some "ocid1.compartment";
       ScaleUp.subnet_id := None;
       ScaleUp.availability_domain := None;
       ScaleUp.image_uri := "docker.io/dralquinta/ci-autoscaling:latest";
       ScaleUp.container_name := "autoscaling-demo";
       ScaleUp.display_name_prefix := "autoscaling-demo-instance";
       ScaleUp.memory_gb := 8;
       ScaleUp.ocpus := 1;
       ScaleUp.lb_ocid := Some "ocid1.lb";
       ScaleUp.backend_set_name := "autoscaling-demo-backend-set";
       ScaleUp.app_port := 8080;
       ScaleUp.health_check_path := "/actuator/health";
       ScaleUp.max_instances := 5;
       ScaleUp.min_instances := 1;
       ScaleUp.cooldown_seconds := 120;
       ScaleUp.ocir_username := None;
       ScaleUp.ocir_auth_token := None;
       ScaleUp.ocir_registry := "sa-santiago-1.ocir.io" |} in
  let present :=
    {| Scripted.created := None; Scripted.resources := []; Scripted.listed := [];
       Scripted.backend_sets := ["autoscaling-demo-backend-set"] |} in
  let absent :=
    {| Scripted.created := None; Scripted.resources := []; Scripted.listed := [];
       Scripted.backend_sets := ["another-set"] |} in
  snd (snd (@ScaleUp.ensure_backend_set_exists unit (Scripted.platform present) cfg (tt, [])))
  = [ Called (oci.get_load_balancer (Some "ocid1.lb")) ]
  /\
  total one_per_call
    (snd (snd (@ScaleUp.ensure_backend_set_exists unit (Scripted.platform absent)
                 cfg (tt, [])))) = 2.
Proof.
  intros cfg present absent. split.
  - destruct (@backend_set_is_created_only_when_absent unit (Scripted.platform present)
                cfg tt []) as (_ & Hthere & _).
    rewrite (Hthere ["autoscaling-demo-backend-set"] tt eq_refl);
      [reflexivity | now left].
  - destruct (@backend_set_is_created_only_when_absent unit (Scripted.platform absent)
                cfg tt []) as (_ & _ & Hmissing).
    rewrite (Hmissing ["another-set"] tt (inr tt) tt eq_refl);
      [reflexivity | intros [E | []]; discriminate | reflexivity].
Defined.

(** X18 on the simulated cloud.  Without registry credentials the request
    is sent and names the instance after the prefix and the time; with both
    credentials the SDK of the simulation refuses the pull secret and no
    request is sent: the scale-up ends in an error result. *)
Lemma creation_request_carries_the_fleet_prefix_witness :
  let plain :=
    {| ScaleUp.compartment_id := Some "ocid1.compartment";
       ScaleUp.subnet_id := None;
       ScaleUp.availability_domain := None;
       ScaleUp.image_uri := "docker.io/dralquinta/ci-autoscaling:latest";
       ScaleUp.container_name := "autoscaling-demo";
       ScaleUp.display_name_prefix := "autoscaling-demo-instance";
       ScaleUp.memory_gb := 8;
       ScaleUp.ocpus := 1;
       ScaleUp.lb_ocid := Some "ocid1.lb";
       ScaleUp.backend_set_name := "autoscaling-demo-backend-set";
       ScaleUp.app_port := 8080;
       ScaleUp.health_check_path := "/actuator/health";
       ScaleUp.max_instances := 5;
       ScaleUp.min_instances := 1;
       ScaleUp.cooldown_seconds := 120;
       ScaleUp.ocir_username := None;
       ScaleUp.ocir_auth_token := None;
       ScaleUp.ocir_registry := "sa-santiago-1.ocir.io" |} in
  let private :=
    {| ScaleUp.compartment_id := Some "ocid1.compartment";
       ScaleUp.subnet_id := None;
       ScaleUp.availability_domain := None;
       ScaleUp.image_uri := "docker.io/dralquinta/ci-autoscaling:latest";
       ScaleUp.container_name := "autoscaling-demo";
       ScaleUp.display_name_prefix := "autoscaling-demo-instance";
       ScaleUp.memory_gb := 8;
       ScaleUp.ocpus := 1;
       ScaleUp.lb_ocid := Some "ocid1.lb";
       ScaleUp.backend_set_name := "autoscaling-demo-backend-set";
       ScaleUp.app_port := 8080;
       ScaleUp.health_check_path := "/actuator/health";
       ScaleUp.max_instances := 5;
       ScaleUp.min_instances := 1;
       ScaleUp.cooldown_seconds := 120;
       ScaleUp.ocir_username := Some "tenancy/user";
       ScaleUp.ocir_auth_token := Some "token";
       ScaleUp.ocir_registry := "sa-santiago-1.ocir.io" |} in
  let s : state Sim.world := (Sim.at_time 1000 Sim.one_active Sim.no_fault, []) in
  (exists details rest,
      snd (snd (ScaleUp.create_container_instance plain s))
      = Called (oci.create_container_instance details) :: rest /\
      cd_display_name details = "autoscaling-demo-instance-1000" /\
      cd_image_pull_secrets details = None)
  /\
  ScaleUp.create_container_instance private s
  = (Raised Sim.unrecognized_keyword_arguments, s)
  /\
  (exists d s',
      ScaleUp.handler Sim.env_with_credentials None s = (Returned d, s') /\
      dict_get "status" d = Some (VStr "error") /\
      no_mutation (snd s')).
Proof.
  intros plain private s. split; [| split].
  - destruct (proj2 (@creation_request_carries_the_fleet_prefix Sim.world Sim.platform
                       plain (Sim.at_time 1000 Sim.one_active Sim.no_fault) []) None)
      as (details & rest & Hlog & Hname & _ & _ & _ & _ & _ & _ & _ & Hsecrets & _).
    + left. split; reflexivity.
    + exists details, rest. split; [exact Hlog |]. split; [exact Hname | exact Hsecrets].
  - apply (proj1 (@creation_request_carries_the_fleet_prefix Sim.world Sim.platform
                    private (Sim.at_time 1000 Sim.one_active Sim.no_fault) [])).
    exists "tenancy/user", "token".
    split; [reflexivity |]. split; [discriminate |].
    split; [reflexivity |]. split; [discriminate | reflexivity].
  - eexists. eexists. split; [vm_compute; reflexivity |].
    split; [reflexivity |]. repeat constructor.
Defined.

(** X19 on the simulated cloud, which answers the request without a work
    request: the new instance is found by its display name.  On the scripted
    cloud: a work request that names the instance, and no work request with
    an empty listing. *)
Lemma instance_identifier_resolution_witness :
  let cfg :=
    {| ScaleUp.compartment_id := Some "ocid1.compartment";
       ScaleUp.subnet_id := None;
       ScaleUp.availability_domain := None;
       ScaleUp.image_uri := "docker.io/dralquinta/ci-autoscaling:latest";
       ScaleUp.container_name := "autoscaling-demo";
       ScaleUp.display_name_prefix := "autoscaling-demo-instance";
       ScaleUp.memory_gb := 8;
       ScaleUp.ocpus := 1;
       ScaleUp.lb_ocid := Some "ocid1.lb";
       ScaleUp.backend_set_name := "autoscaling-demo-backend-set";
       ScaleUp.app_port := 8080;
       ScaleUp.health_check_path := "/actuator/health";
       ScaleUp.max_instances := 5;
       ScaleUp.min_instances := 1;
       ScaleUp.cooldown_seconds := 120;
       ScaleUp.ocir_username := None;
       ScaleUp.ocir_auth_token := None;
       ScaleUp.ocir_registry := "sa-santiago-1.ocir.io" |} in
  let resolved :=
    {| Scripted.created := Some "ocid1.workrequest";
       Scripted.resources :=
         [ {| entity_type := "vnic"; identifier := "ocid1.vnic" |};
           {| entity_type := "containerInstance"; identifier := "ocid1.new" |} ];
       Scripted.listed := [];
       Scripted.backend_sets := [] |} in
  let lost :=
    {| Scripted.created := None; Scripted.resources := []; Scripted.listed := [];
       Scripted.backend_sets := [] |} in
  fst (ScaleUp.create_container_instance cfg (Sim.at_time 1000 [] Sim.no_fault, []))
  = Returned "ocid1.autoscaling-demo-instance-1000"
  /\
  fst (@ScaleUp.create_container_instance unit (Scripted.platform resolved) cfg (tt, []))
  = Returned "ocid1.new"
  /\
  fst (@ScaleUp.create_container_instance unit (Scripted.platform lost) cfg (tt, []))
  = Raised (Exception "Failed to retrieve container instance OCID").
Proof.
  intros cfg resolved lost.
  assert (Hsent : forall W (P : Platform W), @pull_secrets_sent W P cfg None)
    by (intros W P; left; split; reflexivity).
  split; [| split].
  - destruct (@instance_identifier_resolution Sim.world Sim.platform cfg
                (Sim.at_time 1000 [] Sim.no_fault) [] None (Hsent _ _))
      as (_ & _ & _ & Hlist).
    rewrite (Hlist None _ _ _ eq_refl (or_introl eq_refl) eq_refl). reflexivity.
  - destruct (@instance_identifier_resolution unit (Scripted.platform resolved)
                cfg tt [] None (Hsent _ _)) as (_ & Hwr & _).
    rewrite (Hwr "ocid1.workrequest" tt (Scripted.resources resolved) tt "ocid1.new");
      try reflexivity.
    + discriminate.
    + exists [ {| entity_type := "vnic"; identifier := "ocid1.vnic" |} ],
        {| entity_type := "containerInstance"; identifier := "ocid1.new" |}, [].
      repeat split. repeat constructor. discriminate.
  - destruct (@instance_identifier_resolution unit (Scripted.platform lost)
                cfg tt [] None (Hsent _ _)) as (_ & _ & _ & Hlist).
    rewrite (Hlist None tt [] tt eq_refl (or_introl eq_refl) eq_refl). reflexivity.
Defined.

(** X20 on the simulated cloud with MAX_INSTANCES set to 0. *)
Lemma non_positive_maximum_disables_scale_up_witness :
  let env : environ :=
    fun k =>
      if String.eqb k "COMPARTMENT_OCID" then Some "ocid1.compartment"
      else if String.eqb k "MAX_INSTANCES" then Some "0"
      else None in
  exists d s',
    ScaleUp.handler env None (Sim.at_time 1000 [] Sim.no_fault, []) = (Returned d, s') /\
    dict_get "status" d = Some (VStr "skipped") /\
    message_mentions "maximum" d /\
    no_mutation (snd s').
Proof.
  intros env.
  eapply (@non_positive_maximum_disables_scale_up Sim.world Sim.platform env None
            (Sim.at_time 1000 [] Sim.no_fault)).
  - reflexivity.
  - vm_compute. discriminate.
Defined.

(** X21 on the simulated cloud with MIN_INSTANCES set to -1 and no
    instance. *)
Lemma negative_minimum_with_empty_fleet_is_an_error_witness :
  let env : environ :=
    fun k =>
      if String.eqb k "COMPARTMENT_OCID" then Some "ocid1.compartment"
      else if String.eqb k "MIN_INSTANCES" then Some "-1"
      else None in
  dict_get "message"
    match fst (ScaleDown.handler env None (Sim.at_time 1000 [] Sim.no_fault, [])) with
    | Returned d => d
    | _ => []
    end
  = Some (VStr "No instances available for removal").
Proof.
  intros env.
  epose proof (@negative_minimum_with_empty_fleet_is_an_error Sim.world Sim.platform
                 env None (Sim.at_time 1000 [] Sim.no_fault) _ _ _ eq_refl eq_refl)
    as T.
  assert (Hmin : -1 < 0) by reflexivity.
  destruct (T Hmin) as [-> _]. reflexivity.
Defined.

(** X22 on the simulated cloud: one instance, cooldown elapsed. *)
Lemma successful_scale_up_registered_the_reported_address_witness :
  exists d s address before details inst,
    ScaleUp.handler Sim.env None (Sim.at_time 1000 Sim.one_active Sim.no_fault, [])
    = (Returned d, s) /\
    dict_get "private_ip" d = Some (VStr address) /\
    address <> "" /\
    answered (Sim.at_time 1000 Sim.one_active Sim.no_fault) (snd s)
      (oci.get_container_instance "ocid1.autoscaling-demo-instance-1000") (inr inst) /\
    lifecycle_state inst = "ACTIVE" /\
    be_ip_address details = address /\
    snd s = (before ++ [ Called (oci.create_backend details None
                                   "autoscaling-demo-backend-set");
                         Slept 20 ])%list.
Proof.
  run_of E (ScaleUp.handler Sim.env None
              (Sim.at_time 1000 Sim.one_active Sim.no_fault, [])).
  match type of E with
  | _ = (Returned ?d, ?s) =>
      destruct (@successful_scale_up_registered_the_reported_address
                  Sim.world Sim.platform Sim.env None
                  (Sim.at_time 1000 Sim.one_active Sim.no_fault) d s E eq_refl)
        as (cfg & ocid & address & before & Hcfg & Hid & Hip & Hne
            & (inst & Hseen & Hstate) & Hlog);
      exists d, s, address, before
  end.
  vm_compute in Hcfg. inversion Hcfg. subst cfg.
  vm_compute in Hid. inversion Hid. subst ocid.
  eexists. exists inst. split; [exact E |]. split; [exact Hip |]. split; [exact Hne |].
  split; [exact Hseen |]. split; [exact Hstate |].
  split; [| exact Hlog]. reflexivity.
Defined.

(** X23 on the simulated cloud: two instances, the first listed is
    deleted. *)
Lemma successful_scale_down_deleted_the_reported_instance_witness :
  exists d s v,
    ScaleDown.handler Sim.env None (Sim.at_time 1000 Sim.two_active Sim.no_fault, [])
    = (Returned d, s) /\
    dict_get "instance_ocid" d = Some (VStr (id v)) /\
    In (Called (oci.delete_container_instance (id v))) (snd s).
Proof.
  run_of E (ScaleDown.handler Sim.env None
              (Sim.at_time 1000 Sim.two_active Sim.no_fault, [])).
  match type of E with
  | _ = (Returned ?d, ?s) =>
      destruct (@successful_scale_down_deleted_the_reported_instance
                  Sim.world Sim.platform Sim.env None
                  (Sim.at_time 1000 Sim.two_active Sim.no_fault) d s E eq_refl)
        as (cfg & s1 & l & s2 & v & address & _ & _ & _ & Hid & _ & _ & Hdel & _);
      exists d, s, v
  end.
  split; [exact E |]. split; [exact Hid | exact Hdel].
Defined.
